(** * Voting-KDS: the Streamlit survey application [vote.py]

    A shallow embedding of the survey application and the properties its
    specification states about it.  The application keeps all its data in
    three worksheets of one Google spreadsheet and drives three pages
    (login, questions, success) from [st.session_state].

    The Python functions are embedded as computations in a state and
    exception monad over a [world] that holds the spreadsheet, the Streamlit
    caches, the session state, what was drawn on the screen and the trace of
    spreadsheet API calls.  The libraries the program calls (gspread,
    Streamlit) are not part of the program; their behaviour is fixed by the
    small model in the sections [Store] and [Streamlit] below. *)

From Stdlib Require Import ZArith String Ascii List Bool Lia Permutation Sorted.
From stdpp Require Import base option list gmap strings fin_maps pretty.

Local Open Scope string_scope.
Local Open Scope list_scope.
Local Open Scope Z_scope.
Local Open Scope nat_scope.

(** ** Python strings

    Strings are sequences of bytes.  [strip] and [lower] act as Python's
    [str.strip()] and [str.lower()] do on ASCII text; bytes above 127 are
    left alone.  The byte-wise order [String.leb] is the order Python's
    [sorted] uses on [str] (code point order, which UTF-8 preserves). *)
Module PyStr.

(** [str.isspace] on ASCII: tab, newline, vertical tab, form feed,
    carriage return, the four separators 28..31 and the blank. *)
Definition is_space (c : ascii) : bool :=
  let n := nat_of_ascii c in
  ((9 <=? n) && (n <=? 13)) || ((28 <=? n) && (n <=? 32)).

Fixpoint lstrip (s : string) : string :=
  match s with
  | EmptyString => EmptyString
  | String c s' => if is_space c then lstrip s' else s
  end.

Fixpoint rstrip (s : string) : string :=
  match s with
  | EmptyString => EmptyString
  | String c s' =>
      match rstrip s' with
      | EmptyString => if is_space c then EmptyString else String c EmptyString
      | r => String c r
      end
  end.

Definition strip (s : string) : string := rstrip (lstrip s).

Definition lower_char (c : ascii) : ascii :=
  let n := nat_of_ascii c in
  if (65 <=? n) && (n <=? 90) then ascii_of_nat (n + 32) else c.

Fixpoint lower (s : string) : string :=
  match s with
  | EmptyString => EmptyString
  | String c s' => String (lower_char c) (lower s')
  end.

(** [needle in hay] *)
Fixpoint contains (needle hay : string) : bool :=
  String.prefix needle hay ||
  match hay with
  | EmptyString => false
  | String _ hay' => contains needle hay'
  end.

End PyStr.

(** ** Python values

    The values the program handles: cells of a worksheet as
    [get_all_records] returns them (text, or an integer where the cell
    holds a number) and [None]. *)
Inductive pyval :=
| PNone
| PStr (s : string)
| PInt (z : Z).

Global Instance pyval_eq_dec : EqDecision pyval.
Proof. solve_decision. Defined.

(** [str(v)] *)
Definition py_str (v : pyval) : string :=
  match v with
  | PNone => "None"
  | PStr s => s
  | PInt z => pretty z
  end.

(** Truth value of [v] in a condition. *)
Definition truthy (v : pyval) : bool :=
  match v with
  | PNone => false
  | PStr s => negb (String.eqb s "")
  | PInt z => negb (Z.eqb z 0)
  end.

(** A record of [get_all_records]: a dict from column name to cell. *)
Abbreviation row := (gmap string pyval).

(** ** Exceptions and script control

    [exn] are the exceptions derived from [Exception] that can arise;
    [ctl] are Streamlit's script-control exceptions raised by [st.stop()]
    and [st.rerun()], which derive from [BaseException] and so pass through
    every [except Exception] of the program. *)
Inductive exn :=
| WorksheetNotFound
| APIError
| NameError
| KeyError
| AttributeError
| TypeError
| DuplicateWidgetID.

Global Instance exn_eq_dec : EqDecision exn.
Proof. solve_decision. Defined.

Inductive ctl := StopException | RerunException.

Global Instance ctl_eq_dec : EqDecision ctl.
Proof. solve_decision. Defined.

Inductive outcome (A : Type) :=
| Ok (a : A)
| Raise (e : exn)
| Halt (c : ctl).
Arguments Ok {A} a.
Arguments Raise {A} e.
Arguments Halt {A} c.

(** Stand-in for [str(e)]: the text of a library exception is not
    modelled, its class name is shown instead. *)
Definition exn_str (e : exn) : string :=
  match e with
  | WorksheetNotFound => "WorksheetNotFound"
  | APIError => "APIError"
  | NameError => "name 'gspread' is not defined"
  | KeyError => "KeyError"
  | AttributeError => "AttributeError"
  | TypeError => "TypeError"
  | DuplicateWidgetID => "DuplicateWidgetID"
  end.

(** Pure computations that may raise. *)
Inductive result (A : Type) :=
| Val (a : A)
| Err (e : exn).
Arguments Val {A} a.
Arguments Err {A} e.

Definition obind {A B} (o : result A) (k : A -> result B) : result B :=
  match o with
  | Val a => k a
  | Err e => Err e
  end.

Notation "'let?' x ':=' o 'in' k" := (obind o (fun x => k))
  (at level 10, x name, o at level 100, k at level 200).

(** [v.strip()], [v.lower()]: only [str] has these methods. *)
Definition py_strip (v : pyval) : result string :=
  match v with
  | PStr s => Val (PyStr.strip s)
  | _ => Err AttributeError
  end.

Definition py_lower (v : pyval) : result string :=
  match v with
  | PStr s => Val (PyStr.lower s)
  | _ => Err AttributeError
  end.

(** [r[k]] and [r.get(k, d)] on a record. *)
Definition getitem (r : row) (k : string) : result pyval :=
  match r !! k with
  | Some v => Val v
  | None => Err KeyError
  end.

Definition get_default (r : row) (k : string) (d : pyval) : pyval :=
  default d (r !! k).

(** [e.get('email', '').strip().lower()], the key both the login page, the
    questions page and [update_employee_status] compare emails by. *)
Definition email_key (e : row) : result string :=
  let? s := py_strip (get_default e "email" (PStr "")) in
  Val (PyStr.lower s).

(** [email.strip().lower()] on a string. *)
Definition normalize (email : string) : string :=
  PyStr.lower (PyStr.strip email).

(** ** The world

    Everything a run of the script can read or change. *)

(** A worksheet is its grid of rows, the header row first; cells hold the
    values [get_all_records] presents. *)
Abbreviation worksheet := (list (list pyval)).

(** What [get_config], [get_gspread_client] and [extract_sheet_id] find:
    the content of [st.secrets] and whether the service account is
    accepted.  [sheet_id] is the result of [extract_sheet_id] on the
    configured URL when that is a non-empty string, and [None] when it is
    [None] or empty (the two cases [if not sheet_id] does not tell apart). *)
Record config := Config {
  secrets_present : bool;
  sheet_url : string;
  sheet_id : option string;
  credentials_valid : bool
}.

(** Calls of the gspread API, in the order they are issued. *)
Inductive api :=
| OpenByKey
| Worksheet (name : string)
| AddWorksheet (name : string)
| GetAllRecords (name : string)
| AppendRow (name : string) (r : list pyval)
| AppendRows (name : string) (rs : list (list pyval))
| UpdateCell (name : string) (r c : nat) (v : pyval).

(** What a run draws: messages and the widgets that carry state. *)
Inductive ui :=
| UiError (text : string)
| UiWarning (text : string)
| UiInfo (text : string)
| UiSuccess (text : string)
| UiWrite (text : string)
| UiSubheader (text : string)
| UiSelectbox (key : string) (options : list pyval) (index : nat)
| UiButton (label : string) (disabled : bool).

(** [st.session_state]; [None] is an absent key. *)
Record session_state := Session {
  sheets_initialized : option bool;
  page : option string;
  user_email : option pyval;
  user_name : option pyval;
  selections : option (gmap string pyval)
}.

Definition empty_session : session_state :=
  Session None None None None None.

Record world := World {
  cfg : config;
  (** whether the module's global namespace binds the name [gspread];
      [vote.py] imports it only inside [get_gspread_client] *)
  gspread_bound : bool;
  sheets : gmap string worksheet;
  (** one entry per API call still to come: [true] makes that call raise
      [APIError]; calls beyond the schedule succeed *)
  faults : list bool;
  clock : nat;
  employees_cache : option (nat * list row);
  questions_cache : option (nat * list row);
  session : session_state;
  screen : list ui;
  calls : list api
}.

Definition set_sheets (f : gmap string worksheet -> gmap string worksheet) (w : world) : world :=
  World (cfg w) (gspread_bound w) (f (sheets w)) (faults w) (clock w)
        (employees_cache w) (questions_cache w) (session w) (screen w) (calls w).

Definition set_faults (fs : list bool) (w : world) : world :=
  World (cfg w) (gspread_bound w) (sheets w) fs (clock w)
        (employees_cache w) (questions_cache w) (session w) (screen w) (calls w).

Definition set_employees_cache (c : option (nat * list row)) (w : world) : world :=
  World (cfg w) (gspread_bound w) (sheets w) (faults w) (clock w)
        c (questions_cache w) (session w) (screen w) (calls w).

Definition set_questions_cache (c : option (nat * list row)) (w : world) : world :=
  World (cfg w) (gspread_bound w) (sheets w) (faults w) (clock w)
        (employees_cache w) c (session w) (screen w) (calls w).

Definition set_session (f : session_state -> session_state) (w : world) : world :=
  World (cfg w) (gspread_bound w) (sheets w) (faults w) (clock w)
        (employees_cache w) (questions_cache w) (f (session w)) (screen w) (calls w).

Definition add_screen (u : ui) (w : world) : world :=
  World (cfg w) (gspread_bound w) (sheets w) (faults w) (clock w)
        (employees_cache w) (questions_cache w) (session w) (screen w ++ [u]) (calls w).

Definition add_call (a : api) (w : world) : world :=
  World (cfg w) (gspread_bound w) (sheets w) (faults w) (clock w)
        (employees_cache w) (questions_cache w) (session w) (screen w) (calls w ++ [a]).

Definition set_page (p : string) (s : session_state) : session_state :=
  Session (sheets_initialized s) (Some p) (user_email s) (user_name s) (selections s).

Definition set_user_email (v : option pyval) (s : session_state) : session_state :=
  Session (sheets_initialized s) (page s) v (user_name s) (selections s).

Definition set_user_name (v : option pyval) (s : session_state) : session_state :=
  Session (sheets_initialized s) (page s) (user_email s) v (selections s).

Definition set_selections (v : option (gmap string pyval)) (s : session_state) : session_state :=
  Session (sheets_initialized s) (page s) (user_email s) (user_name s) v.

Definition set_sheets_initialized (v : option bool) (s : session_state) : session_state :=
  Session v (page s) (user_email s) (user_name s) (selections s).

(** ** The script monad *)
Definition M (A : Type) : Type := world -> outcome A * world.

Definition ret {A} (a : A) : M A := fun w => (Ok a, w).

Definition bind {A B} (m : M A) (k : A -> M B) : M B :=
  fun w =>
    match m w with
    | (Ok a, w') => k a w'
    | (Raise e, w') => (Raise e, w')
    | (Halt c, w') => (Halt c, w')
    end.

Notation "'let*' x ':=' m 'in' k" := (bind m (fun x => k))
  (at level 10, x name, m at level 100, k at level 200).
Notation "m '>>' k" := (bind m (fun _ => k))
  (at level 60, right associativity).

Definition raise {A} (e : exn) : M A := fun w => (Raise e, w).
Definition lift {A} (o : result A) : M A :=
  fun w => match o with
           | Val a => (Ok a, w)
           | Err e => (Raise e, w)
           end.
Definition get_world : M world := fun w => (Ok w, w).
Definition modify (f : world -> world) : M unit := fun w => (Ok tt, f w).

(** [try: body  except Exception as e: handler e].  Script-control
    exceptions are not [Exception]s and pass through. *)
Definition try_except {A} (body : M A) (handler : exn -> M A) : M A :=
  fun w =>
    match body w with
    | (Raise e, w') => handler e w'
    | r => r
    end.

(** Evaluating the expression [gspread.WorksheetNotFound] of an [except]
    clause looks the name [gspread] up in the module's globals. *)
Definition gspread_WorksheetNotFound : M exn :=
  fun w => if gspread_bound w then (Ok WorksheetNotFound, w)
           else (Raise NameError, w).

(** ** Streamlit *)
Section Streamlit.

Definition st_error (text : string) : M unit := modify (add_screen (UiError text)).
Definition st_warning (text : string) : M unit := modify (add_screen (UiWarning text)).
Definition st_info (text : string) : M unit := modify (add_screen (UiInfo text)).
Definition st_success (text : string) : M unit := modify (add_screen (UiSuccess text)).
Definition st_write (text : string) : M unit := modify (add_screen (UiWrite text)).
Definition st_subheader (text : string) : M unit := modify (add_screen (UiSubheader text)).

Definition st_stop {A} : M A := fun w => (Halt StopException, w).
Definition st_rerun {A} : M A := fun w => (Halt RerunException, w).

(** [st.cache_data.clear()] empties every data cache. *)
Definition st_cache_data_clear : M unit :=
  modify (fun w => set_questions_cache None (set_employees_cache None w)).

(** What the user did before this run: the text in the login form, the
    button pressed (at most one per run), and for the select boxes
    touched so far the position chosen, by widget key. *)
Record input := Input {
  typed_email : string;
  clicked : option string;
  chosen : gmap string nat
}.

(** [st.button(label, disabled=d)]: a disabled button cannot be pressed. *)
Definition st_button (inp : input) (label : string) (disabled : bool) : M bool :=
  modify (add_screen (UiButton label disabled)) >>
  ret (negb disabled && bool_decide (clicked inp = Some label)).

(** [st.selectbox(..., options, index, key)] returns the option the user
    chose, or [options[index]] when the widget was not touched or the
    stored choice is no longer among the options.  [index] is always in
    range where the program calls it. *)
Definition selectbox_value (inp : input) (options : list pyval) (index : nat)
    (key : string) : pyval :=
  match chosen inp !! key with
  | Some i => match options !! i with
              | Some v => v
              | None => nth index options PNone
              end
  | None => nth index options PNone
  end.

Definition st_selectbox (inp : input) (options : list pyval) (index : nat)
    (key : string) : M pyval :=
  modify (add_screen (UiSelectbox key options index)) >>
  ret (selectbox_value inp options index key).

End Streamlit.

(** ** The spreadsheet (gspread)

    The app's view of the Google Sheets client: every call is recorded in
    [calls], then either raises [APIError] as the fault schedule says or
    takes effect on [sheets]. *)
Section Store.

Definition api_call (a : api) : M unit :=
  fun w =>
    let w1 := add_call a w in
    match faults w1 with
    | [] => (Ok tt, w1)
    | b :: fs => (if b then Raise APIError else Ok tt, set_faults fs w1)
    end.

(** [client.open_by_key(sheet_id)]; without an id there is no
    spreadsheet to open. *)
Definition open_by_key (sid : option string) : M unit :=
  api_call OpenByKey >>
  match sid with
  | Some _ => ret tt
  | None => raise APIError
  end.

(** [spreadsheet.worksheet(name)]; the handle is the worksheet's name. *)
Definition worksheet_ (name : string) : M string :=
  api_call (Worksheet name) >>
  let* w := get_world in
  match sheets w !! name with
  | Some _ => ret name
  | None => raise WorksheetNotFound
  end.

(** [spreadsheet.add_worksheet(name, rows, cols)] *)
Definition add_worksheet (name : string) : M string :=
  api_call (AddWorksheet name) >>
  let* w := get_world in
  match sheets w !! name with
  | Some _ => raise APIError
  | None => modify (set_sheets (insert name [])) >> ret name
  end.

(** A row shorter than the header reads as if filled with empty cells. *)
Definition pad (n : nat) (cells : list pyval) : list pyval :=
  cells ++ replicate (n - length cells) (PStr "").

(** [dict(zip(keys, cells))]: of two columns with one name the later wins. *)
Definition record_of (header cells : list pyval) : row :=
  list_to_map (reverse (zip (py_str <$> header) (pad (length header) cells))).

Definition records (ws : worksheet) : list row :=
  match ws with
  | [] => []
  | header :: data => record_of header <$> data
  end.

(** [ws.get_all_records()] *)
Definition get_all_records (ws : string) : M (list row) :=
  api_call (GetAllRecords ws) >>
  let* w := get_world in
  match sheets w !! ws with
  | Some g => ret (records g)
  | None => raise APIError
  end.

Definition write_grid (ws : string) (f : worksheet -> worksheet) : M unit :=
  let* w := get_world in
  match sheets w !! ws with
  | Some g => modify (set_sheets (insert ws (f g)))
  | None => raise APIError
  end.

(** [ws.append_row(r)] and [ws.append_rows(rs)] add below the last row. *)
Definition append_row (ws : string) (r : list pyval) : M unit :=
  api_call (AppendRow ws r) >> write_grid ws (fun g => g ++ [r]).

Definition append_rows (ws : string) (rs : list (list pyval)) : M unit :=
  api_call (AppendRows ws rs) >> write_grid ws (fun g => g ++ rs).

(** [ws.update_cell(r, c, v)], rows and columns counted from 1; the
    grid has blank cells beyond the rows and columns in use. *)
Definition update_grid (r c : nat) (v : pyval) (g : worksheet) : worksheet :=
  alter (fun cells => <[pred c := v]> (pad c cells)) (pred r)
        (g ++ replicate (r - length g) []).

Definition update_cell (ws : string) (r c : nat) (v : pyval) : M unit :=
  api_call (UpdateCell ws r c v) >> write_grid ws (update_grid r c v).

End Store.

(** ** Configuration (lines 13-100) *)

Definition REQUIRED_DOMAIN : string := "@keydynamicssolutions".

(** [get_config]: the long help text of the error is cut to its first
    sentence. *)
Definition get_config : M (string * unit) :=
  let* w := get_world in
  if secrets_present (cfg w) then ret (sheet_url (cfg w), tt)
  else st_error "Missing configuration in Streamlit secrets." >> st_stop.

(** [get_gspread_client]: the packages are installed; building the client
    from the service account either works or raises. *)
Definition get_gspread_client : M unit :=
  try_except
    (let* _ := get_config in
     let* w := get_world in
     if credentials_valid (cfg w) then ret tt else raise APIError)
    (fun e =>
       st_error ("Failed to connect to Google Sheets: " +:+ exn_str e) >>
       st_error "Please check your service account credentials in secrets.toml" >>
       st_stop).

Definition get_sheet (sheet_name : string) : M string :=
  let* c := get_config in
  let* _ := get_gspread_client in
  if String.eqb (fst c) "" then st_error "SHEET_URL not configured" >> st_stop
  else
    let* w := get_world in
    match sheet_id (cfg w) with
    | None => st_error "Invalid Google Sheets URL" >> st_stop
    | Some sid =>
        try_except
          (open_by_key (Some sid) >> worksheet_ sheet_name)
          (fun e =>
             (* except gspread.WorksheetNotFound: *)
             let* cls := gspread_WorksheetNotFound in
             if decide (e = cls) then
               st_error ("Worksheet '" +:+ sheet_name +:+
                         "' not found. Please create the required worksheets.") >>
               st_stop
             else
               (* except Exception as e: *)
               st_error ("Error accessing worksheet '" +:+ sheet_name +:+ "': " +:+
                         exn_str e) >>
               st_stop)
    end.

(** ** Table initialisation (lines 118-166) *)

(** One of the three "check and create" blocks. *)
Definition ensure_worksheet (name : string) (header : list pyval)
    (seed : option (list (list pyval))) : M string :=
  try_except
    (worksheet_ name)
    (fun e =>
       (* except gspread.WorksheetNotFound: *)
       let* cls := gspread_WorksheetNotFound in
       if decide (e = cls) then
         let* ws := add_worksheet name in
         append_row ws header >>
         match seed with
         | Some rs => append_rows ws rs
         | None => ret tt
         end >>
         ret ws
       else raise e).

Definition sample_employees : list (list pyval) :=
  [ [PStr "Jane Doe"; PStr "jane.doe@keydynamicssolutions"; PStr "no"];
    [PStr "John Smith"; PStr "john.smith@keydynamicssolutions"; PStr "no"] ].

Definition sample_questions : list (list pyval) :=
  [ [PInt 1; PStr "Who is the most collaborative person on the team?"];
    [PInt 2; PStr "Who provides the most constructive feedback?"];
    [PInt 3; PStr "Who displays the best leadership?"];
    [PInt 4; PStr "Who is the most punctual?"];
    [PInt 5; PStr "Who is the best at mentoring others?"];
    [PInt 6; PStr "Who has the most positive attitude?"] ].

Definition initialize_sheets : M unit :=
  let* _ := get_gspread_client in
  let* c := get_config in
  let* w := get_world in
  try_except
    (open_by_key (sheet_id (cfg w)) >>
     ensure_worksheet "employee_details"
       [PStr "name"; PStr "email"; PStr "status"] (Some sample_employees) >>
     ensure_worksheet "questions"
       [PStr "question_id"; PStr "question"] (Some sample_questions) >>
     ensure_worksheet "employee_responses"
       [PStr "email"; PStr "name"; PStr "question_id";
        PStr "name_of_person_in_response"] None >>
     ret tt)
    (fun e => st_error ("Error initializing sheets: " +:+ exn_str e) >> st_stop).

(** ** Data access (lines 172-233) *)

(** [@st.cache_data(ttl=...)] on a function without arguments: a value
    stored less than [ttl] seconds ago is returned without running the
    body; otherwise the body runs and what it returns is stored. *)
Definition cache_data (ttl : nat)
    (get : world -> option (nat * list row))
    (put : option (nat * list row) -> world -> world)
    (body : M (list row)) : M (list row) :=
  let run :=
    let* v := body in
    let* w' := get_world in
    modify (put (Some (clock w', v))) >> ret v in
  let* w := get_world in
  match get w with
  | Some (t, v) => if clock w <? t + ttl then ret v else run
  | None => run
  end.

Definition fetch_employees : M (list row) :=
  cache_data 300 employees_cache set_employees_cache
    (try_except
       (let* ws := get_sheet "employee_details" in
        get_all_records ws)
       (fun e => st_error ("Failed to fetch employees: " +:+ exn_str e) >> ret [])).

Definition fetch_questions : M (list row) :=
  cache_data 3600 questions_cache set_questions_cache
    (try_except
       (let* ws := get_sheet "questions" in
        get_all_records ws)
       (fun e => st_error ("Failed to fetch questions: " +:+ exn_str e) >> ret [])).

Definition fetch_responses : M (list row) :=
  try_except
    (let* ws := get_sheet "employee_responses" in
     get_all_records ws)
    (fun e => st_warning ("Failed to fetch responses: " +:+ exn_str e) >> ret []).

(** The dict the questions page builds for each answer. *)
Record response := Response {
  r_email : pyval;
  r_name : pyval;
  r_question_id : pyval;
  r_name_of_person_in_response : pyval
}.

Definition response_row (r : response) : list pyval :=
  [r_email r; r_name r; r_question_id r; r_name_of_person_in_response r].

Definition append_responses (responses : list response) : M bool :=
  try_except
    (let* ws := get_sheet "employee_responses" in
     let rows := response_row <$> responses in
     append_rows ws rows >>
     st_cache_data_clear >>
     ret true)
    (fun e => st_error ("Failed to save responses: " +:+ exn_str e) >> ret false).

(** [v.strip().lower()] *)
Definition strip_lower (v : pyval) : result string :=
  let? s := py_strip v in Val (PyStr.lower s).

(** The loop of [update_employee_status]: the sheet row of the first
    record whose email matches, counting from [idx]. *)
Fixpoint find_status_row (data : list row) (email : pyval) (idx : nat)
    : result (option nat) :=
  match data with
  | [] => Val None
  | r :: data' =>
      let? k := email_key r in
      let? e := strip_lower email in
      if String.eqb k e then Val (Some idx)
      else find_status_row data' email (S idx)
  end.

Definition update_employee_status (email : pyval) : M bool :=
  try_except
    (let* ws := get_sheet "employee_details" in
     let* data := get_all_records ws in
     let* hit := lift (find_status_row data email 2) in
     match hit with
     | Some idx =>
         update_cell ws idx 3 (PStr "yes") >>
         st_cache_data_clear >>
         ret true
     | None =>
         st_error ("Employee with email " +:+ py_str email +:+
                   " not found for status update") >>
         ret false
     end)
    (fun e => st_error ("Failed to update employee status: " +:+ exn_str e) >>
              ret false).

(** ** Admin report (lines 239-287) *)

(** [[r for r in responses if r['question_id'] == q['question_id']]] *)
Fixpoint q_responses (responses : list row) (q : row) : result (list row) :=
  match responses with
  | [] => Val []
  | r :: rs =>
      let? rq := getitem r "question_id" in
      let? qq := getitem q "question_id" in
      let? rest := q_responses rs q in
      Val (if decide (rq = qq) then r :: rest else rest)
  end.

(** [vote_counts[name] = vote_counts.get(name, 0) + 1] on a dict, which
    keeps its keys in the order they were first inserted. *)
Fixpoint vote_incr (name : pyval) (d : list (pyval * nat)) : list (pyval * nat) :=
  match d with
  | [] => [(name, 1)]
  | (k, c) :: d' =>
      if decide (k = name) then (k, S c) :: d' else (k, c) :: vote_incr name d'
  end.

Fixpoint vote_counts (rs : list row) (d : list (pyval * nat))
    : result (list (pyval * nat)) :=
  match rs with
  | [] => Val d
  | r :: rs' =>
      let? name := getitem r "name_of_person_in_response" in
      vote_counts rs' (vote_incr name d)
  end.

(** [sorted(items, key=lambda x: x[1], reverse=True)]: Python's sort is
    stable, also with [reverse=True]: items with equal keys keep their
    order. *)
Fixpoint insert_by_count (x : pyval * nat) (l : list (pyval * nat))
    : list (pyval * nat) :=
  match l with
  | [] => [x]
  | y :: l' => if snd x <? snd y then y :: insert_by_count x l' else x :: l
  end.

Definition sorted_by_count_desc (items : list (pyval * nat)) : list (pyval * nat) :=
  foldr insert_by_count [] items.

(** The votes listed for question [q]. *)
Definition sorted_votes (responses : list row) (q : row)
    : result (list (pyval * nat)) :=
  let? qr := q_responses responses q in
  let? counts := vote_counts qr [] in
  Val (sorted_by_count_desc counts).

Definition vote_line (x : pyval * nat) : string :=
  "• **" +:+ py_str (fst x) +:+ "**: " +:+ pretty (snd x) +:+ " vote(s)".

Fixpoint for_each {A} (f : A -> M unit) (l : list A) : M unit :=
  match l with
  | [] => ret tt
  | x :: l' => f x >> for_each f l'
  end.

Definition report_question (responses : list row) (q : row) : M unit :=
  let* qid := lift (getitem q "question_id") in
  let* text := lift (getitem q "question") in
  st_subheader ("Q" +:+ py_str qid +:+ ": " +:+ py_str text) >>
  let* qr := lift (q_responses responses q) in
  match qr with
  | [] => st_write "No responses for this question yet."
  | _ =>
      let* counts := lift (vote_counts qr []) in
      for_each (fun x => st_write (vote_line x)) (sorted_by_count_desc counts)
  end.

Definition status_line (emp : row) : M unit :=
  let* s := lift (py_lower (get_default emp "status" (PStr ""))) in
  let status := if String.eqb s "yes" then "✅ Completed" else "❌ Pending" in
  let* name := lift (getitem emp "name") in
  let* email := lift (getitem emp "email") in
  st_write ("**" +:+ py_str name +:+ "** (" +:+ py_str email +:+ "): " +:+ status).

Definition admin_dashboard (inp : input) : M unit :=
  let* questions := fetch_questions in
  let* responses := fetch_responses in
  match responses with
  | [] => st_info "No responses submitted yet."
  | _ =>
      for_each (report_question responses) (take 6 questions) >>
      let* employees := fetch_employees in
      for_each status_line employees >>
      let* logout := st_button inp "🚪 Logout" false in
      if logout then modify (set_session (fun _ => empty_session)) >> st_rerun
      else ret tt
  end.

(** ** Login page (lines 333-373) *)

(** The search loop: the first record whose email matches. *)
Fixpoint find_employee (employees : list row) (email : string)
    : result (option row) :=
  match employees with
  | [] => Val None
  | e :: es =>
      let? k := email_key e in
      if String.eqb k (normalize email) then Val (Some e)
      else find_employee es email
  end.

(** [not found]: [None] and the empty dict are both false. *)
Definition not_found (found : option row) : bool :=
  match found with
  | None => true
  | Some e => bool_decide (e = ∅)
  end.

Definition login_page (inp : input) : M unit :=
  let email := typed_email inp in
  let submitted := bool_decide (clicked inp = Some "Login") in
  if submitted then
    if String.eqb email "" then
      st_error "Please enter your email address."
    else if negb (PyStr.contains REQUIRED_DOMAIN email) then
      st_error ("Invalid domain. Only employees with " +:+ REQUIRED_DOMAIN +:+
                " emails can log in.")
    else
      let* employees := fetch_employees in
      let* found := lift (find_employee employees email) in
      if not_found found then
        st_error "Email not found in employee database. Please contact your administrator."
      else
        let found := default ∅ found in
        let* status := lift (py_lower (get_default found "status" (PStr ""))) in
        if String.eqb status "yes" then
          st_error "You have already completed the survey and cannot participate again."
        else
          st_success ("Welcome, " +:+ py_str (get_default found "name" PNone) +:+
                      "! Redirecting to survey...") >>
          modify (set_session (set_user_email (Some (get_default found "email" PNone)))) >>
          modify (set_session (set_user_name (Some (get_default found "name" PNone)))) >>
          modify (set_session (set_page "questions")) >>
          st_rerun
  else ret tt.

(** ** Questions page (lines 375-500) *)

(** Lines 399-403: the names of the employees other than the user. *)
Fixpoint other_names (employees : list row) (user_email : pyval)
    : result (list pyval) :=
  match employees with
  | [] => Val []
  | e :: es =>
      let? k := email_key e in
      let? u := strip_lower user_email in
      if negb (String.eqb k u) then
        let? name := getitem e "name" in
        let? rest := other_names es user_email in
        Val (name :: rest)
      else other_names es user_email
  end.

(** [a < b] as [sorted] asks it: defined on two [str] and on two [int]. *)
Definition py_lt (a b : pyval) : result bool :=
  match a, b with
  | PStr s, PStr t => Val (String.ltb s t)
  | PInt x, PInt y => Val (Z.ltb x y)
  | _, _ => Err TypeError
  end.

Fixpoint insert_sorted (x : pyval) (l : list pyval) : result (list pyval) :=
  match l with
  | [] => Val [x]
  | y :: l' =>
      let? b := py_lt y x in
      if b then let? r := insert_sorted x l' in Val (y :: r)
      else Val (x :: l)
  end.

(** [sorted(l)] *)
Fixpoint py_sorted (l : list pyval) : result (list pyval) :=
  match l with
  | [] => Val []
  | x :: l' => let? s := py_sorted l' in insert_sorted x s
  end.

(** [sorted(list(set(names)))]: the order in which the set is listed does
    not show after sorting. *)
Definition sorted_set (names : list pyval) : result (list pyval) :=
  py_sorted (remove_dups names).

(** [{str(q['question_id']): None for q in questions}] *)
Fixpoint init_selections (questions : list row) : result (gmap string pyval) :=
  match questions with
  | [] => Val ∅
  | q :: qs =>
      let? qid := getitem q "question_id" in
      let? m := init_selections qs in
      Val (<[py_str qid := PNone]> m)
  end.

(** [st.session_state['selections']] *)
Definition the_selections : M (gmap string pyval) :=
  let* w := get_world in
  match selections (session w) with
  | Some m => ret m
  | None => raise KeyError
  end.

Definition placeholder : pyval := PStr "-- Select a person --".

(** [names.index(v)] for a [v] that occurs in [names]. *)
Fixpoint index_of (v : pyval) (names : list pyval) : nat :=
  match names with
  | [] => 0
  | n :: names' => if decide (n = v) then 0 else S (index_of v names')
  end.

(** Lines 426-430 *)
Definition current_index (names : list pyval) (current_selection : pyval) : nat :=
  if truthy current_selection && bool_decide (current_selection ∈ names)
  then S (index_of current_selection names) else 0.

(** Lines 419-444: one select box per question.  [seen] are the widget
    keys already used in this run; Streamlit refuses a second widget with
    the same key. *)
Fixpoint question_loop (inp : input) (names : list pyval) (total i : nat)
    (seen : list string) (questions : list row) : M unit :=
  match questions with
  | [] => ret tt
  | q :: qs =>
      let* qv := lift (getitem q "question_id") in
      let qid := py_str qv in
      st_subheader ("Question " +:+ pretty i +:+ " of " +:+ pretty total) >>
      st_write (py_str (get_default q "question" PNone)) >>
      let* sel := the_selections in
      let current_selection := get_default sel qid PNone in
      let current_index := current_index names current_selection in
      let key := "sel_" +:+ qid in
      if bool_decide (key ∈ seen) then raise DuplicateWidgetID
      else
        let* choice := st_selectbox inp (placeholder :: names) current_index key in
        let* sel := the_selections in
        (if decide (choice = placeholder)
         then modify (set_session (set_selections (Some (<[qid := PNone]> sel))))
         else modify (set_session (set_selections (Some (<[qid := choice]> sel))))) >>
        question_loop inp names total (S i) (key :: seen) qs
  end.

(** Lines 447-448 *)
Definition all_selected (sel : gmap string pyval) : bool :=
  forallb (fun v => negb (bool_decide (v = PNone))) (map_to_list sel).*2.

Definition unanswered_count (sel : gmap string pyval) : nat :=
  length (filter (fun v => v = PNone) (map_to_list sel).*2).

(** Lines 474-483 *)
Fixpoint build_responses (user_email user_name : pyval)
    (sel : gmap string pyval) (questions : list row) : result (list response) :=
  match questions with
  | [] => Val []
  | q :: qs =>
      let? qid := getitem q "question_id" in
      let selected_name := get_default sel (py_str qid) PNone in
      let? rest := build_responses user_email user_name sel qs in
      Val (Response user_email user_name qid selected_name :: rest)
  end.

(** Lines 471-500: the body of [if submit_button and all_selected]. *)
Definition submit_survey (user_email user_name : pyval) (questions : list row)
    : M unit :=
  let* sel := the_selections in
  let* responses := lift (build_responses user_email user_name sel questions) in
  let* response_saved := append_responses responses in
  if negb response_saved then
    st_error "❌ Failed to save your responses. Please try again."
  else
    let* status_updated := update_employee_status user_email in
    (if negb status_updated then
       st_warning "⚠️ Responses saved but status update failed. Please contact admin if needed."
     else ret tt) >>
    modify (set_session (set_page "success")) >>
    st_rerun.

Definition remaining_warning (n : nat) : string :=
  "⚠️ Please answer all questions to continue. " +:+ pretty n +:+
  " question(s) remaining.".

Definition back_label : string := "🔙 Back to Login".
Definition submit_label : string := "✅ Submit Survey".

Definition questions_page (inp : input) : M unit :=
  let* w := get_world in
  let user_email := default PNone (user_email (session w)) in
  let user_name := default PNone (user_name (session w)) in
  if negb (truthy user_email) then
    st_error "Session expired. Please login again." >>
    let* go := st_button inp "Go to Login" false in
    if go then modify (set_session (set_page "login")) >> st_rerun
    else ret tt
  else
    let* questions := fetch_questions in
    let* employees := fetch_employees in
    match questions with
    | [] => st_error "No questions available. Please contact your administrator."
    | _ =>
        let questions := take 6 questions in
        let* names := lift (other_names employees user_email) in
        let* names := lift (sorted_set names) in
        match names with
        | [] => st_error "No other employees found for selection."
        | _ =>
            st_info ("👤 Logged in as: **" +:+ py_str user_name +:+ "** (" +:+
                     py_str user_email +:+ ")") >>
            let* w := get_world in
            (match selections (session w) with
             | Some _ => ret tt
             | None =>
                 let* m := lift (init_selections questions) in
                 modify (set_session (set_selections (Some m)))
             end) >>
            question_loop inp names (length questions) 1 [] questions >>
            let* sel := the_selections in
            let all_sel := all_selected sel in
            let count := unanswered_count sel in
            (if negb all_sel then st_warning (remaining_warning count)
             else ret tt) >>
            let* back := st_button inp back_label false in
            if back then
              modify (set_session (set_selections None)) >>
              modify (set_session (set_page "login")) >>
              st_rerun
            else
              let* submit_button := st_button inp submit_label (negb all_sel) in
              if submit_button && all_sel then
                submit_survey user_email user_name questions
              else ret tt
        end
    end.

(** The two halves of [questions_page], for stating what holds between
    them: [questions_render] is lines 376-444 and returns what the second
    half uses (the user, the active questions and the eligible names), or
    [None] where the page ends early; [questions_actions] is lines
    446-500.  [questions_page_split] shows that the page is the one after
    the other. *)
Definition questions_render (inp : input)
    : M (option (pyval * pyval * list row * list pyval)) :=
  let* w := get_world in
  let user_email := default PNone (user_email (session w)) in
  let user_name := default PNone (user_name (session w)) in
  if negb (truthy user_email) then
    st_error "Session expired. Please login again." >>
    let* go := st_button inp "Go to Login" false in
    if go then modify (set_session (set_page "login")) >> st_rerun
    else ret None
  else
    let* questions := fetch_questions in
    let* employees := fetch_employees in
    match questions with
    | [] => st_error "No questions available. Please contact your administrator." >>
            ret None
    | _ =>
        let questions := take 6 questions in
        let* names := lift (other_names employees user_email) in
        let* names := lift (sorted_set names) in
        match names with
        | [] => st_error "No other employees found for selection." >> ret None
        | _ =>
            st_info ("👤 Logged in as: **" +:+ py_str user_name +:+ "** (" +:+
                     py_str user_email +:+ ")") >>
            let* w := get_world in
            (match selections (session w) with
             | Some _ => ret tt
             | None =>
                 let* m := lift (init_selections questions) in
                 modify (set_session (set_selections (Some m)))
             end) >>
            question_loop inp names (length questions) 1 [] questions >>
            ret (Some (user_email, user_name, questions, names))
        end
    end.

Definition questions_actions (inp : input) (user_email user_name : pyval)
    (questions : list row) : M unit :=
  let* sel := the_selections in
  let all_sel := all_selected sel in
  let count := unanswered_count sel in
  (if negb all_sel then st_warning (remaining_warning count)
   else ret tt) >>
  let* back := st_button inp back_label false in
  if back then
    modify (set_session (set_selections None)) >>
    modify (set_session (set_page "login")) >>
    st_rerun
  else
    let* submit_button := st_button inp submit_label (negb all_sel) in
    if submit_button && all_sel then
      submit_survey user_email user_name questions
    else ret tt.

(** ** Success page (lines 502-524) *)

Definition return_label : string := "🏠 Return to Login".

Definition success_page (inp : input) : M unit :=
  st_write "**What happens next:**" >>
  st_write "• Your responses are now part of the feedback analysis" >>
  st_write "• Results will be compiled and shared with management" >>
  st_write "• Your individual responses remain confidential" >>
  let* back := st_button inp return_label false in
  if back then
    modify (set_session (set_user_email None)) >>
    modify (set_session (set_user_name None)) >>
    modify (set_session (set_selections None)) >>
    modify (set_session (set_page "login")) >>
    st_rerun
  else ret tt.

(** ** The script (lines 530-564) *)

Definition main (inp : input) : M unit :=
  let* w := get_world in
  (match sheets_initialized (session w) with
   | Some _ => ret tt
   | None =>
       initialize_sheets >>
       modify (set_session (set_sheets_initialized (Some true)))
   end) >>
  let* w := get_world in
  (match page (session w) with
   | Some _ => ret tt
   | None => modify (set_session (set_page "login"))
   end) >>
  let* w := get_world in
  match page (session w) with
  | Some "login" => login_page inp
  | Some "questions" => questions_page inp
  | Some "success" => success_page inp
  | _ =>
      st_error "Unknown page state. Resetting to login." >>
      modify (set_session (set_page "login")) >>
      st_rerun
  end.

(** ** Frames *)

(** A computation [keeps] a component [f] of the world when no run of it
    changes [f], however the run ends. *)
Definition keeps {X A} (f : world -> X) (m : M A) : Prop :=
  forall w, f (snd (m w)) = f w.

(** A computation that never asks for a rerun of the script. *)
Definition no_rerun {A} (m : M A) : Prop :=
  forall w, fst (m w) <> Halt RerunException.

(** A component is a [view] of some parts of the world when it does not
    depend on the others: on the API trace and fault schedule, on the
    screen, on the data caches, on the sheets. *)
Record frame {X} (f : world -> X) (sheets_too : bool) : Prop := Frame {
  frame_call : forall a w, f (add_call a w) = f w;
  frame_faults : forall fs w, f (set_faults fs w) = f w;
  frame_screen : forall u w, f (add_screen u w) = f w;
  frame_ecache : forall c w, f (set_employees_cache c w) = f w;
  frame_qcache : forall c w, f (set_questions_cache c w) = f w;
  frame_sheets : sheets_too = true -> forall g w, f (set_sheets g w) = f w
}.

(** The user bound to the session. *)
Definition user_binding (w : world) : option pyval * option pyval :=
  (user_email (session w), user_name (session w)).

Definition enter_email_error : string := "Please enter your email address.".
Definition invalid_domain_error : string :=
  "Invalid domain. Only employees with @keydynamicssolutions emails can log in.".

(** ** Fetching

    [read_table name] is the body of the [try] block of the three fetch
    functions; [cache_miss] says that a cached function has to run its
    body: nothing is stored, or what is stored is [ttl] seconds old. *)
Definition read_table (name : string) : M (list row) :=
  let* ws := get_sheet name in
  get_all_records ws.

Definition cache_miss (c : option (nat * list row)) (now ttl : nat) : bool :=
  match c with
  | Some (t, _) => negb (now <? t + ttl)
  | None => true
  end.

(** The configuration lets [get_config], [get_gspread_client] and the URL
    checks of [get_sheet] pass. *)
Definition config_ok (c : config) : bool :=
  secrets_present c && credentials_valid c &&
  negb (String.eqb (sheet_url c) "") && bool_decide (is_Some (sheet_id c)).

Definition email_not_found_error : string :=
  "Email not found in employee database. Please contact your administrator.".

Definition already_completed_error : string :=
  "You have already completed the survey and cannot participate again.".

Definition save_failed_error : string :=
  "❌ Failed to save your responses. Please try again.".

Definition status_update_warning : string :=
  "⚠️ Responses saved but status update failed. Please contact admin if needed.".

(** ** Writes

    The API calls that change the spreadsheet, and computations that, run
    on the sheets [S], leave them as they are and issue no such call. *)
Definition is_write (a : api) : bool :=
  match a with
  | OpenByKey | Worksheet _ | GetAllRecords _ => false
  | AddWorksheet _ | AppendRow _ _ | AppendRows _ _ | UpdateCell _ _ _ _ => true
  end.

Definition read_only_on {A} (S : gmap string worksheet) (m : M A) : Prop :=
  forall w, sheets w = S ->
    sheets (snd (m w)) = S /\
    exists l, calls (snd (m w)) = calls w ++ l /\ Forall (fun a => is_write a = false) l.

Definition the_three_worksheets : list string :=
  ["employee_details"; "questions"; "employee_responses"].

(** ** The report

    [votes_for responses qid] are the nominees of the responses to
    question [qid], in the order of the responses; [count_of] counts the
    occurrences of a name among them.  [tally] is the loop that fills
    [vote_counts], [votes_of] reads a count in it.  [listed_before] is the
    order of the report: more votes first, and among equal counts the name
    that occurs first in the responses. *)
Definition votes_for (responses : list row) (qid : pyval) : list pyval :=
  omap (fun r : row => r !! "name_of_person_in_response")
       (filter (fun r : row => r !! "question_id" = Some qid) responses).

Definition count_of (name : pyval) (noms : list pyval) : nat :=
  length (filter (fun n => n = name) noms).

Definition tally (noms : list pyval) (d : list (pyval * nat)) : list (pyval * nat) :=
  foldl (fun d n => vote_incr n d) d noms.

Fixpoint votes_of (name : pyval) (d : list (pyval * nat)) : nat :=
  match d with
  | [] => 0
  | (k, c) :: d' => if decide (k = name) then c else votes_of name d'
  end.

Definition first_seen_before (noms : list pyval) (x y : pyval * nat) : Prop :=
  index_of (fst x) noms < index_of (fst y) noms.

Definition listed_before (noms : list pyval) (x y : pyval * nat) : Prop :=
  snd y < snd x \/ (snd x = snd y /\ first_seen_before noms x y).

(** ** The selections

    [question_key q] is [str(q['question_id'])], the key of question [q]
    in the selections.  [answer] is what one pass of the loop stores for
    the question with key [k] when the selections are [sel]: the value of
    its select box, [None] for the placeholder.  [answer_all] is the
    selections after the loop over the questions with keys [ks], and
    [loop_screen] what the loop draws. *)
Definition question_id_of (q : row) : pyval := get_default q "question_id" PNone.

Definition question_key (q : row) : string := py_str (question_id_of q).

Definition answer (inp : input) (names : list pyval) (sel : gmap string pyval)
    (k : string) : pyval :=
  let choice :=
    selectbox_value inp (placeholder :: names)
      (current_index names (get_default sel k PNone)) ("sel_" +:+ k) in
  if decide (choice = placeholder) then PNone else choice.

Definition answer_all (inp : input) (names : list pyval)
    (sel : gmap string pyval) (ks : list string) : gmap string pyval :=
  foldl (fun m k => <[k := answer inp names m k]> m) sel ks.

Fixpoint loop_screen (inp : input) (names : list pyval) (total i : nat)
    (sel : gmap string pyval) (qs : list row) : list ui :=
  match qs with
  | [] => []
  | q :: qs' =>
      let k := question_key q in
      [ UiSubheader ("Question " +:+ pretty i +:+ " of " +:+ pretty total);
        UiWrite (py_str (get_default q "question" PNone));
        UiSelectbox ("sel_" +:+ k) (placeholder :: names)
                    (current_index names (get_default sel k PNone)) ]
      ++ loop_screen inp names total (S i) (<[k := answer inp names sel k]> sel) qs'
  end.

(** The world after a part of the page has drawn [events] and left the
    selections [sel]. *)
Definition drawn (events : list ui) (sel : gmap string pyval) (w : world) : world :=
  World (cfg w) (gspread_bound w) (sheets w) (faults w) (clock w)
        (employees_cache w) (questions_cache w)
        (set_selections (Some sel) (session w)) (screen w ++ events) (calls w).

(** ** The nominee list

    [name_lt] is the order of [sorted] on the names.  [differs_from e s]
    says that the email of employee [e] is not that of the user [s] once
    both are stripped and lower-cased.  [written] and [selectbox_options]
    read what a page has drawn. *)
Definition name_lt (a b : pyval) : Prop := py_lt a b = Val true.

Definition differs_from (e : row) (s : string) : Prop :=
  exists mail, get_default e "email" (PStr "") = PStr mail /\
               normalize mail <> normalize s.

Definition written (events : list ui) : list string :=
  omap (fun u => match u with UiWrite t => Some t | _ => None end) events.

Definition selectbox_options (events : list ui) : list (list pyval) :=
  omap (fun u => match u with UiSelectbox _ o _ => Some o | _ => None end) events.

(** What a render returns, read off its outcome. *)
Definition rendered (o : outcome (option (pyval * pyval * list row * list pyval)))
    : bool :=
  match o with
  | Ok (Some _) => true
  | _ => false
  end.

Definition rendered_names
    (o : outcome (option (pyval * pyval * list row * list pyval))) : list pyval :=
  match o with
  | Ok (Some (_, _, _, names)) => names
  | _ => []
  end.

Definition rendered_questions
    (o : outcome (option (pyval * pyval * list row * list pyval))) : list row :=
  match o with
  | Ok (Some (_, _, qs, _)) => qs
  | _ => []
  end.

(** The nominee list as the claim words it: employees are left out by
    comparing emails case-insensitively only (no stripping). *)
Fixpoint other_names_case_only (employees : list row) (user_email : pyval)
    : result (list pyval) :=
  match employees with
  | [] => Val []
  | e :: es =>
      let? k := py_lower (get_default e "email" (PStr "")) in
      let? u := py_lower user_email in
      if negb (String.eqb k u) then
        let? name := getitem e "name" in
        let? rest := other_names_case_only es user_email in
        Val (name :: rest)
      else other_names_case_only es user_email
  end.

Definition nominees_as_claimed (employees : list row) (user_email : pyval)
    : result (list pyval) :=
  let? names := other_names_case_only employees user_email in
  sorted_set names.

(** ** The submit flow

    [record_for] is the record built for question [q]; [after_save] is the
    part of the submit flow that follows [append_responses] (lines
    488-500). *)
Definition record_for (user_email user_name : pyval) (sel : gmap string pyval)
    (q : row) : response :=
  Response user_email user_name (question_id_of q)
           (get_default sel (question_key q) PNone).

Definition after_save (user_email : pyval) (response_saved : bool) : M unit :=
  if negb response_saved then
    st_error "❌ Failed to save your responses. Please try again."
  else
    let* status_updated := update_employee_status user_email in
    (if negb status_updated then
       st_warning "⚠️ Responses saved but status update failed. Please contact admin if needed."
     else ret tt) >>
    modify (set_session (set_page "success")) >>
    st_rerun.

(** ** The roster

    [employee_header] is the header the app gives the employees worksheet.
    [first_match data key i r] says that [r], at position [i], is the
    first record of [data] whose email, stripped and lower-cased, is
    [key], the emails of the records before it being text as well. *)
Definition employee_header : list pyval := [PStr "name"; PStr "email"; PStr "status"].

Definition first_match (data : list row) (key : string) (i : nat) (r : row) : Prop :=
  data !! i = Some r /\
  email_key r = Val key /\
  forall j r', j < i -> data !! j = Some r' ->
               exists k, email_key r' = Val k /\ k <> key.

(** [all_space s]: [s] consists of whitespace only. *)
Fixpoint all_space (s : string) : bool :=
  match s with
  | EmptyString => true
  | String c s' => PyStr.is_space c && all_space s'
  end.

(** The session after a login that bound the record [r]. *)
Definition logged_in (r : row) (s : session_state) : session_state :=
  Session (sheets_initialized s) (Some "questions")
          (Some (get_default r "email" PNone)) (Some (get_default r "name" PNone))
          (selections s).

Definition welcome (r : row) : string :=
  "Welcome, " +:+ py_str (get_default r "name" PNone) +:+ "! Redirecting to survey...".

(** ** Sample data

    The spreadsheet as [initialize_sheets] seeds it, and a session in
    which Jane Doe has logged in. *)
Definition seeded_sheets : gmap string worksheet :=
  list_to_map
    [ ("employee_details",
       [PStr "name"; PStr "email"; PStr "status"] :: sample_employees);
      ("questions", [PStr "question_id"; PStr "question"] :: sample_questions);
      ("employee_responses",
       [[PStr "email"; PStr "name"; PStr "question_id";
         PStr "name_of_person_in_response"]]) ].

Definition sample_config : config :=
  Config true "https://docs.google.com/spreadsheets/d/sheet-id/edit"
         (Some "sheet-id") true.

Definition jane_session : session_state :=
  Session (Some true) (Some "questions")
          (Some (PStr "jane.doe@keydynamicssolutions")) (Some (PStr "Jane Doe")) None.

Definition jane_email : pyval := PStr "jane.doe@keydynamicssolutions".
Definition jane_name : pyval := PStr "Jane Doe".

(** The six seeded questions as [fetch_questions] returns them. *)
Definition sample_question_rows : list row :=
  records ([PStr "question_id"; PStr "question"] :: sample_questions).

(** Jane has chosen John Smith for every question. *)
Definition jane_answers : gmap string pyval :=
  list_to_map [("1", PStr "John Smith"); ("2", PStr "John Smith");
               ("3", PStr "John Smith"); ("4", PStr "John Smith");
               ("5", PStr "John Smith"); ("6", PStr "John Smith")].

Definition jane_answered_session : session_state :=
  Session (Some true) (Some "questions") (Some jane_email) (Some jane_name)
          (Some jane_answers).

Definition jane_responses : list response :=
  (fun q => Response jane_email jane_name (PInt q) (PStr "John Smith"))
    <$> [1; 2; 3; 4; 5; 6]%Z.

Definition sample_world (sh : gmap string worksheet) (fs : list bool)
    (s : session_state) : world :=
  World sample_config false sh fs 0 None None s [] [].

(** Responses in which, for question 1, Bob is named first and Alice and
    Bob get three votes each, Carol one. *)
Definition sample_responses : list row :=
  records
    [ [PStr "email"; PStr "name"; PStr "question_id";
       PStr "name_of_person_in_response"];
      [PStr "u1@keydynamicssolutions"; PStr "U1"; PInt 1; PStr "Bob"];
      [PStr "u1@keydynamicssolutions"; PStr "U1"; PInt 2; PStr "Carol"];
      [PStr "u2@keydynamicssolutions"; PStr "U2"; PInt 1; PStr "Alice"];
      [PStr "u3@keydynamicssolutions"; PStr "U3"; PInt 1; PStr "Carol"];
      [PStr "u4@keydynamicssolutions"; PStr "U4"; PInt 1; PStr "Alice"];
      [PStr "u5@keydynamicssolutions"; PStr "U5"; PInt 1; PStr "Bob"];
      [PStr "u6@keydynamicssolutions"; PStr "U6"; PInt 1; PStr "Bob"];
      [PStr "u7@keydynamicssolutions"; PStr "U7"; PInt 1; PStr "Alice"] ].

Definition first_question : row :=
  record_of [PStr "question_id"; PStr "question"]
            [PInt 1; PStr "Who is the most collaborative person on the team?"].

(** A roster in which a second row carries Jane's email with blanks around
    it and in capitals. *)
Definition padded_roster_sheets : gmap string worksheet :=
  <["employee_details" :=
      [ [PStr "name"; PStr "email"; PStr "status"];
        [PStr "Jane Doe"; PStr "jane.doe@keydynamicssolutions"; PStr "no"];
        [PStr "Janet Roe"; PStr " jane.doe@keydynamicssolutions "; PStr "no"];
        [PStr "John Smith"; PStr "john.smith@keydynamicssolutions"; PStr "no"] ]]>
    seeded_sheets.

(** Jane has picked the first name of the list for questions 1 to 5 and
    left question 6 alone; in [all_answered_input] she has picked one for
    every question. *)
Definition five_answers_input : input :=
  Input "" None
        (list_to_map [("sel_1", 1); ("sel_2", 1); ("sel_3", 1); ("sel_4", 1);
                      ("sel_5", 1)]).

Definition all_answered_input (click : option string) : input :=
  Input "" click
        (list_to_map [("sel_1", 1); ("sel_2", 1); ("sel_3", 1); ("sel_4", 1);
                      ("sel_5", 1); ("sel_6", 1)]).

(** ** The page state machine

    [next_pages p] are the pages the script can move to from page [p]; a
    page that is none of the three leads back to login.  A computation
    [page_moves] within [next] when every run of it leaves the page as it
    was, or sets it to a page of [next] and asks for a rerun. *)
Definition next_pages (p : string) : list string :=
  if String.eqb p "login" then ["questions"]
  else if String.eqb p "questions" then ["login"; "success"]
  else ["login"].

Definition page_moves {A} (next : list string) (m : M A) : Prop :=
  forall w,
    page (session (snd (m w))) = page (session w) \/
    (fst (m w) = Halt RerunException /\
     exists p, page (session (snd (m w))) = Some p /\ p ∈ next).

(** The header row of the responses worksheet. *)
Definition responses_header : list pyval :=
  [PStr "email"; PStr "name"; PStr "question_id"; PStr "name_of_person_in_response"].

(** The three tables as [initialize_sheets] creates them: name, header
    row and seed rows. *)
Definition worksheet_schema : list (string * (list pyval * list (list pyval))) :=
  [ ("employee_details",
     ([PStr "name"; PStr "email"; PStr "status"], sample_employees));
    ("questions", ([PStr "question_id"; PStr "question"], sample_questions));
    ("employee_responses",
     ([PStr "email"; PStr "name"; PStr "question_id";
       PStr "name_of_person_in_response"], [])) ].

(** An empty spreadsheet, in a module where [gspread] is imported at the
    top (the variant of [vote.py] in which a missing worksheet is
    created). *)
Definition fresh_world_gspread_bound : world :=
  World sample_config true ∅ [] 0 None None empty_session [] [].

(** * Properties *)

(** ** Running computations *)

Lemma bind_Ok {A B} (m : M A) (k : A -> M B) w a w' :
  m w = (Ok a, w') -> bind m k w = k a w'.
Proof. intros H. unfold bind. by rewrite H. Qed.

Lemma bind_Raise {A B} (m : M A) (k : A -> M B) w e w' :
  m w = (Raise e, w') -> bind m k w = (Raise e, w').
Proof. intros H. unfold bind. by rewrite H. Qed.

Lemma bind_Halt {A B} (m : M A) (k : A -> M B) w c w' :
  m w = (Halt c, w') -> bind m k w = (Halt c, w').
Proof. intros H. unfold bind. by rewrite H. Qed.

Lemma try_except_Ok {A} (m : M A) h w a w' :
  m w = (Ok a, w') -> try_except m h w = (Ok a, w').
Proof. intros H. unfold try_except. by rewrite H. Qed.

Lemma try_except_Raise {A} (m : M A) h w e w' :
  m w = (Raise e, w') -> try_except m h w = h e w'.
Proof. intros H. unfold try_except. by rewrite H. Qed.

Lemma try_except_Halt {A} (m : M A) h w c w' :
  m w = (Halt c, w') -> try_except m h w = (Halt c, w').
Proof. intros H. unfold try_except. by rewrite H. Qed.

Section Keeps.
Context {X : Type} (f : world -> X).

Lemma keeps_ret {A} (a : A) : keeps f (ret a).
Proof. by intros w. Qed.

Lemma keeps_raise {A} e : keeps f (@raise A e).
Proof. by intros w. Qed.

Lemma keeps_lift {A} (o : result A) : keeps f (lift o).
Proof. intros w. by destruct o. Qed.

Lemma keeps_get_world : keeps f get_world.
Proof. by intros w. Qed.

Lemma keeps_stop {A} : keeps f (@st_stop A).
Proof. by intros w. Qed.

Lemma keeps_rerun {A} : keeps f (@st_rerun A).
Proof. by intros w. Qed.

Lemma keeps_modify g : (forall w, f (g w) = f w) -> keeps f (modify g).
Proof. intros H w. apply H. Qed.

Lemma keeps_bind {A B} (m : M A) (k : A -> M B) :
  keeps f m -> (forall a, keeps f (k a)) -> keeps f (bind m k).
Proof.
  intros Hm Hk w. unfold bind. specialize (Hm w).
  destruct (m w) as [[a|e|c] w1]; simpl in *; [|done..].
  by rewrite Hk.
Qed.

Lemma keeps_try_except {A} (m : M A) h :
  keeps f m -> (forall e, keeps f (h e)) -> keeps f (try_except m h).
Proof.
  intros Hm Hh w. unfold try_except. specialize (Hm w).
  destruct (m w) as [[a|e|c] w1]; simpl in *; [done| |done].
  by rewrite Hh.
Qed.

Lemma keeps_for_each {A} (g : A -> M unit) l :
  (forall a, keeps f (g a)) -> keeps f (for_each g l).
Proof.
  intros Hg. induction l as [|a l IH]; simpl.
  - apply keeps_ret.
  - apply keeps_bind; auto.
Qed.
End Keeps.

(** Breaks a [keeps] goal down along the structure of the computation. *)
Ltac keeps_step :=
  lazymatch goal with
  | |- keeps _ (bind _ _) => apply keeps_bind; [|intros ?]
  | |- keeps _ (try_except _ _) => apply keeps_try_except; [|intros ?]
  | |- keeps _ (ret _) => apply keeps_ret
  | |- keeps _ (raise _) => apply keeps_raise
  | |- keeps _ (lift _) => apply keeps_lift
  | |- keeps _ get_world => apply keeps_get_world
  | |- keeps _ st_stop => apply keeps_stop
  | |- keeps _ st_rerun => apply keeps_rerun
  | |- keeps _ (for_each _ _) => apply keeps_for_each; intros ?
  | |- keeps _ (modify (set_session _)) => apply keeps_modify; intros ?; reflexivity
  | |- keeps _ (match ?x with _ => _ end) => destruct x
  end.

Ltac keeps_auto := repeat keeps_step.

Section Frames.
Context {X : Type} (f : world -> X) (sheets_too : bool) (Hf : frame f sheets_too).

Lemma keeps_api_call a : keeps f (api_call a).
Proof.
  intros w. unfold api_call. simpl.
  destruct (faults w) as [|b fs]; simpl.
  - apply Hf.
  - destruct b; simpl; by rewrite (frame_faults _ _ Hf), (frame_call _ _ Hf).
Qed.

Lemma keeps_draw u : keeps f (modify (add_screen u)).
Proof. intros w. apply Hf. Qed.

Lemma keeps_cache_clear : keeps f st_cache_data_clear.
Proof. intros w. simpl. by rewrite (frame_qcache _ _ Hf), (frame_ecache _ _ Hf). Qed.

Lemma keeps_get_config : keeps f get_config.
Proof. unfold get_config, st_error. keeps_auto; apply keeps_draw. Qed.

Lemma keeps_get_gspread_client : keeps f get_gspread_client.
Proof.
  unfold get_gspread_client, st_error.
  keeps_auto; try apply keeps_draw. apply keeps_get_config.
Qed.

Lemma keeps_open_by_key sid : keeps f (open_by_key sid).
Proof. unfold open_by_key. keeps_auto. apply keeps_api_call. Qed.

Lemma keeps_worksheet name : keeps f (worksheet_ name).
Proof. unfold worksheet_. keeps_auto. apply keeps_api_call. Qed.

Lemma keeps_gspread_WorksheetNotFound : keeps f gspread_WorksheetNotFound.
Proof. intros w. unfold gspread_WorksheetNotFound. by destruct (gspread_bound w). Qed.

Lemma keeps_get_sheet name : keeps f (get_sheet name).
Proof.
  unfold get_sheet, st_error.
  keeps_auto;
    first [apply keeps_draw | apply keeps_get_config | apply keeps_get_gspread_client
          | apply keeps_open_by_key | apply keeps_worksheet
          | apply keeps_gspread_WorksheetNotFound].
Qed.

Lemma keeps_get_all_records ws : keeps f (get_all_records ws).
Proof. unfold get_all_records. keeps_auto. apply keeps_api_call. Qed.

Lemma keeps_cache_data ttl get put body :
  (forall c w, f (put c w) = f w) -> keeps f body ->
  keeps f (cache_data ttl get put body).
Proof.
  intros Hput Hbody. unfold cache_data.
  keeps_auto; try done; by (apply keeps_modify; intros ?; apply Hput).
Qed.

Lemma keeps_fetch_employees : keeps f fetch_employees.
Proof.
  unfold fetch_employees, st_error. apply keeps_cache_data; [apply Hf|].
  keeps_auto; first [apply keeps_draw | apply keeps_get_sheet | apply keeps_get_all_records].
Qed.

Lemma keeps_fetch_questions : keeps f fetch_questions.
Proof.
  unfold fetch_questions, st_error. apply keeps_cache_data; [apply Hf|].
  keeps_auto; first [apply keeps_draw | apply keeps_get_sheet | apply keeps_get_all_records].
Qed.

Lemma keeps_fetch_responses : keeps f fetch_responses.
Proof.
  unfold fetch_responses, st_warning.
  keeps_auto; first [apply keeps_draw | apply keeps_get_sheet | apply keeps_get_all_records].
Qed.

Lemma keeps_write_grid ws g : sheets_too = true -> keeps f (write_grid ws g).
Proof.
  intros Hs. unfold write_grid. keeps_auto.
  apply keeps_modify. intros ?. by apply Hf.
Qed.

Lemma keeps_append_responses rs : sheets_too = true -> keeps f (append_responses rs).
Proof.
  intros Hs. unfold append_responses, append_rows, st_error.
  keeps_auto;
    first [apply keeps_draw | apply keeps_get_sheet | apply keeps_api_call
          | apply keeps_cache_clear | by apply keeps_write_grid].
Qed.

Lemma keeps_update_employee_status email :
  sheets_too = true -> keeps f (update_employee_status email).
Proof.
  intros Hs. unfold update_employee_status, update_cell, st_error.
  keeps_auto;
    first [apply keeps_draw | apply keeps_get_sheet | apply keeps_api_call
          | apply keeps_get_all_records | apply keeps_cache_clear
          | by apply keeps_write_grid].
Qed.

End Frames.

Lemma frame_session_view {X} (g : session_state -> X) b :
  frame (fun w => g (session w)) b.
Proof. by split. Qed.

Lemma frame_sheets_view : frame sheets false.
Proof. by split. Qed.

Lemma no_rerun_ret {A} (a : A) : no_rerun (ret a).
Proof. by intros w. Qed.

Lemma no_rerun_raise {A} e : no_rerun (@raise A e).
Proof. by intros w. Qed.

Lemma no_rerun_lift {A} (o : result A) : no_rerun (lift o).
Proof. intros w. by destruct o. Qed.

Lemma no_rerun_get_world : no_rerun get_world.
Proof. by intros w. Qed.

Lemma no_rerun_stop {A} : no_rerun (@st_stop A).
Proof. by intros w. Qed.

Lemma no_rerun_modify g : no_rerun (modify g).
Proof. by intros w. Qed.

Lemma no_rerun_bind {A B} (m : M A) (k : A -> M B) :
  no_rerun m -> (forall a, no_rerun (k a)) -> no_rerun (bind m k).
Proof.
  intros Hm Hk w. unfold bind. specialize (Hm w).
  destruct (m w) as [[a|e|c] w1]; simpl in *; [apply Hk|done|].
  intros [= ->]. by apply Hm.
Qed.

Lemma no_rerun_try_except {A} (m : M A) h :
  no_rerun m -> (forall e, no_rerun (h e)) -> no_rerun (try_except m h).
Proof.
  intros Hm Hh w. unfold try_except. specialize (Hm w).
  destruct (m w) as [[a|e|c] w1]; simpl in *; [done|apply Hh|done].
Qed.

Lemma no_rerun_for_each {A} (g : A -> M unit) l :
  (forall a, no_rerun (g a)) -> no_rerun (for_each g l).
Proof.
  intros Hg. induction l as [|a l IH]; simpl.
  - apply no_rerun_ret.
  - apply no_rerun_bind; auto.
Qed.

Ltac no_rerun_step :=
  lazymatch goal with
  | |- no_rerun (bind _ _) => apply no_rerun_bind; [|intros ?]
  | |- no_rerun (try_except _ _) => apply no_rerun_try_except; [|intros ?]
  | |- no_rerun (ret _) => apply no_rerun_ret
  | |- no_rerun (raise _) => apply no_rerun_raise
  | |- no_rerun (lift _) => apply no_rerun_lift
  | |- no_rerun get_world => apply no_rerun_get_world
  | |- no_rerun st_stop => apply no_rerun_stop
  | |- no_rerun (modify _) => apply no_rerun_modify
  | |- no_rerun (st_error _) => apply no_rerun_modify
  | |- no_rerun (st_warning _) => apply no_rerun_modify
  | |- no_rerun (st_info _) => apply no_rerun_modify
  | |- no_rerun (st_write _) => apply no_rerun_modify
  | |- no_rerun (st_subheader _) => apply no_rerun_modify
  | |- no_rerun st_cache_data_clear => apply no_rerun_modify
  | |- no_rerun (for_each _ _) => apply no_rerun_for_each; intros ?
  | |- no_rerun (match ?x with _ => _ end) => destruct x
  end.

Ltac no_rerun_auto := repeat no_rerun_step.

Lemma no_rerun_api_call a : no_rerun (api_call a).
Proof. intros w. unfold api_call. simpl. by destruct (faults w) as [|[] ?]. Qed.

Lemma no_rerun_gspread_WorksheetNotFound : no_rerun gspread_WorksheetNotFound.
Proof. intros w. unfold gspread_WorksheetNotFound. by destruct (gspread_bound w). Qed.

Lemma no_rerun_get_config : no_rerun get_config.
Proof. unfold get_config. no_rerun_auto. Qed.

Lemma no_rerun_get_gspread_client : no_rerun get_gspread_client.
Proof. unfold get_gspread_client. no_rerun_auto. apply no_rerun_get_config. Qed.

Lemma no_rerun_get_sheet name : no_rerun (get_sheet name).
Proof.
  unfold get_sheet, open_by_key, worksheet_.
  no_rerun_auto;
    first [apply no_rerun_get_config | apply no_rerun_get_gspread_client
          | apply no_rerun_api_call | apply no_rerun_gspread_WorksheetNotFound].
Qed.

Lemma no_rerun_get_all_records ws : no_rerun (get_all_records ws).
Proof. unfold get_all_records. no_rerun_auto. apply no_rerun_api_call. Qed.

Lemma no_rerun_cache_data ttl get put body :
  no_rerun body -> no_rerun (cache_data ttl get put body).
Proof. intros Hbody. unfold cache_data. no_rerun_auto; done. Qed.

Lemma no_rerun_fetch_employees : no_rerun fetch_employees.
Proof.
  unfold fetch_employees. apply no_rerun_cache_data.
  no_rerun_auto; first [apply no_rerun_get_sheet | apply no_rerun_get_all_records].
Qed.

Lemma no_rerun_fetch_questions : no_rerun fetch_questions.
Proof.
  unfold fetch_questions. apply no_rerun_cache_data.
  no_rerun_auto; first [apply no_rerun_get_sheet | apply no_rerun_get_all_records].
Qed.

Lemma no_rerun_the_selections : no_rerun the_selections.
Proof. unfold the_selections. no_rerun_auto. Qed.

Lemma no_rerun_question_loop inp names total qs :
  forall i seen, no_rerun (question_loop inp names total i seen qs).
Proof.
  induction qs as [|q qs IH]; intros i seen; simpl.
  - apply no_rerun_ret.
  - unfold st_selectbox. no_rerun_auto;
      first [apply no_rerun_the_selections | apply IH].
Qed.

(** ** Login validation *)

(** C6: for every submitted email that does not contain the required
    domain substring, login is rejected with a validation error (the
    empty-field error for an empty email, the invalid-domain error
    otherwise); the run ends normally, issues no spreadsheet call, leaves
    the sheets, the caches and the session state untouched, so the page
    stays where it was and no user is bound. *)
Theorem C6_login_rejects_missing_domain (inp : input) (w : world) :
  clicked inp = Some "Login" ->
  PyStr.contains REQUIRED_DOMAIN (typed_email inp) = false ->
  exists text,
    (text = enter_email_error \/ text = invalid_domain_error) /\
    login_page inp w = (Ok tt, add_screen (UiError text) w) /\
    let w' := snd (login_page inp w) in
    screen w' = screen w ++ [UiError text] /\
    calls w' = calls w /\
    sheets w' = sheets w /\
    employees_cache w' = employees_cache w /\
    questions_cache w' = questions_cache w /\
    session w' = session w.
Proof.
  intros Hclick Hdom. unfold login_page.
  rewrite bool_decide_true by done.
  destruct (String.eqb (typed_email inp) "") eqn:Hempty.
  - exists enter_email_error. split; [by left|]. by split.
  - rewrite Hdom. simpl. exists invalid_domain_error.
    split; [by right|]. by split.
Qed.

Lemma C6_login_rejects_missing_domain_witness :
  exists text,
    (text = enter_email_error \/ text = invalid_domain_error) /\
    login_page (Input "mallory@example.com" (Some "Login") ∅)
      (World (Config true "u" (Some "k") true) false ∅ [] 0 None None
             (Session (Some true) (Some "login") None None None) [] [])
    = (Ok tt,
       add_screen (UiError text)
         (World (Config true "u" (Some "k") true) false ∅ [] 0 None None
                (Session (Some true) (Some "login") None None None) [] [])).
Proof.
  destruct (C6_login_rejects_missing_domain
              (Input "mallory@example.com" (Some "Login") ∅)
              (World (Config true "u" (Some "k") true) false ∅ [] 0 None None
                     (Session (Some true) (Some "login") None None None) [] []))
    as (text & Htext & Hrun & _); [reflexivity | reflexivity |].
  exists text. split; assumption.
Defined.

(** ** The back transition *)

Lemma bind_rerun {A B} (m : M A) (k : A -> M B) w w' :
  no_rerun m ->
  bind m k w = (Halt RerunException, w') ->
  exists a w1, m w = (Ok a, w1) /\ k a w1 = (Halt RerunException, w').
Proof.
  intros Hm H. unfold bind in H. specialize (Hm w).
  destruct (m w) as [[a|e|c] w1]; simpl in *.
  - by exists a, w1.
  - done.
  - injection H as -> ->. done.
Qed.

Lemma keeps_user_binding_question_loop inp names total qs :
  forall i seen, keeps user_binding (question_loop inp names total i seen qs).
Proof.
  induction qs as [|q qs IH]; intros i seen; simpl.
  - apply keeps_ret.
  - unfold st_subheader, st_write, st_selectbox, the_selections.
    keeps_auto; first [by apply keeps_modify | apply IH].
Qed.

Lemma frame_user_binding b : frame user_binding b.
Proof. by split. Qed.

Lemma keeps_user_binding_submit_survey ue un qs :
  keeps user_binding (submit_survey ue un qs).
Proof.
  unfold submit_survey, the_selections, st_error, st_warning.
  keeps_auto;
    first [ by apply keeps_modify
          | by apply (keeps_append_responses _ true (frame_user_binding true))
          | by apply (keeps_update_employee_status _ true (frame_user_binding true)) ].
Qed.

Lemma keeps_user_binding_questions_page inp :
  keeps user_binding (questions_page inp).
Proof.
  unfold questions_page, st_button, st_error, st_info, st_warning, the_selections.
  keeps_auto;
    first [ by apply keeps_modify
          | apply (keeps_fetch_questions _ true (frame_user_binding true))
          | apply (keeps_fetch_employees _ true (frame_user_binding true))
          | apply keeps_user_binding_question_loop
          | apply keeps_user_binding_submit_survey ].
Qed.

(** C3 (as the code has it): pressing back on the questions page discards
    the selections and sets the page to login, and keeps the user bound:
    [user_email] and [user_name] are what they were, and [user_email] is
    still a non-empty value. *)
Theorem C3_back_discards_selections_keeps_user (inp : input) (w w' : world) :
  clicked inp = Some back_label ->
  questions_page inp w = (Halt RerunException, w') ->
  page (session w') = Some "login" /\
  selections (session w') = None /\
  user_email (session w') = user_email (session w) /\
  user_name (session w') = user_name (session w) /\
  exists v, user_email (session w') = Some v /\ truthy v = true.
Proof.
  intros Hclick Hrun.
  pose proof (keeps_user_binding_questions_page inp w) as Hkeep.
  rewrite Hrun in Hkeep. simpl in Hkeep. injection Hkeep as Hmail Hname.
  assert (page (session w') = Some "login" /\ selections (session w') = None /\
          exists v, user_email (session w) = Some v /\ truthy v = true) as (?&?&v&?&?).
  { clear Hmail Hname. unfold questions_page in Hrun.
    apply bind_rerun in Hrun; [|apply no_rerun_get_world].
    destruct Hrun as (w0 & w1 & [= <- <-] & Hrun).
    destruct (truthy (default PNone (user_email (session w)))) eqn:Htruthy; simpl in Hrun.
    - assert (exists v, user_email (session w) = Some v /\ truthy v = true) as Hv.
      { destruct (user_email (session w)) as [v|]; [by exists v|done]. }
      apply bind_rerun in Hrun; [|apply no_rerun_fetch_questions].
      destruct Hrun as (qs & w2 & _ & Hrun).
      apply bind_rerun in Hrun; [|apply no_rerun_fetch_employees].
      destruct Hrun as (es & w3 & _ & Hrun).
      destruct qs as [|q qs]; [done|].
      apply bind_rerun in Hrun; [|apply no_rerun_lift].
      destruct Hrun as (ns0 & w4 & _ & Hrun).
      apply bind_rerun in Hrun; [|apply no_rerun_lift].
      destruct Hrun as (names & w5 & _ & Hrun).
      destruct names as [|n names]; [done|].
      apply bind_rerun in Hrun; [|apply no_rerun_modify].
      destruct Hrun as (? & w6 & _ & Hrun).
      apply bind_rerun in Hrun; [|apply no_rerun_get_world].
      destruct Hrun as (? & w7 & _ & Hrun).
      apply bind_rerun in Hrun; [|no_rerun_auto].
      destruct Hrun as (? & w8 & _ & Hrun).
      apply bind_rerun in Hrun; [|apply no_rerun_question_loop].
      destruct Hrun as (? & w9 & _ & Hrun).
      apply bind_rerun in Hrun; [|apply no_rerun_the_selections].
      destruct Hrun as (sel & w10 & _ & Hrun).
      apply bind_rerun in Hrun; [|no_rerun_auto].
      destruct Hrun as (? & w11 & _ & Hrun).
      unfold st_button in Hrun. rewrite Hclick in Hrun.
      rewrite bool_decide_true in Hrun by done. simpl in Hrun.
      injection Hrun as <-. by repeat split.
    - unfold st_button in Hrun. rewrite Hclick in Hrun. by simpl in Hrun. }
  repeat split; try done. exists v. split; [congruence|done].
Qed.

Lemma C3_back_discards_selections_keeps_user_witness :
  page (session (snd (questions_page (Input "" (Some back_label) ∅)
                        (sample_world seeded_sheets [] jane_session))))
  = Some "login" /\
  user_email (session (snd (questions_page (Input "" (Some back_label) ∅)
                              (sample_world seeded_sheets [] jane_session))))
  = Some (PStr "jane.doe@keydynamicssolutions").
Proof.
  destruct (C3_back_discards_selections_keeps_user
              (Input "" (Some back_label) ∅)
              (sample_world seeded_sheets [] jane_session)
              (snd (questions_page (Input "" (Some back_label) ∅)
                      (sample_world seeded_sheets [] jane_session))))
    as (Hpage & _ & Hmail & _); [reflexivity | by vm_compute |].
  split; [exact Hpage | exact Hmail].
Defined.

(** C3 (as stated) fails: after the back transition of a logged-in
    session the state still holds [user_email] and [user_name]; the
    source says so itself ("Clear selections but keep user info for
    potential return"). *)
Lemma C3_back_retains_user_counterexample :
  let run := questions_page (Input "" (Some back_label) ∅)
               (sample_world seeded_sheets [] jane_session) in
  fst run = Halt RerunException /\
  page (session (snd run)) = Some "login" /\
  ~ (selections (session (snd run)) = None /\
     user_email (session (snd run)) = None /\
     user_name (session (snd run)) = None).
Proof.
  vm_compute. split; [reflexivity|]. split; [reflexivity|].
  intros (_ & Hmail & _). discriminate Hmail.
Qed.

(** ** Fetch failures *)

Lemma cache_data_miss ttl get put body w :
  cache_miss (get w) (clock w) ttl = true ->
  cache_data ttl get put body w =
  (let* v := body in
   let* w' := get_world in
   modify (put (Some (clock w', v))) >> ret v) w.
Proof.
  intros Hmiss. unfold cache_data. rewrite (bind_Ok get_world _ w w w) by done.
  destruct (get w) as [[t v]|]; [|done].
  simpl in Hmiss. by destruct (clock w <? t + ttl).
Qed.

Lemma cache_data_hit ttl get put body w t v :
  get w = Some (t, v) -> clock w < t + ttl ->
  cache_data ttl get put body w = (Ok v, w).
Proof.
  intros Hget Hlt. unfold cache_data. rewrite (bind_Ok get_world _ w w w) by done.
  rewrite Hget. apply Nat.ltb_lt in Hlt. by rewrite Hlt.
Qed.

Lemma contains_domain_nonempty email :
  PyStr.contains REQUIRED_DOMAIN email = true -> String.eqb email "" = false.
Proof. destruct email; [discriminate|done]. Qed.

Lemma fetch_employees_failure w w1 e :
  cache_miss (employees_cache w) (clock w) 300 = true ->
  read_table "employee_details" w = (Raise e, w1) ->
  fetch_employees w =
  (Ok [], set_employees_cache (Some (clock w1, []))
            (add_screen (UiError ("Failed to fetch employees: " +:+ exn_str e)) w1)).
Proof.
  intros Hmiss Hraise. unfold fetch_employees.
  rewrite cache_data_miss by done.
  fold (read_table "employee_details").
  erewrite bind_Ok; [|by erewrite try_except_Raise by exact Hraise].
  reflexivity.
Qed.

Lemma fetch_questions_failure w w1 e :
  cache_miss (questions_cache w) (clock w) 3600 = true ->
  read_table "questions" w = (Raise e, w1) ->
  fetch_questions w =
  (Ok [], set_questions_cache (Some (clock w1, []))
            (add_screen (UiError ("Failed to fetch questions: " +:+ exn_str e)) w1)).
Proof.
  intros Hmiss Hraise. unfold fetch_questions.
  rewrite cache_data_miss by done.
  fold (read_table "questions").
  erewrite bind_Ok; [|by erewrite try_except_Raise by exact Hraise].
  reflexivity.
Qed.

(** C10: when the body of a fetch raises (whatever the exception),
    [fetch_employees] and [fetch_questions] draw an error and return the
    empty list: the run goes on, nothing is propagated and the script is
    not stopped.  A login attempted then (submitted, with the required
    domain) works on the empty roster and ends with the "email not found"
    error, the session left as it was. *)
Theorem C10_fetch_failure_returns_empty_list (w w1 : world) (e : exn) :
  (cache_miss (employees_cache w) (clock w) 300 = true ->
   read_table "employee_details" w = (Raise e, w1) ->
   let w2 := set_employees_cache (Some (clock w1, []))
               (add_screen (UiError ("Failed to fetch employees: " +:+ exn_str e)) w1) in
   fetch_employees w = (Ok [], w2) /\
   forall inp,
     clicked inp = Some "Login" ->
     PyStr.contains REQUIRED_DOMAIN (typed_email inp) = true ->
     login_page inp w = (Ok tt, add_screen (UiError email_not_found_error) w2) /\
     session (snd (login_page inp w)) = session w) /\
  (cache_miss (questions_cache w) (clock w) 3600 = true ->
   read_table "questions" w = (Raise e, w1) ->
   fetch_questions w =
   (Ok [], set_questions_cache (Some (clock w1, []))
             (add_screen (UiError ("Failed to fetch questions: " +:+ exn_str e)) w1))).
Proof.
  split.
  - intros Hmiss Hraise w2.
    pose proof (fetch_employees_failure w w1 e Hmiss Hraise) as Hfetch.
    split; [exact Hfetch|].
    intros inp Hclick Hdom.
    assert (login_page inp w = (Ok tt, add_screen (UiError email_not_found_error) w2)) as Hlogin.
    { unfold login_page. rewrite bool_decide_true by done.
      rewrite (contains_domain_nonempty _ Hdom), Hdom. simpl.
      erewrite bind_Ok by exact Hfetch. reflexivity. }
    split; [exact Hlogin|].
    rewrite Hlogin. simpl.
    pose proof (keeps_get_sheet _ _ (frame_session_view id true) "employee_details" w) as Hk1.
    unfold read_table in Hraise. unfold bind in Hraise.
    destruct (get_sheet "employee_details" w) as [[ws|e'|c] w3] eqn:Hsheet;
      simpl in Hk1.
    + pose proof (keeps_get_all_records _ _ (frame_session_view id true) ws w3) as Hk2.
      rewrite Hraise in Hk2. simpl in Hk2. congruence.
    + injection Hraise as -> ->. exact Hk1.
    + discriminate.
  - intros Hmiss Hraise. by apply fetch_questions_failure.
Qed.

(** With the configuration in place and [gspread] not bound at module
    level (as in [vote.py]), no failure of the store stops a fetch: an
    exception of [open_by_key] or [worksheet] becomes a [NameError] when
    the [except gspread.WorksheetNotFound] clause is evaluated, and leaves
    [get_sheet] as an ordinary exception. *)
Lemma get_sheet_never_halts w name :
  config_ok (cfg w) = true -> gspread_bound w = false ->
  exists w1, get_sheet name w = (Ok name, w1) \/ get_sheet name w = (Raise NameError, w1).
Proof.
  destruct w as [[sp url sid cv] gb sh fs ck ec qc ss scr cl].
  unfold config_ok. simpl. intros Hok ->.
  destruct sp, cv, (String.eqb url "") eqn:Hurl, sid as [sid|]; try done.
  unfold get_sheet, get_config, get_gspread_client, open_by_key, worksheet_,
    api_call, gspread_WorksheetNotFound, bind, try_except.
  simpl. rewrite Hurl. simpl.
  destruct fs as [|[] [|[] fs]]; simpl; destruct (sh !! name); simpl; eauto.
Qed.

Lemma read_table_never_halts w name c w1 :
  config_ok (cfg w) = true -> gspread_bound w = false ->
  read_table name w <> (Halt c, w1).
Proof.
  intros Hok Hgb. unfold read_table.
  destruct (get_sheet_never_halts w name Hok Hgb) as (w2 & [H|H]).
  - erewrite bind_Ok by exact H.
    unfold get_all_records, api_call, bind. simpl.
    destruct (faults w2) as [|[] ?]; simpl; try done;
      by destruct (sheets w2 !! name).
  - by erewrite bind_Raise by exact H.
Qed.

Lemma C10_fetch_failure_returns_empty_list_witness :
  fetch_employees (sample_world seeded_sheets [true] empty_session)
  = (Ok [],
     set_employees_cache (Some (0, []))
       (add_screen (UiError "Failed to fetch employees: name 'gspread' is not defined")
          (snd (read_table "employee_details"
                  (sample_world seeded_sheets [true] empty_session))))) /\
  fst (login_page (Input "jane.doe@keydynamicssolutions" (Some "Login") ∅)
         (sample_world seeded_sheets [true] empty_session)) = Ok tt /\
  fetch_questions (sample_world seeded_sheets [false; false; true] empty_session)
  = (Ok [],
     set_questions_cache (Some (0, []))
       (add_screen (UiError "Failed to fetch questions: APIError")
          (snd (read_table "questions"
                  (sample_world seeded_sheets [false; false; true] empty_session))))).
Proof.
  split; [|split].
  - apply (C10_fetch_failure_returns_empty_list
             (sample_world seeded_sheets [true] empty_session)
             (snd (read_table "employee_details"
                     (sample_world seeded_sheets [true] empty_session)))
             NameError); [reflexivity | by vm_compute].
  - destruct (C10_fetch_failure_returns_empty_list
                (sample_world seeded_sheets [true] empty_session)
                (snd (read_table "employee_details"
                        (sample_world seeded_sheets [true] empty_session)))
                NameError) as [Hemp _].
    destruct Hemp as [_ Hlogin]; [reflexivity | by vm_compute |].
    destruct (Hlogin (Input "jane.doe@keydynamicssolutions" (Some "Login") ∅))
      as [Hrun _]; [reflexivity | reflexivity |].
    by rewrite Hrun.
  - apply (C10_fetch_failure_returns_empty_list
             (sample_world seeded_sheets [false; false; true] empty_session)
             (snd (read_table "questions"
                     (sample_world seeded_sheets [false; false; true] empty_session)))
             APIError); [reflexivity | by vm_compute].
Defined.

(** ** The submit flow *)

Lemma bind_inv {A B} (m : M A) (k : A -> M B) w r :
  bind m k w = r ->
  (exists a w1, m w = (Ok a, w1) /\ k a w1 = r) \/
  (exists e w1, m w = (Raise e, w1) /\ r = (Raise e, w1)) \/
  (exists c w1, m w = (Halt c, w1) /\ r = (Halt c, w1)).
Proof.
  unfold bind. destruct (m w) as [[a|e|c] w1]; intros <-; eauto 6.
Qed.

Lemma the_selections_Some w sel :
  selections (session w) = Some sel -> the_selections w = (Ok sel, w).
Proof. intros H. unfold the_selections, bind. simpl. by rewrite H. Qed.

(** [append_responses] returns [True] only after the rows were written,
    and leaves the sheets as they were when it returns [False]. *)
Lemma append_responses_false rs w w1 :
  append_responses rs w = (Ok false, w1) ->
  sheets w1 = sheets w /\ session w1 = session w.
Proof.
  intros H. split.
  - unfold append_responses, try_except in H.
    match type of H with
    | match ?body w with _ => _ end = _ =>
        destruct (body w) as [[b|e|c] w2] eqn:Hbody
    end; [| |done].
    + apply bind_inv in Hbody as [(ws & w3 & _ & Hk)|[(?&?&_&[=])|(?&?&_&[=])]].
      apply bind_inv in Hk as [(? & w4 & _ & Hk)|[(?&?&_&[=])|(?&?&_&[=])]].
      apply bind_inv in Hk as [(? & w5 & _ & Hk)|[(?&?&_&[=])|(?&?&_&[=])]].
      injection Hk as <- <-. by injection H.
    + injection H as <-. simpl.
      apply bind_inv in Hbody as [(ws & w3 & Hsheet & Hk)|[(?&?&Hsheet&[= <- <-])|(?&?&_&[=])]].
      * pose proof (keeps_get_sheet _ _ frame_sheets_view "employee_responses" w) as Hs.
        rewrite Hsheet in Hs. simpl in Hs. rewrite <- Hs.
        apply bind_inv in Hk as [(? & w4 & Happ & Hk)|[(?&?&Happ&[= <- <-])|(?&?&_&[=])]].
        { apply bind_inv in Hk as [(? & w5 & _ & Hk)|[(?&?&Hc&[=])|(?&?&_&[=])]];
            [done|]. subst. unfold st_cache_data_clear, modify in Hc. done. }
        unfold append_rows in Happ.
        apply bind_inv in Happ as [(? & w5 & Hcall & Hk)|[(?&?&Hcall&[= <- <-])|(?&?&_&[=])]].
        { pose proof (keeps_api_call _ _ frame_sheets_view
                        (AppendRows ws (response_row <$> rs)) w3) as Hc.
          rewrite Hcall in Hc. simpl in Hc. rewrite <- Hc.
          unfold write_grid, bind in Hk. simpl in Hk.
          destruct (sheets w5 !! ws); unfold modify, raise in Hk; [done|].
          by injection Hk as <- <-. }
        pose proof (keeps_api_call _ _ frame_sheets_view
                      (AppendRows ws (response_row <$> rs)) w3) as Hc.
        by rewrite Hcall in Hc.
      * pose proof (keeps_get_sheet _ _ frame_sheets_view "employee_responses" w) as Hs.
        by rewrite Hsheet in Hs.
  - pose proof (keeps_append_responses _ true (frame_session_view id true) rs eq_refl w) as Hs.
    by rewrite H in Hs.
Qed.

(** C2: in the submit flow [update_employee_status] runs only after
    [append_responses] has succeeded.  When [append_responses] returns
    failure, the handler draws the save error and returns at once: the
    world is the one [append_responses] left (no further call, the sheets
    and the session as before the submission, so no navigation).  When it
    succeeds and [update_employee_status] fails, the warning is drawn and
    the page is set to success before the rerun; when both succeed the page
    is set to success without a warning. *)
Theorem C2_status_update_only_after_save
    (ue un : pyval) (qs : list row) (w : world)
    (sel : gmap string pyval) (rs : list response) :
  selections (session w) = Some sel ->
  build_responses ue un sel qs = Val rs ->
  (forall w1,
      append_responses rs w = (Ok false, w1) ->
      submit_survey ue un qs w = (Ok tt, add_screen (UiError save_failed_error) w1) /\
      sheets w1 = sheets w /\
      session w1 = session w /\
      page (session (snd (submit_survey ue un qs w))) = page (session w)) /\
  (forall w1 w2,
      append_responses rs w = (Ok true, w1) ->
      update_employee_status ue w1 = (Ok false, w2) ->
      submit_survey ue un qs w =
      (Halt RerunException,
       set_session (set_page "success")
         (add_screen (UiWarning status_update_warning) w2))) /\
  (forall w1 w2,
      append_responses rs w = (Ok true, w1) ->
      update_employee_status ue w1 = (Ok true, w2) ->
      submit_survey ue un qs w =
      (Halt RerunException, set_session (set_page "success") w2)).
Proof.
  intros Hsel Hbuild.
  assert (forall k : list response -> M unit,
             (let* sel := the_selections in
              let* responses := lift (build_responses ue un sel qs) in
              k responses) w = k rs w) as Hstart.
  { intros k. erewrite bind_Ok by by apply the_selections_Some.
    rewrite Hbuild. reflexivity. }
  unfold submit_survey. rewrite Hstart. clear Hstart.
  split; [|split].
  - intros w1 Happ.
    assert (sheets w1 = sheets w /\ session w1 = session w) as [Hsh Hss]
        by by apply append_responses_false in Happ.
    erewrite bind_Ok by exact Happ. simpl.
    repeat split; try done. by rewrite <- Hss.
  - intros w1 w2 Happ Hupd.
    erewrite bind_Ok by exact Happ. simpl.
    erewrite bind_Ok by exact Hupd. reflexivity.
  - intros w1 w2 Happ Hupd.
    erewrite bind_Ok by exact Happ. simpl.
    erewrite bind_Ok by exact Hupd. reflexivity.
Qed.

Lemma C2_status_update_only_after_save_witness :
  (* the save fails: the first API call of [append_responses] raises *)
  submit_survey jane_email jane_name sample_question_rows
    (sample_world seeded_sheets [true] jane_answered_session)
  = (Ok tt,
     add_screen (UiError save_failed_error)
       (snd (append_responses jane_responses
               (sample_world seeded_sheets [true] jane_answered_session)))) /\
  (* the save works, the first API call of [update_employee_status] raises *)
  submit_survey jane_email jane_name sample_question_rows
    (sample_world seeded_sheets [false; false; false; true] jane_answered_session)
  = (Halt RerunException,
     set_session (set_page "success")
       (add_screen (UiWarning status_update_warning)
          (snd (update_employee_status jane_email
                  (snd (append_responses jane_responses
                          (sample_world seeded_sheets [false; false; false; true]
                                        jane_answered_session))))))).
Proof.
  split.
  - apply (C2_status_update_only_after_save jane_email jane_name
             sample_question_rows
             (sample_world seeded_sheets [true] jane_answered_session)
             jane_answers jane_responses);
      [reflexivity | by vm_compute | by vm_compute].
  - destruct (C2_status_update_only_after_save jane_email jane_name
                sample_question_rows
                (sample_world seeded_sheets [false; false; false; true]
                              jane_answered_session)
                jane_answers jane_responses) as (_ & Hwarn & _);
      [reflexivity | by vm_compute |].
    apply Hwarn
      with (w1 := snd (append_responses jane_responses
                         (sample_world seeded_sheets [false; false; false; true]
                                       jane_answered_session)));
      by vm_compute.
Defined.

(** ** Table initialisation *)

Section ReadOnly.
Context (S : gmap string worksheet).

Lemma read_only_ret {A} (a : A) : read_only_on S (ret a).
Proof. intros w Hw. split; [done|]. exists []. by rewrite app_nil_r. Qed.

Lemma read_only_no_call {A} (m : M A) :
  (forall w, sheets (snd (m w)) = sheets w /\ calls (snd (m w)) = calls w) ->
  read_only_on S m.
Proof.
  intros H w Hw. destruct (H w) as [Hs Hc]. split; [congruence|].
  exists []. by rewrite app_nil_r.
Qed.

Lemma read_only_bind {A B} (m : M A) (k : A -> M B) :
  read_only_on S m -> (forall a, read_only_on S (k a)) -> read_only_on S (bind m k).
Proof.
  intros Hm Hk w Hw. unfold bind. destruct (Hm w Hw) as (Hs & l & Hc & Hl).
  destruct (m w) as [[a|e|c] w1]; simpl in *;
    [|split; [done|by exists l]..].
  destruct (Hk a w1 Hs) as (Hs2 & l2 & Hc2 & Hl2). split; [done|].
  exists (l ++ l2). rewrite Hc2, Hc, app_assoc. split; [done|].
  by apply Forall_app.
Qed.

Lemma read_only_try_except {A} (m : M A) h :
  read_only_on S m -> (forall e, read_only_on S (h e)) ->
  read_only_on S (try_except m h).
Proof.
  intros Hm Hh w Hw. unfold try_except. destruct (Hm w Hw) as (Hs & l & Hc & Hl).
  destruct (m w) as [[a|e|c] w1]; simpl in *;
    [split; [done|by exists l]| |split; [done|by exists l]].
  destruct (Hh e w1 Hs) as (Hs2 & l2 & Hc2 & Hl2). split; [done|].
  exists (l ++ l2). rewrite Hc2, Hc, app_assoc. split; [done|].
  by apply Forall_app.
Qed.

Lemma read_only_api_call a : is_write a = false -> read_only_on S (api_call a).
Proof.
  intros Ha w Hw. unfold api_call. simpl.
  destruct (faults w) as [|[] fs]; simpl; (split; [done|]);
    exists [a]; split; try done; by constructor.
Qed.

Lemma read_only_get_config : read_only_on S get_config.
Proof.
  apply read_only_no_call. intros w. unfold get_config, bind. simpl.
  by destruct (secrets_present (cfg w)).
Qed.

Lemma read_only_get_gspread_client : read_only_on S get_gspread_client.
Proof.
  apply read_only_no_call. intros w.
  unfold get_gspread_client, get_config, try_except, bind. simpl.
  destruct (secrets_present (cfg w)); simpl; [|done].
  by destruct (credentials_valid (cfg w)).
Qed.

Lemma read_only_open_by_key sid : read_only_on S (open_by_key sid).
Proof.
  unfold open_by_key. apply read_only_bind; [by apply read_only_api_call|].
  intros _. apply read_only_no_call. intros w. by destruct sid.
Qed.

(** A worksheet that exists is found or the lookup fails; either way
    nothing is created. *)
Lemma read_only_ensure_worksheet name header seed :
  is_Some (S !! name) -> read_only_on S (ensure_worksheet name header seed).
Proof.
  intros [g Hg] w Hw.
  unfold ensure_worksheet, worksheet_, try_except, bind, api_call,
    gspread_WorksheetNotFound.
  simpl.
  destruct (faults w) as [|[] fs]; simpl; rewrite ?Hw, ?Hg; simpl;
    destruct (gspread_bound w); simpl;
    (split; [done|]); exists [Worksheet name]; split; try done;
    by constructor.
Qed.

Lemma read_only_initialize_sheets :
  (forall name, name ∈ the_three_worksheets -> is_Some (S !! name)) ->
  read_only_on S initialize_sheets.
Proof.
  intros Hall. unfold initialize_sheets.
  apply read_only_bind; [apply read_only_get_gspread_client|]. intros _.
  apply read_only_bind; [apply read_only_get_config|]. intros _.
  apply read_only_bind; [by apply read_only_no_call|]. intros w0.
  apply read_only_try_except.
  - apply read_only_bind; [apply read_only_open_by_key|]. intros _.
    apply read_only_bind.
    { apply read_only_ensure_worksheet, Hall. by repeat constructor. }
    intros _. apply read_only_bind.
    { apply read_only_ensure_worksheet, Hall. by repeat constructor. }
    intros _. apply read_only_bind.
    { apply read_only_ensure_worksheet, Hall. by repeat constructor. }
    intros _. apply read_only_ret.
  - intros e. by apply read_only_no_call.
Qed.

End ReadOnly.

Lemma write_grid_dom ws g w :
  dom (sheets (snd (write_grid ws g w))) = dom (sheets w).
Proof.
  unfold write_grid, bind. simpl.
  destruct (sheets w !! ws) as [x|] eqn:Hws; simpl; [|done].
  rewrite dom_insert_L. apply elem_of_dom_2 in Hws. set_solver.
Qed.

Lemma api_call_sheets a w : sheets (snd (api_call a w)) = sheets w.
Proof. apply (keeps_api_call _ _ frame_sheets_view). Qed.

Lemma append_row_dom ws r w :
  dom (sheets (snd (append_row ws r w))) = dom (sheets w).
Proof.
  unfold append_row, bind.
  pose proof (api_call_sheets (AppendRow ws r) w) as Hc.
  destruct (api_call (AppendRow ws r) w) as [[[]|e|c] w1]; simpl in *;
    [|by rewrite Hc..].
  by rewrite write_grid_dom, Hc.
Qed.

Lemma append_rows_dom ws rs w :
  dom (sheets (snd (append_rows ws rs w))) = dom (sheets w).
Proof.
  unfold append_rows, bind.
  pose proof (api_call_sheets (AppendRows ws rs) w) as Hc.
  destruct (api_call (AppendRows ws rs) w) as [[[]|e|c] w1]; simpl in *;
    [|by rewrite Hc..].
  by rewrite write_grid_dom, Hc.
Qed.

Lemma add_worksheet_dom name w :
  dom (sheets w) ⊆ dom (sheets (snd (add_worksheet name w))) /\
  forall ws, fst (add_worksheet name w) = Ok ws ->
             ws = name /\ name ∈ dom (sheets (snd (add_worksheet name w))).
Proof.
  unfold add_worksheet, bind.
  pose proof (api_call_sheets (AddWorksheet name) w) as Hc.
  destruct (api_call (AddWorksheet name) w) as [[[]|e|c] w1]; simpl in *;
    [|by rewrite Hc..].
  destruct (sheets w1 !! name) eqn:Hn; simpl; rewrite <- Hc.
  - done.
  - rewrite dom_insert_L. split; [set_solver|]. intros ws [= <-]. set_solver.
Qed.

Lemma worksheet_dom name w :
  sheets (snd (worksheet_ name w)) = sheets w /\
  forall ws, fst (worksheet_ name w) = Ok ws -> name ∈ dom (sheets w).
Proof.
  unfold worksheet_, bind.
  pose proof (api_call_sheets (Worksheet name) w) as Hc.
  destruct (api_call (Worksheet name) w) as [[[]|e|c] w1]; simpl in *;
    [|done..].
  destruct (sheets w1 !! name) eqn:Hn; simpl; rewrite <- Hc; [|done].
  split; [done|]. intros _ _. by apply elem_of_dom_2 in Hn.
Qed.

(** [ensure_worksheet] never removes a worksheet, and when it returns the
    worksheet it was asked for exists. *)
Lemma ensure_worksheet_dom name header seed w :
  dom (sheets w) ⊆ dom (sheets (snd (ensure_worksheet name header seed w))) /\
  forall ws, fst (ensure_worksheet name header seed w) = Ok ws ->
             name ∈ dom (sheets (snd (ensure_worksheet name header seed w))).
Proof.
  unfold ensure_worksheet, try_except.
  destruct (worksheet_dom name w) as [Hs Hok].
  destruct (worksheet_ name w) as [[ws|e|c] w1]; simpl in *.
  - rewrite Hs. split; [done|]. intros ? _. by eapply Hok.
  - unfold bind, gspread_WorksheetNotFound. rewrite <- Hs.
    destruct (gspread_bound w1); simpl; [|done].
    destruct (decide (e = WorksheetNotFound)); simpl; [|done].
    destruct (add_worksheet_dom name w1) as [Hsub Hadd].
    destruct (add_worksheet name w1) as [[ws|e'|c] w2]; simpl in *; [|done..].
    destruct (Hadd ws eq_refl) as [-> Hin].
    pose proof (append_row_dom name header w2) as Hrow.
    destruct (append_row name header w2) as [[[]|e'|c] w3]; simpl in *;
      [|rewrite Hrow; split; [done|by intros]..].
    destruct seed as [rs|]; simpl.
    + pose proof (append_rows_dom name rs w3) as Hrows.
      destruct (append_rows name rs w3) as [[[]|e'|c] w4]; simpl in *;
        rewrite Hrows, Hrow; split; try done; by intros.
    + rewrite Hrow. split; [done|]. by intros.
  - by rewrite Hs.
Qed.

(** A run of [initialize_sheets] that comes back leaves the three
    worksheets in place. *)
Lemma initialize_sheets_Ok w w1 :
  initialize_sheets w = (Ok tt, w1) ->
  forall name, name ∈ the_three_worksheets -> is_Some (sheets w1 !! name).
Proof.
  intros Hrun. unfold initialize_sheets in Hrun.
  apply bind_inv in Hrun as [(? & wa & _ & Hrun)|[(?&?&_&[=])|(?&?&_&[=])]].
  apply bind_inv in Hrun as [(? & wb & _ & Hrun)|[(?&?&_&[=])|(?&?&_&[=])]].
  apply bind_inv in Hrun as [(w0 & wc & _ & Hrun)|[(?&?&_&[=])|(?&?&_&[=])]].
  unfold try_except in Hrun.
  match type of Hrun with
  | match ?body wc with _ => _ end = _ =>
      destruct (body wc) as [[[]|e|c] wd] eqn:Hbody; [|done..]
  end.
  injection Hrun as ->.
  apply bind_inv in Hbody as [(? & we & _ & Hbody)|[(?&?&_&[=])|(?&?&_&[=])]].
  apply bind_inv in Hbody as [(? & w2 & He1 & Hbody)|[(?&?&_&[=])|(?&?&_&[=])]].
  apply bind_inv in Hbody as [(? & w3 & He2 & Hbody)|[(?&?&_&[=])|(?&?&_&[=])]].
  apply bind_inv in Hbody as [(? & w4 & He3 & Hbody)|[(?&?&_&[=])|(?&?&_&[=])]].
  injection Hbody as ->.
  match type of He1 with ensure_worksheet ?n ?h ?sd ?w = _ =>
    destruct (ensure_worksheet_dom n h sd w) as [_ H1]; rewrite He1 in H1;
    specialize (H1 _ eq_refl); simpl in H1 end.
  match type of He2 with ensure_worksheet ?n ?h ?sd ?w = _ =>
    destruct (ensure_worksheet_dom n h sd w) as [S2 H2]; rewrite He2 in S2, H2;
    specialize (H2 _ eq_refl); simpl in S2, H2 end.
  match type of He3 with ensure_worksheet ?n ?h ?sd ?w = _ =>
    destruct (ensure_worksheet_dom n h sd w) as [S3 H3]; rewrite He3 in S3, H3;
    specialize (H3 _ eq_refl); simpl in S3, H3 end.
  intros name Hname. apply elem_of_dom.
  unfold the_three_worksheets in Hname.
  repeat (apply elem_of_cons in Hname as [->|Hname]); [set_solver..|].
  by apply elem_of_nil in Hname.
Qed.

(** C8: table initialisation is idempotent.  On a store in which the three
    worksheets exist, [initialize_sheets] leaves every worksheet as it is
    and issues no writing call (whatever else happens to the calls it
    makes); hence after a first call that came back, a second call finds
    the sheets the first one left and changes nothing: no header or seed
    row is written a second time. *)
Theorem C8_initialize_sheets_idempotent (w : world) :
  ((forall name, name ∈ the_three_worksheets -> is_Some (sheets w !! name)) ->
   sheets (snd (initialize_sheets w)) = sheets w /\
   exists l, calls (snd (initialize_sheets w)) = calls w ++ l /\
             Forall (fun a => is_write a = false) l) /\
  (forall w1 w2,
     initialize_sheets w = (Ok tt, w1) ->
     sheets w2 = sheets w1 ->
     sheets (snd (initialize_sheets w2)) = sheets w1 /\
     exists l, calls (snd (initialize_sheets w2)) = calls w2 ++ l /\
               Forall (fun a => is_write a = false) l).
Proof.
  split.
  - intros Hall. by apply (read_only_initialize_sheets (sheets w)).
  - intros w1 w2 Hfirst Hsame.
    apply (read_only_initialize_sheets (sheets w1)); [|done].
    exact (initialize_sheets_Ok _ _ Hfirst).
Qed.

Lemma C8_initialize_sheets_idempotent_witness :
  sheets (snd (initialize_sheets (sample_world seeded_sheets [] empty_session)))
  = sheets (sample_world seeded_sheets [] empty_session) /\
  sheets (snd (initialize_sheets (snd (initialize_sheets fresh_world_gspread_bound))))
  = sheets (snd (initialize_sheets fresh_world_gspread_bound)).
Proof.
  split.
  - refine (proj1 (proj1 (C8_initialize_sheets_idempotent
                            (sample_world seeded_sheets [] empty_session)) _)).
    intros name Hname. unfold the_three_worksheets in Hname.
    repeat (apply elem_of_cons in Hname as [->|Hname]);
      [vm_compute; eauto..|by apply elem_of_nil in Hname].
  - refine (proj1 (proj2 (C8_initialize_sheets_idempotent fresh_world_gspread_bound)
                     (snd (initialize_sheets fresh_world_gspread_bound))
                     (snd (initialize_sheets fresh_world_gspread_bound)) _ eq_refl)).
    by vm_compute.
Defined.

(** The first call on an empty spreadsheet seeds the tables (where
    [gspread] is bound), and the second call adds nothing to them. *)
Example initialize_sheets_seeds_once :
  let once := snd (initialize_sheets fresh_world_gspread_bound) in
  let twice := snd (initialize_sheets once) in
  (fun w => (sheets w !! "employee_details", sheets w !! "questions",
             sheets w !! "employee_responses")) <$> [once; twice]
  = (fun w => (sheets w !! "employee_details", sheets w !! "questions",
               sheets w !! "employee_responses"))
      <$> [sample_world seeded_sheets [] empty_session;
           sample_world seeded_sheets [] empty_session].
Proof. vm_compute. reflexivity. Qed.

(** ** The admin report *)

Lemma q_responses_filter responses q qid :
  q !! "question_id" = Some qid ->
  (forall r, r ∈ responses -> is_Some (r !! "question_id")) ->
  q_responses responses q
  = Val (filter (fun r : row => r !! "question_id" = Some qid) responses).
Proof.
  intros Hq Hall. induction responses as [|r rs IH]; [done|].
  simpl. unfold getitem at 1 2.
  destruct (Hall r) as [rq Hrq]; [by left|].
  rewrite Hrq, Hq. simpl. rewrite IH by (intros; apply Hall; by right).
  simpl. rewrite filter_cons.
  destruct (decide (rq = qid)) as [->|Hne].
  - by rewrite decide_True.
  - rewrite decide_False; [done|congruence].
Qed.

Lemma vote_counts_tally rs d :
  (forall r, r ∈ rs -> is_Some (r !! "name_of_person_in_response")) ->
  vote_counts rs d
  = Val (tally (omap (fun r : row => r !! "name_of_person_in_response") rs) d).
Proof.
  revert d. induction rs as [|r rs IH]; intros d Hall; [done|].
  simpl. unfold getitem.
  destruct (Hall r) as [n Hn]; [by left|].
  rewrite Hn. simpl. rewrite IH by (intros; apply Hall; by right). done.
Qed.

Lemma votes_of_incr k n d :
  votes_of k (vote_incr n d) = votes_of k d + (if decide (n = k) then 1 else 0).
Proof.
  induction d as [|[k' c] d IH]; simpl.
  - destruct (decide (n = k)); lia.
  - destruct (decide (k' = n)) as [->|Hne]; simpl.
    + destruct (decide (n = k)); lia.
    + destruct (decide (k' = k)) as [->|]; [|done].
      rewrite decide_False by done. lia.
Qed.

Lemma count_of_cons k n noms :
  count_of k (n :: noms) = (if decide (n = k) then 1 else 0) + count_of k noms.
Proof.
  unfold count_of. rewrite filter_cons. by destruct (decide (n = k)).
Qed.

Lemma votes_of_tally k noms d :
  votes_of k (tally noms d) = votes_of k d + count_of k noms.
Proof.
  revert d. induction noms as [|n noms IH]; intros d; simpl.
  - unfold count_of. simpl. lia.
  - unfold tally in *. rewrite IH, votes_of_incr, count_of_cons. lia.
Qed.

Lemma vote_incr_keys n d :
  (vote_incr n d).*1 = if decide (n ∈ d.*1) then d.*1 else d.*1 ++ [n].
Proof.
  induction d as [|[k c] d IH]; [done|].
  cbn [vote_incr]. destruct (decide (k = n)) as [->|Hne].
  - rewrite !fmap_cons. cbn [fst]. rewrite decide_True; [done|]. by left.
  - rewrite !fmap_cons, IH. cbn [fst].
    destruct (decide (n ∈ d.*1)) as [Hin|Hnin].
    + rewrite decide_True; [done|]. by right.
    + rewrite decide_False; [done|].
      intros [?|?]%elem_of_cons; congruence.
Qed.

Lemma vote_incr_positive n d :
  Forall (fun x => 0 < snd x) d -> Forall (fun x => 0 < snd x) (vote_incr n d).
Proof.
  induction 1 as [|[k c] d Hc Hd IH]; simpl.
  - repeat constructor.
  - destruct (decide (k = n)); constructor; simpl in *; try done; lia.
Qed.

Lemma tally_positive noms d :
  Forall (fun x => 0 < snd x) d -> Forall (fun x => 0 < snd x) (tally noms d).
Proof.
  revert d. induction noms as [|n noms IH]; intros d Hd; [done|].
  apply IH. by apply vote_incr_positive.
Qed.

Lemma tally_NoDup noms d : NoDup d.*1 -> NoDup (tally noms d).*1.
Proof.
  revert d. induction noms as [|n noms IH]; intros d Hd; [done|].
  apply IH. rewrite vote_incr_keys. destruct (decide (n ∈ d.*1)); [done|].
  apply NoDup_app. split; [done|]. split.
  - intros x Hx ->%list_elem_of_singleton. done.
  - apply NoDup_singleton.
Qed.

Lemma votes_of_key k d :
  Forall (fun x => 0 < snd x) d -> (k ∈ d.*1 <-> 0 < votes_of k d).
Proof.
  induction 1 as [|[k' c] d Hc Hd IH]; simpl.
  - split; [by intros ?%elem_of_nil|lia].
  - destruct (decide (k' = k)) as [->|Hne].
    + split; [done|]. intros _. by left.
    + rewrite <- IH. split.
      * intros [?|?]%elem_of_cons; [congruence|done].
      * intros ?. by right.
Qed.

Lemma votes_of_elem k c d :
  NoDup d.*1 -> ((k, c) ∈ d <-> k ∈ d.*1 /\ c = votes_of k d).
Proof.
  induction d as [|[k' c'] d IH]; simpl; intros Hnd.
  - split; [by intros ?%elem_of_nil|by intros [?%elem_of_nil _]].
  - apply NoDup_cons in Hnd as [Hk' Hnd]. specialize (IH Hnd).
    destruct (decide (k' = k)) as [->|Hne].
    + split.
      * intros [[= ->]|Hin]%elem_of_cons; [split; [by left|done]|].
        destruct Hk'. apply list_elem_of_fmap. by exists (k, c).
      * intros [_ ->]. by left.
    + split.
      * intros [[= ? ?]|Hin]%elem_of_cons; [congruence|].
        apply IH in Hin as [? ?]. split; [by right|done].
      * intros [[?|Hin]%elem_of_cons ->]; [congruence|].
        right. by apply IH.
Qed.

Lemma StronglySorted_weaken {A} (R R' : A -> A -> Prop) l :
  (forall a b, a ∈ l -> b ∈ l -> R a b -> R' a b) ->
  StronglySorted R l -> StronglySorted R' l.
Proof.
  intros Himpl Hs. induction Hs as [|a l Hs IH Ha]; constructor.
  - apply IH. intros x y Hx Hy. apply Himpl; by right.
  - apply Forall_forall. intros b Hb. rewrite Forall_forall in Ha.
    apply Himpl; [by left|by right|by apply Ha].
Qed.

Lemma StronglySorted_lookup_lt {A} (R : A -> A -> Prop) l i j x y :
  StronglySorted R l -> i < j -> l !! i = Some x -> l !! j = Some y -> R x y.
Proof.
  intros Hs. revert i j. induction Hs as [|a l Hs IH Ha]; intros i j Hij Hi Hj.
  - done.
  - destruct j as [|j]; [lia|]. destruct i as [|i]; simpl in *.
    + injection Hi as ->. rewrite Forall_forall in Ha.
      apply Ha. by eapply list_elem_of_lookup_2.
    + apply (IH i j); [lia|done..].
Qed.

Lemma index_of_cons_ne a n noms :
  n <> a -> index_of a (n :: noms) = S (index_of a noms).
Proof. intros H. simpl. by rewrite decide_False. Qed.

(** The dict lists its keys in the order in which the names first occur. *)
Lemma tally_keys_order noms d :
  exists extra,
    (tally noms d).*1 = d.*1 ++ extra /\
    (forall a, a ∈ extra -> a ∉ d.*1) /\
    StronglySorted (fun a b => index_of a noms < index_of b noms) extra.
Proof.
  revert d. induction noms as [|n noms IH]; intros d.
  - exists []. rewrite app_nil_r. repeat split; [by intros ? ?%elem_of_nil|constructor].
  - destruct (IH (vote_incr n d)) as (extra & Hkeys & Hnew & Hsorted).
    rewrite vote_incr_keys in Hkeys, Hnew.
    destruct (decide (n ∈ d.*1)) as [Hin|Hnin].
    + exists extra. split; [done|]. split; [done|].
      eapply StronglySorted_weaken; [|exact Hsorted].
      intros a b Ha Hb Hab. simpl in Hab.
      rewrite (index_of_cons_ne a), (index_of_cons_ne b); [lia|..].
      * intros ->. by apply (Hnew b).
      * intros ->. by apply (Hnew a).
    + exists (n :: extra). split.
      { change (tally (n :: noms) d) with (tally noms (vote_incr n d)).
        by rewrite Hkeys, <- app_assoc. }
      split.
      * intros a [->|Ha]%elem_of_cons; [done|].
        intros Had. apply (Hnew a Ha). apply elem_of_app. by left.
      * assert (forall a, a ∈ extra -> n <> a) as Hne.
        { intros a Ha ->. apply (Hnew a Ha). apply elem_of_app. right. by left. }
        constructor.
        -- eapply StronglySorted_weaken; [|exact Hsorted].
           intros a b Ha Hb Hab. simpl in Hab.
           rewrite (index_of_cons_ne a), (index_of_cons_ne b) by auto. lia.
        -- apply Forall_forall. intros b Hb.
           rewrite (index_of_cons_ne b) by auto. simpl.
           rewrite decide_True by done. lia.
Qed.

Lemma tally_first_seen noms :
  StronglySorted (first_seen_before noms) (tally noms []).
Proof.
  destruct (tally_keys_order noms []) as (extra & Hkeys & _ & Hsorted).
  simpl in Hkeys. rewrite <- Hkeys in Hsorted. clear Hkeys.
  unfold first_seen_before.
  induction (tally noms []) as [|x l IH]; [constructor|].
  rewrite fmap_cons in Hsorted. apply StronglySorted_inv in Hsorted as [Hl Hx].
  constructor; [by apply IH|].
  rewrite Forall_fmap in Hx. exact Hx.
Qed.

Lemma insert_by_count_perm x l : insert_by_count x l ≡ₚ x :: l.
Proof.
  induction l as [|y l IH]; [done|]. simpl.
  destruct (snd x <? snd y); [|done].
  rewrite IH. apply Permutation_swap.
Qed.

Lemma sorted_by_count_desc_perm l : sorted_by_count_desc l ≡ₚ l.
Proof.
  induction l as [|x l IH]; [done|].
  unfold sorted_by_count_desc in *. simpl.
  by rewrite insert_by_count_perm, IH.
Qed.

Lemma insert_by_count_sorted noms x l :
  StronglySorted (listed_before noms) l ->
  Forall (first_seen_before noms x) l ->
  StronglySorted (listed_before noms) (insert_by_count x l).
Proof.
  intros Hs Hx. induction Hs as [|y l Hs IH Hy]; simpl.
  - repeat constructor.
  - apply Forall_cons in Hx as [Hxy Hxl].
    destruct (snd x <? snd y) eqn:Hlt.
    + apply Nat.ltb_lt in Hlt. constructor; [by apply IH|].
      rewrite insert_by_count_perm. constructor; [by left|done].
    + apply Nat.ltb_ge in Hlt. constructor; [by constructor|].
      constructor.
      * unfold listed_before. destruct (decide (snd y = snd x)); [right|left]; [done|lia].
      * rewrite Forall_forall in Hy, Hxl. apply Forall_forall. intros z Hz.
        specialize (Hy z Hz). specialize (Hxl z Hz).
        unfold listed_before in *.
        destruct (decide (snd z = snd x)); [right; split; [lia|done]|left; lia].
Qed.

(** Sorting by count, larger first, keeps names with equal counts in the
    order of the dict. *)
Lemma sorted_by_count_desc_sorted noms l :
  StronglySorted (first_seen_before noms) l ->
  StronglySorted (listed_before noms) (sorted_by_count_desc l).
Proof.
  induction 1 as [|x l Hs IH Hx]; [constructor|].
  unfold sorted_by_count_desc in *. simpl.
  apply insert_by_count_sorted; [done|].
  fold (sorted_by_count_desc l). by rewrite sorted_by_count_desc_perm.
Qed.

Lemma for_each_write {A} (f : A -> string) l w :
  fst (for_each (fun x => st_write (f x)) l w) = Ok tt /\
  screen (snd (for_each (fun x => st_write (f x)) l w))
  = screen w ++ ((fun x => UiWrite (f x)) <$> l).
Proof.
  revert w. induction l as [|x l IH]; intros w.
  - simpl. by rewrite app_nil_r.
  - destruct (IH (add_screen (UiWrite (f x)) w)) as [Hfst Hscr].
    change (for_each (fun x => st_write (f x)) (x :: l) w)
      with (for_each (fun x => st_write (f x)) l (add_screen (UiWrite (f x)) w)).
    split; [done|]. rewrite Hscr. simpl. by rewrite <- app_assoc.
Qed.

Lemma sorted_votes_tally responses q qid :
  q !! "question_id" = Some qid ->
  (forall r, r ∈ responses ->
     is_Some (r !! "question_id") /\ is_Some (r !! "name_of_person_in_response")) ->
  q_responses responses q
  = Val (filter (fun r : row => r !! "question_id" = Some qid) responses) /\
  vote_counts (filter (fun r : row => r !! "question_id" = Some qid) responses) []
  = Val (tally (votes_for responses qid) []).
Proof.
  intros Hq Hall. split.
  - apply q_responses_filter; [done|]. intros r Hr. by apply Hall.
  - apply vote_counts_tally. intros r [_ Hr]%list_elem_of_filter. by apply Hall.
Qed.

(** X1: for a question of the report (the dashboard runs
    [report_question] on each of the first six questions), the responses
    are filtered by equality of [question_id], the listed names are
    exactly the names that occur among them, once each with their number
    of occurrences, the counts never increase down the list, and of two
    names with equal counts the one that occurs first in the responses is
    listed first.  The lines are drawn in that order. *)
Theorem report_tallies_and_orders_votes
    (responses : list row) (q : row) (qid : pyval) :
  q !! "question_id" = Some qid ->
  (forall r, r ∈ responses ->
     is_Some (r !! "question_id") /\ is_Some (r !! "name_of_person_in_response")) ->
  exists votes,
    sorted_votes responses q = Val votes /\
    NoDup votes.*1 /\
    (forall name c,
       (name, c) ∈ votes <-> 0 < c /\ c = count_of name (votes_for responses qid)) /\
    (forall i j x y,
       i < j -> votes !! i = Some x -> votes !! j = Some y ->
       snd y <= snd x /\
       (snd x = snd y ->
        index_of (fst x) (votes_for responses qid)
        < index_of (fst y) (votes_for responses qid))) /\
    (forall text w,
       q !! "question" = Some text ->
       fst (report_question responses q w) = Ok tt /\
       screen (snd (report_question responses q w))
       = screen w ++
         UiSubheader ("Q" +:+ py_str qid +:+ ": " +:+ py_str text) ::
         match votes with
         | [] => [UiWrite "No responses for this question yet."]
         | _ => (fun x => UiWrite (vote_line x)) <$> votes
         end).
Proof.
  intros Hq Hall.
  destruct (sorted_votes_tally responses q qid Hq Hall) as [Hfilter Hcounts].
  set (noms := votes_for responses qid) in *.
  exists (sorted_by_count_desc (tally noms [])).
  assert (NoDup (tally noms []).*1) as Hnd by (apply tally_NoDup; constructor).
  assert (Forall (fun x => 0 < snd x) (tally noms [])) as Hpos
      by (apply tally_positive; constructor).
  split; [|split; [|split; [|split]]].
  - unfold sorted_votes. rewrite Hfilter. simpl. by rewrite Hcounts.
  - by rewrite sorted_by_count_desc_perm.
  - intros name c. rewrite sorted_by_count_desc_perm.
    rewrite votes_of_elem by done. rewrite votes_of_key by done.
    rewrite votes_of_tally. simpl. split; intros [? ?]; split; lia.
  - intros i j x y Hij Hi Hj.
    pose proof (sorted_by_count_desc_sorted noms _ (tally_first_seen noms)) as Hs.
    pose proof (StronglySorted_lookup_lt _ _ i j x y Hs Hij Hi Hj) as [Hlt|[Heq Hfirst]].
    + split; [lia|]. intros ?. lia.
    + split; [lia|]. by intros _.
  - intros text w Htext. unfold report_question, getitem.
    rewrite Hq, Htext, Hfilter. clear Hfilter.
    unfold bind, lift, st_subheader, modify. cbv beta iota.
    destruct (filter (fun r : row => r !! "question_id" = Some qid) responses)
      as [|r rs] eqn:Hqr.
    + assert (noms = []) as -> by (unfold noms, votes_for; by rewrite Hqr).
      simpl. by rewrite <- app_assoc.
    + cbv beta iota. rewrite Hcounts. cbv beta iota.
      destruct (for_each_write vote_line (sorted_by_count_desc (tally noms []))
                  (add_screen (UiSubheader ("Q" +:+ py_str qid +:+ ": " +:+ py_str text)) w))
        as [Hok Hscr].
      split; [done|]. rewrite Hscr. simpl. rewrite <- app_assoc. simpl.
      destruct (sorted_by_count_desc (tally noms [])) as [|v vs] eqn:Hvotes; [|done].
      exfalso.
      assert (tally noms [] = []) as Hnil.
      { pose proof (sorted_by_count_desc_perm (tally noms [])) as Hperm.
        rewrite Hvotes in Hperm. by apply Permutation_nil in Hperm. }
      destruct (Hall r) as [_ [n Hn]].
      { eapply list_elem_of_filter. rewrite Hqr. by left. }
      pose proof (votes_of_tally n noms []) as Hn'. rewrite Hnil in Hn'.
      unfold noms, votes_for in Hn'. rewrite Hqr in Hn'. simpl in Hn'.
      rewrite Hn in Hn'. rewrite count_of_cons, decide_True in Hn' by done. lia.
Qed.

Lemma report_tallies_and_orders_votes_witness :
  exists votes,
    sorted_votes sample_responses first_question = Val votes /\
    NoDup votes.*1 /\
    (forall name c,
       (name, c) ∈ votes <->
       0 < c /\ c = count_of name (votes_for sample_responses (PInt 1))).
Proof.
  destruct (report_tallies_and_orders_votes sample_responses first_question (PInt 1))
    as (votes & Hrun & Hnd & Htally & _).
  - reflexivity.
  - intros r Hr. unfold sample_responses, records in Hr.
    cbn [fmap list_fmap] in Hr.
    repeat (apply elem_of_cons in Hr as [->|Hr]);
      [by (vm_compute; split; eexists)..|by apply elem_of_nil in Hr].
  - exists votes. split; [exact Hrun|]. split; [exact Hnd|exact Htally].
Defined.

(** The tie of Alice and Bob is listed in the order of their first votes. *)
Example sample_report :
  sorted_votes sample_responses first_question
  = Val [(PStr "Bob", 3); (PStr "Alice", 3); (PStr "Carol", 1)].
Proof. reflexivity. Qed.

(** ** The questions page *)

Lemma bind_bind {A B C} (m : M A) (k : A -> M B) (k' : B -> M C) w :
  bind (bind m k) k' w = bind m (fun a => bind (k a) k') w.
Proof. unfold bind. by destruct (m w) as [[a|e|c] w1]. Qed.

Lemma bind_ext {A B} (m : M A) (k k' : A -> M B) w :
  (forall a w1, k a w1 = k' a w1) -> bind m k w = bind m k' w.
Proof. intros H. unfold bind. destruct (m w) as [[a|e|c] w1]; auto. Qed.

Lemma questions_page_split inp w :
  questions_page inp w =
  (let* r := questions_render inp in
   match r with
   | Some (ue, un, qs, _) => questions_actions inp ue un qs
   | None => ret tt
   end) w.
Proof.
  unfold questions_page, questions_render.
  rewrite bind_bind. apply bind_ext. clear w. intros w0 w.
  destruct (truthy (default PNone (user_email (session w0)))); simpl.
  - rewrite bind_bind. apply bind_ext. clear w. intros qs w.
    rewrite bind_bind. apply bind_ext. clear w. intros es w.
    destruct qs as [|q qs]; [by rewrite bind_bind|].
    rewrite bind_bind. apply bind_ext. clear w. intros ns w.
    rewrite bind_bind. apply bind_ext. clear w. intros names w.
    destruct names as [|n names]; [by rewrite bind_bind|].
    rewrite bind_bind. apply bind_ext. clear w. intros _ w.
    rewrite bind_bind. apply bind_ext. clear w. intros w1 w.
    rewrite bind_bind. apply bind_ext. clear w. intros _ w.
    rewrite bind_bind. apply bind_ext. clear w. intros _ w.
    reflexivity.
  - rewrite bind_bind. apply bind_ext. clear w. intros _ w.
    rewrite bind_bind. apply bind_ext. clear w. intros go w.
    destruct go; [by rewrite bind_bind|done].
Qed.

Lemma drawn_drawn l1 l2 s1 s2 w :
  drawn l2 s2 (drawn l1 s1 w) = drawn (l1 ++ l2) s2 w.
Proof. unfold drawn. simpl. by rewrite app_assoc. Qed.

Lemma drawn_nil w sel :
  selections (session w) = Some sel -> drawn [] sel w = w.
Proof.
  destruct w as [? ? ? ? ? ? ? [? ? ? ? ?] ? ?]. simpl. intros ->.
  unfold drawn. simpl. by rewrite app_nil_r.
Qed.

(** One pass of the loop. *)
Lemma question_loop_cons inp names total i seen q qs w sel :
  selections (session w) = Some sel ->
  question_loop inp names total i seen (q :: qs) w =
  match q !! "question_id" with
  | None => (Raise KeyError, w)
  | Some v =>
      let k := py_str v in
      let w1 :=
        add_screen (UiWrite (py_str (get_default q "question" PNone)))
          (add_screen
             (UiSubheader ("Question " +:+ pretty i +:+ " of " +:+ pretty total)) w) in
      if bool_decide ("sel_" +:+ k ∈ seen) then (Raise DuplicateWidgetID, w1)
      else
        question_loop inp names total (S i) (("sel_" +:+ k) :: seen) qs
          (drawn
             [ UiSubheader ("Question " +:+ pretty i +:+ " of " +:+ pretty total);
               UiWrite (py_str (get_default q "question" PNone));
               UiSelectbox ("sel_" +:+ k) (placeholder :: names)
                           (current_index names (get_default sel k PNone)) ]
             (<[k := answer inp names sel k]> sel) w)
  end.
Proof.
  intros Hsel. cbn [question_loop]. unfold getitem.
  destruct (q !! "question_id") as [v|]; [|done].
  unfold bind at 1. cbn [lift].
  unfold bind at 1. unfold st_subheader at 1, modify at 1.
  unfold bind at 1. unfold st_write at 1, modify at 1.
  unfold bind at 1. unfold the_selections at 1. unfold bind at 1.
  unfold get_world at 1. cbn [session add_screen selections]. rewrite Hsel.
  unfold ret at 1. cbv zeta.
  destruct (bool_decide ("sel_" +:+ py_str v ∈ seen)); [done|].
  unfold bind at 1. unfold st_selectbox at 1. unfold bind at 1, modify at 1, ret at 1.
  unfold bind at 1. unfold the_selections at 1. unfold bind at 1.
  unfold get_world at 1. cbn [session add_screen selections]. rewrite Hsel.
  unfold ret at 1.
  unfold bind at 1. unfold answer.
  destruct (decide (selectbox_value inp (placeholder :: names)
                      (current_index names (get_default sel (py_str v) PNone))
                      ("sel_" +:+ py_str v) = placeholder));
    unfold modify at 1; f_equal; unfold drawn, set_session; simpl;
    by rewrite <- !app_assoc.
Qed.

Lemma sel_key_inj a b : "sel_" +:+ a = "sel_" +:+ b -> a = b.
Proof. intros H. by simplify_eq/=. Qed.

Lemma question_key_Some (q : row) v :
  q !! "question_id" = Some v -> question_key q = py_str v.
Proof. intros H. unfold question_key, question_id_of, get_default. by rewrite H. Qed.

(** A loop that comes back has met a [question_id] in every question and
    no widget key twice; it leaves the selections [answer_all] and has
    drawn [loop_screen]. *)
Lemma question_loop_Ok inp names total qs :
  forall i seen w w' sel,
    selections (session w) = Some sel ->
    question_loop inp names total i seen qs w = (Ok tt, w') ->
    Forall (fun q : row => is_Some (q !! "question_id")) qs /\
    NoDup (question_key <$> qs) /\
    (forall q, q ∈ qs -> "sel_" +:+ question_key q ∉ seen) /\
    w' = drawn (loop_screen inp names total i sel qs)
               (answer_all inp names sel (question_key <$> qs)) w.
Proof.
  induction qs as [|q qs IH]; intros i seen w w' sel Hsel Hrun.
  - injection Hrun as <-. repeat split; [constructor..| |].
    + by intros q ?%elem_of_nil.
    + simpl. by rewrite drawn_nil.
  - rewrite (question_loop_cons _ _ _ _ _ _ _ _ sel Hsel) in Hrun.
    destruct (q !! "question_id") as [v|] eqn:Hv; [|done].
    cbv zeta in Hrun.
    destruct (bool_decide ("sel_" +:+ py_str v ∈ seen)) eqn:Hseen; [done|].
    apply bool_decide_eq_false in Hseen.
    apply IH with (sel := <[py_str v := answer inp names sel (py_str v)]> sel)
      in Hrun as (Hall & Hnd & Hfresh & ->); [|done].
    repeat split.
    + constructor; [by eexists|done].
    + rewrite fmap_cons, (question_key_Some q v Hv). apply NoDup_cons. split; [|done].
      intros (q' & Hk & Hq')%list_elem_of_fmap.
      apply (Hfresh q' Hq'). rewrite <- Hk. by left.
    + intros q' [->|Hq']%elem_of_cons.
      * by rewrite (question_key_Some q v Hv).
      * intros Hin. apply (Hfresh q' Hq'). by right.
    + rewrite drawn_drawn. simpl. by rewrite (question_key_Some q v Hv).
Qed.

(** What the loop stores is [None] or one of the eligible names. *)
Lemma selectbox_value_in inp options index key :
  index < length options -> selectbox_value inp options index key ∈ options.
Proof.
  intros Hlt. unfold selectbox_value.
  assert (nth index options PNone ∈ options) as Hnth.
  { apply list_elem_of_In, nth_In. lia. }
  destruct (chosen inp !! key) as [i|]; [|done].
  destruct (options !! i) as [v|] eqn:Hi; [|done].
  by eapply list_elem_of_lookup_2.
Qed.

Lemma index_of_lt v names : v ∈ names -> index_of v names < length names.
Proof.
  induction names as [|n names IH]; [by intros ?%elem_of_nil|].
  intros Hin. simpl. destruct (decide (n = v)); [lia|].
  apply elem_of_cons in Hin as [->|Hin]; [done|]. specialize (IH Hin). lia.
Qed.

Lemma current_index_le names cur : current_index names cur <= length names.
Proof.
  unfold current_index. destruct (truthy cur); simpl; [|lia].
  destruct (bool_decide (cur ∈ names)) eqn:Hin; [|lia].
  apply bool_decide_eq_true in Hin. apply index_of_lt in Hin. lia.
Qed.

Lemma answer_eligible inp names sel k :
  answer inp names sel k = PNone \/ answer inp names sel k ∈ names.
Proof.
  unfold answer.
  set (choice := selectbox_value _ _ _ _).
  destruct (decide (choice = placeholder)) as [|Hne]; [by left|].
  right.
  assert (choice ∈ placeholder :: names) as Hin.
  { apply selectbox_value_in. simpl. pose proof (current_index_le names
      (get_default sel k PNone)). lia. }
  by apply elem_of_cons in Hin as [?|?].
Qed.

Lemma answer_all_lookup_ne inp names ks : forall sel k,
  k ∉ ks -> answer_all inp names sel ks !! k = sel !! k.
Proof.
  induction ks as [|k0 ks IH]; intros sel k Hk; [done|].
  simpl. rewrite IH; [|by intros ?; apply Hk; right].
  apply lookup_insert_ne. intros ->. apply Hk. by left.
Qed.

Lemma answer_all_lookup inp names ks : forall sel k,
  k ∈ ks ->
  exists x, answer_all inp names sel ks !! k = Some x /\ (x = PNone \/ x ∈ names).
Proof.
  induction ks as [|k0 ks IH]; intros sel k Hk; [by apply elem_of_nil in Hk|].
  simpl. destruct (decide (k ∈ ks)) as [Hin|Hnin]; [by apply IH|].
  apply elem_of_cons in Hk as [->|?]; [|done].
  rewrite answer_all_lookup_ne by done. rewrite lookup_insert_eq.
  eexists. split; [done|]. apply answer_eligible.
Qed.

Lemma answer_all_dom inp names ks : forall sel,
  dom (answer_all inp names sel ks) = dom sel ∪ list_to_set ks.
Proof.
  induction ks as [|k0 ks IH]; intros sel; simpl.
  - set_solver.
  - rewrite IH, dom_insert_L. set_solver.
Qed.

Lemma bind_Ok_inv {A B} (m : M A) (k : A -> M B) w b w' :
  bind m k w = (Ok b, w') ->
  exists a w1, m w = (Ok a, w1) /\ k a w1 = (Ok b, w').
Proof.
  intros H. apply bind_inv in H as [H|[(?&?&_&[=])|(?&?&_&[=])]]. exact H.
Qed.

Lemma lift_Ok_inv {A} (o : result A) w a w' :
  lift o w = (Ok a, w') -> o = Val a /\ w' = w.
Proof. destruct o; simpl; intros [= ]; by subst. Qed.

Lemma init_selections_Val qs sel0 :
  init_selections qs = Val sel0 ->
  dom sel0 = list_to_set (question_key <$> qs) /\
  forall k v, sel0 !! k = Some v -> v = PNone.
Proof.
  revert sel0. induction qs as [|q qs IH]; intros sel0; simpl.
  - intros [= <-]. split; [set_solver|]. intros k v. by rewrite lookup_empty.
  - unfold getitem. destruct (q !! "question_id") as [v|] eqn:Hv; [|done].
    simpl. destruct (init_selections qs) as [m|]; [|done]. simpl.
    intros [= <-]. destruct (IH m eq_refl) as [Hdom Hnone].
    rewrite (question_key_Some q v Hv). split.
    + rewrite dom_insert_L, Hdom. set_solver.
    + intros k x. destruct (decide (py_str v = k)) as [<-|Hne].
      * rewrite lookup_insert_eq. congruence.
      * rewrite lookup_insert_ne by done. apply Hnone.
Qed.

(** What a render that reaches the buttons has done: it has fetched the
    questions and the employees, kept the first six questions, computed
    the eligible names, and run the loop over the questions. *)
Lemma questions_render_Some inp w ue un qs names w1 :
  questions_render inp w = (Ok (Some (ue, un, qs, names)), w1) ->
  exists allqs es ns wq we sel0,
    ue = default PNone (user_email (session w)) /\
    un = default PNone (user_name (session w)) /\
    truthy ue = true /\
    fetch_questions w = (Ok allqs, wq) /\
    fetch_employees wq = (Ok es, we) /\
    session we = session w /\
    allqs <> [] /\ qs = take 6 allqs /\
    other_names es ue = Val ns /\ sorted_set ns = Val names /\ names <> [] /\
    Forall (fun q : row => is_Some (q !! "question_id")) qs /\
    NoDup (question_key <$> qs) /\
    (selections (session w) = Some sel0 \/
     selections (session w) = None /\ init_selections qs = Val sel0) /\
    w1 = drawn
           (UiInfo ("👤 Logged in as: **" +:+ py_str un +:+ "** (" +:+
                    py_str ue +:+ ")")
            :: loop_screen inp names (length qs) 1 sel0 qs)
           (answer_all inp names sel0 (question_key <$> qs)) we.
Proof.
  intros Hrun. unfold questions_render in Hrun.
  apply bind_Ok_inv in Hrun as (w0 & w0' & [= <- <-] & Hrun).
  destruct (truthy (default PNone (user_email (session w)))) eqn:Htruthy;
    simpl in Hrun.
  2:{ apply bind_Ok_inv in Hrun as (? & wa & _ & Hrun).
      apply bind_Ok_inv in Hrun as (go & wb & _ & Hrun).
      by destruct go. }
  apply bind_Ok_inv in Hrun as (allqs & wq & Hfq & Hrun).
  apply bind_Ok_inv in Hrun as (es & we & Hfe & Hrun).
  assert (session we = session w) as Hsession.
  { pose proof (keeps_fetch_questions _ _ (frame_session_view id true) w) as H1.
    pose proof (keeps_fetch_employees _ _ (frame_session_view id true) wq) as H2.
    rewrite Hfq in H1. rewrite Hfe in H2. simpl in *. congruence. }
  destruct allqs as [|q0 allqs0] eqn:Hallqs; [done|].
  rewrite <- Hallqs in *.
  apply bind_Ok_inv in Hrun as (ns & ? & [Hns ->]%lift_Ok_inv & Hrun).
  apply bind_Ok_inv in Hrun as (names' & ? & [Hnames ->]%lift_Ok_inv & Hrun).
  destruct names' as [|n names0] eqn:Hnames'; [done|].
  rewrite <- Hnames' in *.
  apply bind_Ok_inv in Hrun as ([] & wi & [= <-] & Hrun).
  apply bind_Ok_inv in Hrun as (? & ? & [= <- <-] & Hrun).
  apply bind_Ok_inv in Hrun as ([] & wl & Hinit & Hrun).
  apply bind_Ok_inv in Hrun as ([] & wm & Hloop & [= <- <- <- <- <-]).
  cbn [session add_screen] in Hinit.
  assert (exists sel0,
             (selections (session w) = Some sel0 \/
              selections (session w) = None /\
              init_selections (take 6 allqs) = Val sel0) /\
             wl = drawn [UiInfo ("👤 Logged in as: **" +:+
                                 py_str (default PNone (user_name (session w))) +:+
                                 "** (" +:+
                                 py_str (default PNone (user_email (session w))) +:+
                                 ")")] sel0 we) as (sel0 & Hsel0 & ->).
  { rewrite Hsession in Hinit.
    destruct (selections (session w)) as [sel0|] eqn:Hsel.
    - exists sel0. split; [by left|]. injection Hinit as <-.
      unfold drawn, st_info, modify, add_screen. simpl. f_equal.
      rewrite Hsession. destruct (session w); simpl in *. by subst.
    - apply bind_Ok_inv in Hinit as (sel0 & ? & [Hi ->]%lift_Ok_inv & [= <-]).
      exists sel0. split; [by right|]. done. }
  apply question_loop_Ok with (sel := sel0) in Hloop as (Hall & Hnd & _ & ->);
    [|done].
  exists allqs, es, ns, wq, we, sel0.
  rewrite drawn_drawn. repeat split; try done; congruence.
Qed.

(** ** The nominee list *)

Lemma py_lt_trichotomy x y :
  py_lt y x = Val false -> x <> y -> py_lt x y = Val true.
Proof.
  destruct x as [|s|a], y as [|t|b]; simpl; try done.
  - intros [= Hlt] Hne. f_equal. unfold String.ltb in *.
    rewrite String.compare_antisym.
    destruct (String.compare t s) eqn:Hc; try done.
    apply String.compare_eq_iff in Hc. congruence.
  - intros [= Hlt] Hne. f_equal.
    apply Z.ltb_ge in Hlt. apply Z.ltb_lt.
    assert (a <> b) by congruence. lia.
Qed.

Lemma insert_sorted_head x l r :
  insert_sorted x l = Val r ->
  exists t, r = x :: t \/ exists h l', l = h :: l' /\ r = h :: t.
Proof.
  destruct l as [|y l]; simpl.
  - intros [= <-]. exists []. by left.
  - destruct (py_lt y x) as [[]|]; simpl; [|intros [= <-]; eauto|done].
    destruct (insert_sorted x l) as [r'|]; simpl; [|done].
    intros [= <-]. exists r'. right. eauto.
Qed.

Lemma insert_sorted_Val x l r :
  Sorted name_lt l -> x ∉ l -> insert_sorted x l = Val r ->
  Sorted name_lt r /\ r ≡ₚ x :: l.
Proof.
  revert r. induction l as [|y l IH]; intros r Hs Hx; simpl.
  - intros [= <-]. split; [|done]. repeat constructor.
  - destruct (py_lt y x) as [[]|] eqn:Hlt; simpl; [| |done].
    + destruct (insert_sorted x l) as [r'|] eqn:Hins; simpl; [|done].
      intros [= <-]. apply Sorted_inv in Hs as [Hs Hhd].
      destruct (IH r' Hs) as [Hs' Hp]; [by intros ?; apply Hx; right|done|].
      split.
      * constructor; [done|].
        destruct (insert_sorted_head x l r' Hins) as (t & [->|(h & l' & -> & ->)]).
        -- by constructor.
        -- constructor. by apply HdRel_inv in Hhd.
      * rewrite Hp. apply Permutation_swap.
    + intros [= <-]. split; [|done]. constructor; [done|]. constructor.
      apply py_lt_trichotomy; [done|]. intros ->. apply Hx. by left.
Qed.

Lemma py_sorted_Val l r :
  NoDup l -> py_sorted l = Val r -> Sorted name_lt r /\ r ≡ₚ l.
Proof.
  revert r. induction l as [|x l IH]; intros r Hnd; simpl.
  - intros [= <-]. split; [constructor|done].
  - apply NoDup_cons in Hnd as [Hx Hnd].
    destruct (py_sorted l) as [s|] eqn:Hs; simpl; [|done].
    destruct (IH s Hnd eq_refl) as [Hsorted Hperm].
    intros Hins. apply insert_sorted_Val in Hins as [? Hp]; [|done|by rewrite Hperm].
    split; [done|]. by rewrite Hp, Hperm.
Qed.

Lemma sorted_set_Val ns names :
  sorted_set ns = Val names ->
  NoDup names /\ Sorted name_lt names /\ forall n, n ∈ names <-> n ∈ ns.
Proof.
  intros H. unfold sorted_set in H.
  apply py_sorted_Val in H as [Hs Hp]; [|apply NoDup_remove_dups].
  split; [rewrite Hp; apply NoDup_remove_dups|]. split; [done|].
  intros n. by rewrite Hp, elem_of_remove_dups.
Qed.

Lemma strip_lower_Val v u : strip_lower v = Val u -> exists s, v = PStr s /\ u = normalize s.
Proof. destruct v; simpl; try done. intros [= <-]. eauto. Qed.

Lemma other_names_Val es ue ns :
  other_names es ue = Val ns ->
  (es = [] /\ ns = []) \/
  exists s, ue = PStr s /\
    forall n, n ∈ ns <-> exists e, e ∈ es /\ e !! "name" = Some n /\ differs_from e s.
Proof.
  revert ns. induction es as [|e es IH]; intros ns; simpl.
  - intros [= <-]. by left.
  - unfold email_key. destruct (py_strip (get_default e "email" (PStr ""))) as [k|] eqn:Hk;
      [|done]. simpl.
    destruct (strip_lower ue) as [u|] eqn:Hu; [|done]. simpl.
    apply strip_lower_Val in Hu as (s & -> & ->).
    assert (exists mail, get_default e "email" (PStr "") = PStr mail /\ k = PyStr.strip mail)
      as (mail & Hmail & ->).
    { destruct (get_default e "email" (PStr "")); simpl in Hk; try done.
      injection Hk as <-. eauto. }
    intros Hrun. right. exists s. split; [done|].
    assert (forall ns', other_names es (PStr s) = Val ns' ->
              forall n, n ∈ ns' <->
                exists e', e' ∈ es /\ e' !! "name" = Some n /\ differs_from e' s) as Hrest.
    { intros ns' Hns'. destruct (IH ns' Hns') as [[-> ->]|(s' & [= <-] & H)]; [|done].
      intros n. split; [by intros ?%elem_of_nil|]. by intros (? & ?%elem_of_nil & _). }
    destruct (String.eqb (PyStr.lower (PyStr.strip mail)) (normalize s)) eqn:Heq;
      simpl in Hrun.
    + apply String.eqb_eq in Heq. intros n. rewrite (Hrest ns Hrun n). split.
      * intros (e' & He' & Hn & Hd). exists e'. split; [by right|done].
      * intros (e' & [->|He']%elem_of_cons & Hn & Hd); [|by exists e'].
        destruct Hd as (mail' & Hmail' & Hne). rewrite Hmail in Hmail'.
        injection Hmail' as <-. by destruct Hne.
    + apply String.eqb_neq in Heq. unfold getitem in Hrun.
      destruct (e !! "name") as [name|] eqn:Hname; [|done]. simpl in Hrun.
      destruct (other_names es (PStr s)) as [rest|] eqn:Hrest'; [|done].
      simpl in Hrun. injection Hrun as <-.
      intros n. rewrite elem_of_cons, (Hrest rest eq_refl n). split.
      * intros [->|(e' & He' & Hn & Hd)].
        -- exists e. split; [by left|]. split; [done|]. by exists mail.
        -- exists e'. split; [by right|done].
      * intros (e' & [->|He']%elem_of_cons & Hn & Hd).
        -- left. congruence.
        -- right. by exists e'.
Qed.

Lemma loop_screen_written inp names total qs : forall i sel,
  written (loop_screen inp names total i sel qs)
  = (fun q : row => py_str (get_default q "question" PNone)) <$> qs.
Proof.
  induction qs as [|q qs IH]; intros i sel; [done|].
  simpl. unfold written in *. simpl. by rewrite IH.
Qed.

Lemma loop_screen_options inp names total qs : forall i sel,
  selectbox_options (loop_screen inp names total i sel qs)
  = replicate (length qs) (placeholder :: names).
Proof.
  induction qs as [|q qs IH]; intros i sel; [done|].
  simpl. unfold selectbox_options in *. simpl. by rewrite IH.
Qed.



(** Janet Roe's row has an email that differs from Jane's
    case-insensitively (it has blanks around it); a list built by
    comparing case-insensitively only would hold her name.  The page
    leaves her out, because it strips the emails before comparing them. *)
Example stripped_email_is_excluded :
  let w := sample_world padded_roster_sheets [] jane_session in
  rendered_names (fst (questions_render (Input "" None ∅) w))
  = [PStr "John Smith"] /\
  match fst (fetch_employees (snd (fetch_questions w))) with
  | Ok es => nominees_as_claimed es jane_email
  | _ => Err APIError
  end = Val [PStr "Janet Roe"; PStr "John Smith"].
Proof. vm_compute. split; reflexivity. Qed.

(** ** Remaining questions and the submit button *)

Lemma all_selected_count sel :
  all_selected sel = (unanswered_count sel =? 0).
Proof.
  unfold all_selected, unanswered_count.
  induction ((map_to_list sel).*2) as [|v l IH]; [done|].
  simpl. rewrite filter_cons.
  destruct (decide (v = PNone)) as [->|Hne].
  - by rewrite bool_decide_true.
  - rewrite bool_decide_false by done. simpl. exact IH.
Qed.

Lemma count_none_omap (sel : gmap string pyval) ks :
  length (filter (fun v => v = PNone) (omap (fun k => sel !! k) ks))
  = length (filter (fun k => sel !! k = Some PNone) ks).
Proof.
  induction ks as [|k ks IH]; [done|].
  rewrite (filter_cons _ k).
  change (omap (fun k => sel !! k) (k :: ks))
    with (match sel !! k with
          | Some v => v :: omap (fun k => sel !! k) ks
          | None => omap (fun k => sel !! k) ks
          end).
  destruct (sel !! k) as [v|] eqn:Hk.
  - rewrite filter_cons. destruct (decide (v = PNone)) as [->|Hne].
    + rewrite decide_True by done. simpl. by rewrite IH.
    + rewrite decide_False by congruence. exact IH.
  - rewrite decide_False by done. exact IH.
Qed.

Lemma map_values_by_keys (sel : gmap string pyval) ks :
  NoDup ks -> dom sel = list_to_set ks ->
  (map_to_list sel).*2 ≡ₚ omap (fun k => sel !! k) ks.
Proof.
  intros Hnd Hdom.
  assert (map_to_list sel ≡ₚ omap (fun k => (fun v => (k, v)) <$> sel !! k) ks) as Hp.
  { apply NoDup_Permutation.
    - apply NoDup_map_to_list.
    - clear Hdom. induction Hnd as [|k ks Hk Hnd IH]; [constructor|].
      simpl. destruct (sel !! k) as [v|]; simpl; [|done].
      constructor; [|done].
      intros (k' & Hk' & Hin)%list_elem_of_omap.
      destruct (sel !! k') as [v'|]; simplify_eq/=. done.
    - intros [k v]. rewrite elem_of_map_to_list, list_elem_of_omap. split.
      + intros Hkv. exists k. rewrite Hkv. split; [|done].
        assert (k ∈ dom sel) as Hd by (apply elem_of_dom; eauto).
        rewrite Hdom in Hd. by apply elem_of_list_to_set in Hd.
      + intros (k' & _ & Hkv). destruct (sel !! k') as [v'|] eqn:E; by simplify_eq/=. }
  rewrite Hp. clear Hp Hnd Hdom.
  induction ks as [|k ks IH]; [done|].
  simpl. destruct (sel !! k) as [v|]; simpl; [by rewrite IH|done].
Qed.

(** With one entry per question, the count of [None] values is the number
    of questions without a selection. *)
Lemma unanswered_count_questions (sel : gmap string pyval) (qs : list row) :
  NoDup (question_key <$> qs) ->
  dom sel = list_to_set (question_key <$> qs) ->
  unanswered_count sel
  = length (filter (fun q => sel !! question_key q = Some PNone) qs).
Proof.
  intros Hnd Hdom. unfold unanswered_count.
  rewrite (map_values_by_keys sel _ Hnd Hdom), count_none_omap.
  clear Hnd Hdom. induction qs as [|q qs IH]; [done|].
  rewrite fmap_cons, !filter_cons.
  destruct (decide (sel !! question_key q = Some PNone)); simpl; by rewrite IH.
Qed.

Lemma questions_actions_run inp ue un qs w sel :
  selections (session w) = Some sel ->
  questions_actions inp ue un qs w =
  let n := unanswered_count sel in
  let w2 := add_screen (UiButton back_label false)
              (if n =? 0 then w else add_screen (UiWarning (remaining_warning n)) w) in
  if bool_decide (clicked inp = Some back_label) then
    (Halt RerunException,
     set_session (set_page "login") (set_session (set_selections None) w2))
  else
    let w3 := add_screen (UiButton submit_label (negb (n =? 0))) w2 in
    if bool_decide (clicked inp = Some submit_label) && (n =? 0)
    then submit_survey ue un qs w3 else (Ok tt, w3).
Proof.
  intros Hsel. unfold questions_actions.
  erewrite bind_Ok by by apply the_selections_Some.
  rewrite all_selected_count. cbv zeta.
  destruct (unanswered_count sel =? 0) eqn:Hn; simpl.
  - unfold bind at 1. simpl. unfold bind at 1. unfold st_button at 1.
    unfold bind at 1. simpl.
    destruct (bool_decide (clicked inp = Some back_label)); [done|].
    unfold bind at 1. unfold st_button at 1. unfold bind at 1. simpl.
    by destruct (bool_decide (clicked inp = Some submit_label)).
  - unfold bind at 1. simpl. unfold bind at 1. unfold st_button at 1.
    unfold bind at 1. simpl.
    destruct (bool_decide (clicked inp = Some back_label)); [done|].
    unfold bind at 1. unfold st_button at 1. unfold bind at 1. simpl.
    by rewrite andb_false_r.
Qed.



(** Five of six questions answered: the warning counts one question, and
    the submit button is drawn disabled. *)
Example five_of_six_answered :
  drop 19 (screen (snd (questions_page five_answers_input
                          (sample_world seeded_sheets [] jane_session))))
  = [ UiWarning "⚠️ Please answer all questions to continue. 1 question(s) remaining.";
      UiButton back_label false;
      UiButton submit_label true ].
Proof. vm_compute. reflexivity. Qed.

(** ** Saving responses *)

Lemma try_except_Ok_inv {A} (m : M A) h w a w' :
  try_except m h w = (Ok a, w') ->
  m w = (Ok a, w') \/ exists e w1, m w = (Raise e, w1) /\ h e w1 = (Ok a, w').
Proof.
  unfold try_except. destruct (m w) as [[x|e|c] w1]; intros H; eauto.
Qed.

Lemma worksheet_Ok name w ws w' :
  worksheet_ name w = (Ok ws, w') ->
  ws = name /\ sheets w' = sheets w /\ is_Some (sheets w !! name).
Proof.
  intros H. unfold worksheet_ in H.
  apply bind_Ok_inv in H as ([] & w1 & Hcall & H).
  pose proof (api_call_sheets (Worksheet name) w) as Hs. rewrite Hcall in Hs.
  simpl in Hs. unfold bind in H. simpl in H.
  destruct (sheets w1 !! name) as [g|] eqn:Hg; [|done].
  injection H as <- <-. rewrite <- Hs. eauto.
Qed.

(** [get_sheet] returns a handle only for a worksheet that exists, and
    changes no sheet. *)
Lemma get_sheet_Ok name w ws w' :
  get_sheet name w = (Ok ws, w') ->
  ws = name /\ sheets w' = sheets w /\ is_Some (sheets w !! name).
Proof.
  intros H.
  pose proof (keeps_get_sheet _ _ frame_sheets_view name w) as Hkeep.
  rewrite H in Hkeep. simpl in Hkeep.
  unfold get_sheet in H.
  apply bind_Ok_inv in H as (c & w1 & Hcfg & H).
  apply bind_Ok_inv in H as ([] & w2 & Hcl & H).
  destruct (String.eqb (fst c) ""); [by apply bind_Ok_inv in H as (?&?&_&?)|].
  apply bind_Ok_inv in H as (w0 & w3 & [= <- <-] & H).
  destruct (sheet_id (cfg w2)) as [sid|]; [|by apply bind_Ok_inv in H as (?&?&_&?)].
  assert (sheets w2 = sheets w) as Hw2.
  { pose proof (keeps_get_config _ _ frame_sheets_view w) as H1.
    pose proof (keeps_get_gspread_client _ _ frame_sheets_view w1) as H2.
    rewrite Hcfg in H1. rewrite Hcl in H2. simpl in *. congruence. }
  apply try_except_Ok_inv in H as [H|(e & w4 & _ & H)].
  - apply bind_Ok_inv in H as ([] & w4 & Hopen & H).
    apply worksheet_Ok in H as (-> & Hs & Hsome).
    pose proof (keeps_open_by_key _ _ frame_sheets_view (Some sid) w2) as Ho.
    rewrite Hopen in Ho. simpl in Ho.
    split; [done|]. split; [done|]. by rewrite <- Hw2, <- Ho.
  - apply bind_Ok_inv in H as (cls & w5 & _ & H).
    destruct (decide (e = cls)); by apply bind_Ok_inv in H as (?&?&_&?).
Qed.

Lemma write_grid_Ok ws f w w' :
  write_grid ws f w = (Ok tt, w') ->
  exists g, sheets w !! ws = Some g /\ w' = set_sheets (insert ws (f g)) w.
Proof.
  unfold write_grid, bind. simpl.
  destruct (sheets w !! ws) as [g|]; [|done].
  intros [= <-]. eauto.
Qed.

Lemma append_responses_true rs w w1 :
  append_responses rs w = (Ok true, w1) ->
  exists old,
    sheets w !! "employee_responses" = Some old /\
    sheets w1 = <["employee_responses" := old ++ (response_row <$> rs)]> (sheets w) /\
    employees_cache w1 = None /\ questions_cache w1 = None.
Proof.
  intros H. unfold append_responses in H.
  apply try_except_Ok_inv in H as [H|(e & w2 & _ & H)].
  2:{ by apply bind_Ok_inv in H as (? & ? & _ & [= ]). }
  apply bind_Ok_inv in H as (ws & w2 & Hsheet & H).
  apply get_sheet_Ok in Hsheet as (-> & Hs2 & _).
  apply bind_Ok_inv in H as ([] & w3 & Happ & H).
  apply bind_Ok_inv in H as ([] & w4 & [= <-] & [= <-]).
  unfold append_rows in Happ.
  apply bind_Ok_inv in Happ as ([] & w5 & Hcall & Hwrite).
  pose proof (api_call_sheets
                (AppendRows "employee_responses" (response_row <$> rs)) w2) as Hs5.
  rewrite Hcall in Hs5. simpl in Hs5.
  apply write_grid_Ok in Hwrite as (g & Hg & ->).
  exists g. rewrite <- Hs2, <- Hs5. by repeat split.
Qed.

(** X4: [append_responses] is all or nothing.  When it returns [True] the
    rows of the responses, cells in the order email, name, question_id,
    nominee, stand below the rows the responses worksheet had, every other
    worksheet is as before and both data caches are empty; when it returns
    [False] no worksheet has changed. *)
Theorem append_responses_all_or_nothing (rs : list response) (w w1 : world) (b : bool) :
  append_responses rs w = (Ok b, w1) ->
  if b then
    exists old,
      sheets w !! "employee_responses" = Some old /\
      sheets w1 !! "employee_responses" = Some (old ++ (response_row <$> rs)) /\
      (forall name, name <> "employee_responses" ->
                    sheets w1 !! name = sheets w !! name) /\
      employees_cache w1 = None /\ questions_cache w1 = None
  else sheets w1 = sheets w.
Proof.
  destruct b; intros H.
  - apply append_responses_true in H as (old & Hold & -> & ? & ?).
    exists old. split; [done|]. split; [by rewrite lookup_insert_eq|].
    split; [|done]. intros name Hne. by rewrite lookup_insert_ne.
  - by apply append_responses_false in H as [? _].
Qed.

Lemma append_responses_all_or_nothing_witness :
  (exists old,
      sheets (sample_world seeded_sheets [] jane_answered_session)
        !! "employee_responses" = Some old /\
      sheets (snd (append_responses jane_responses
                     (sample_world seeded_sheets [] jane_answered_session)))
        !! "employee_responses" = Some (old ++ (response_row <$> jane_responses))) /\
  sheets (snd (append_responses jane_responses
                 (sample_world seeded_sheets [false; false; true]
                               jane_answered_session)))
  = sheets (sample_world seeded_sheets [false; false; true] jane_answered_session).
Proof.
  split.
  - destruct (append_responses_all_or_nothing jane_responses
                (sample_world seeded_sheets [] jane_answered_session)
                (snd (append_responses jane_responses
                        (sample_world seeded_sheets [] jane_answered_session)))
                true) as (old & Hold & Hnew & _); [by vm_compute|].
    exists old. split; [exact Hold|exact Hnew].
  - apply (append_responses_all_or_nothing jane_responses
             (sample_world seeded_sheets [false; false; true] jane_answered_session)
             (snd (append_responses jane_responses
                     (sample_world seeded_sheets [false; false; true]
                                   jane_answered_session)))
             false).
    by vm_compute.
Defined.

(** ** The submitted records *)

Lemma build_responses_Val ue un sel qs :
  Forall (fun q : row => is_Some (q !! "question_id")) qs ->
  build_responses ue un sel qs = Val (record_for ue un sel <$> qs).
Proof.
  induction 1 as [|q qs [v Hv] Hqs IH]; [done|].
  simpl. unfold getitem. rewrite Hv. simpl. rewrite IH. simpl.
  unfold record_for, question_key, question_id_of, get_default. by rewrite Hv.
Qed.

Lemma submit_survey_run ue un qs w sel :
  selections (session w) = Some sel ->
  Forall (fun q : row => is_Some (q !! "question_id")) qs ->
  submit_survey ue un qs w
  = bind (append_responses (record_for ue un sel <$> qs)) (after_save ue) w.
Proof.
  intros Hsel Hqs. unfold submit_survey.
  erewrite bind_Ok by by apply the_selections_Some.
  rewrite build_responses_Val by done. reflexivity.
Qed.

Lemma unanswered_count_zero sel k v :
  unanswered_count sel = 0 -> sel !! k = Some v -> v <> PNone.
Proof.
  unfold unanswered_count. intros Hzero Hk ->.
  apply elem_of_map_to_list in Hk.
  assert (PNone ∈ filter (fun v => v = PNone) (map_to_list sel).*2) as Hin.
  { apply list_elem_of_filter. split; [done|].
    apply list_elem_of_fmap. by exists (k, PNone). }
  destruct (filter (fun v => v = PNone) (map_to_list sel).*2); [|done].
  by apply elem_of_nil in Hin.
Qed.

(** X5: when the submit button is pressed on a page where every question
    is answered, the submit flow hands [append_responses] exactly one
    record per question of the page (at most six), in the order of the
    questions; each record carries the session's email and name, the
    question's [question_id], and as nominee one of the eligible names
    drawn on the page.  When the save succeeds these rows stand at the end
    of the responses worksheet. *)
Theorem submit_saves_one_record_per_question
    (inp : input) (w w1 : world) (ue un : pyval) (qs : list row) (names : list pyval)
    (sel : gmap string pyval) :
  questions_render inp w = (Ok (Some (ue, un, qs, names)), w1) ->
  selections (session w1) = Some sel ->
  unanswered_count sel = 0 ->
  clicked inp = Some submit_label ->
  let rs := record_for ue un sel <$> qs in
  let w3 := add_screen (UiButton submit_label false)
              (add_screen (UiButton back_label false) w1) in
  questions_page inp w = bind (append_responses rs) (after_save ue) w3 /\
  length rs = length qs /\ length qs <= 6 /\
  user_email (session w) = Some ue /\
  Forall (fun r => r_name_of_person_in_response r ∈ names) rs /\
  sheets w3 = sheets w /\
  forall w4,
    append_responses rs w3 = (Ok true, w4) ->
    exists old,
      sheets w !! "employee_responses" = Some old /\
      sheets w4 !! "employee_responses" = Some (old ++ (response_row <$> rs)).
Proof.
  intros Hrun Hsel Hzero Hclick rs w3.
  pose proof Hrun as Hrender.
  apply questions_render_Some in Hrender
    as (allqs & es & ns & wq & we & sel0 & Hue & Hun & Htruthy & Hfq & Hfe & Hss &
        Hallqs & Hqs & Hns & Hnames & Hne & Hall & Hnd & Hsel0 & Hw1).
  assert (sel = answer_all inp names sel0 (question_key <$> qs)) as Hsel'.
  { rewrite Hw1 in Hsel. simpl in Hsel. congruence. }
  assert (sheets w3 = sheets w) as Hsheets.
  { unfold w3. simpl. rewrite Hw1. simpl.
    pose proof (keeps_fetch_questions _ _ frame_sheets_view w) as H1.
    pose proof (keeps_fetch_employees _ _ frame_sheets_view wq) as H2.
    rewrite Hfq in H1. rewrite Hfe in H2. simpl in *. congruence. }
  split; [|split; [|split; [|split; [|split; [|split]]]]].
  - rewrite questions_page_split. erewrite bind_Ok by exact Hrun.
    etransitivity; [exact (questions_actions_run inp ue un qs w1 sel Hsel)|].
    cbv zeta. rewrite Hzero. simpl.
    assert (clicked inp <> Some back_label) as Hnb by (rewrite Hclick; by intros [=]).
    rewrite bool_decide_false by done. rewrite bool_decide_true by done. simpl.
    by apply submit_survey_run.
  - unfold rs. by rewrite length_fmap.
  - rewrite Hqs, length_take. lia.
  - rewrite Hue in Htruthy. destruct (user_email (session w)) as [v|]; [|done].
    simpl in Hue. by rewrite Hue.
  - unfold rs. apply Forall_fmap, Forall_forall. intros q Hq. simpl.
    destruct (answer_all_lookup inp names (question_key <$> qs) sel0 (question_key q))
      as (x & Hx & Hok).
    { apply list_elem_of_fmap. by exists q. }
    rewrite <- Hsel' in Hx. unfold get_default. rewrite Hx. simpl.
    destruct Hok as [->|Hin]; [|done].
    by destruct (unanswered_count_zero sel _ _ Hzero Hx).
  - done.
  - intros w4 Happ. apply append_responses_true in Happ as (old & Hold & Hnew & _).
    exists old. rewrite <- Hsheets. split; [done|].
    by rewrite Hnew, lookup_insert_eq.
Qed.

Lemma submit_saves_one_record_per_question_witness :
  let run := questions_render (all_answered_input (Some submit_label))
               (sample_world seeded_sheets [] jane_session) in
  length (rendered_questions (fst run)) <= 6 /\
  forall q, q ∈ rendered_questions (fst run) ->
    get_default (default ∅ (selections (session (snd run)))) (question_key q) PNone
    ∈ rendered_names (fst run).
Proof.
  cbv zeta.
  assert (rendered
            (fst (questions_render (all_answered_input (Some submit_label))
                    (sample_world seeded_sheets [] jane_session))) = true)
    as Hok by (vm_compute; reflexivity).
  assert (unanswered_count
            (default ∅
               (selections
                  (session
                     (snd (questions_render (all_answered_input (Some submit_label))
                             (sample_world seeded_sheets [] jane_session)))))) = 0)
    as Hzero by (vm_compute; reflexivity).
  assert (is_Some
            (selections
               (session
                  (snd (questions_render (all_answered_input (Some submit_label))
                          (sample_world seeded_sheets [] jane_session))))))
    as [sel Hsel].
  { pose proof (keeps_user_binding_questions_page) as _.
    destruct (questions_render (all_answered_input (Some submit_label))
                (sample_world seeded_sheets [] jane_session))
      as [[[[[[ue un] qs] names]|]|e|c] w1] eqn:Hrun; try discriminate Hok.
    apply questions_render_Some in Hrun
      as (? & ? & ? & ? & ? & ? & _ & _ & _ & _ & _ & _ & _ & _ & _ & _ & _ & _ & _ & _ & ->).
    simpl. eauto. }
  rewrite Hsel in Hzero |- *. simpl in Hzero |- *.
  destruct (questions_render (all_answered_input (Some submit_label))
              (sample_world seeded_sheets [] jane_session))
    as [[[[[[ue un] qs] names]|]|e|c] w1] eqn:Hrun; try discriminate Hok.
  simpl in *.
  destruct (submit_saves_one_record_per_question _ _ _ _ _ _ _ sel Hrun Hsel Hzero eq_refl)
    as (_ & _ & Hlen & _ & Hnominee & _).
  split; [exact Hlen|].
  intros q Hq. rewrite Forall_fmap, Forall_forall in Hnominee.
  exact (Hnominee q Hq).
Defined.

(** Jane's submission on the seeded spreadsheet: six rows are appended,
    her status is set, and the page becomes the success page. *)
Example jane_submits :
  let w' := snd (questions_page (all_answered_input (Some submit_label))
                   (sample_world seeded_sheets [] jane_session)) in
  (drop 1 <$> sheets w' !! "employee_responses",
   sheets w' !! "employee_details",
   page (session w'))
  = (Some (response_row <$> jane_responses),
     Some [ [PStr "name"; PStr "email"; PStr "status"];
            [PStr "Jane Doe"; PStr "jane.doe@keydynamicssolutions"; PStr "yes"];
            [PStr "John Smith"; PStr "john.smith@keydynamicssolutions"; PStr "no"] ],
     Some "success").
Proof. vm_compute. reflexivity. Qed.

(** ** Finding an employee *)

Lemma first_match_unique data key i r i' r' :
  first_match data key i r -> first_match data key i' r' -> i = i' /\ r = r'.
Proof.
  intros (Hi & Hk & Hbefore) (Hi' & Hk' & Hbefore').
  assert (i = i') as <-.
  { destruct (Nat.lt_trichotomy i i') as [Hlt|[?|Hlt]]; [|done|].
    - destruct (Hbefore' i r Hlt Hi) as (k & Hk1 & Hk2). congruence.
    - destruct (Hbefore i' r' Hlt Hi') as (k & Hk1 & Hk2). congruence. }
  split; [done|]. congruence.
Qed.

Lemma first_match_cons_hit r data key :
  email_key r = Val key -> first_match (r :: data) key 0 r.
Proof. intros H. split; [done|]. split; [done|]. intros j r' Hj. lia. Qed.

Lemma first_match_cons_miss r0 k0 data key i r :
  email_key r0 = Val k0 -> k0 <> key ->
  first_match (r0 :: data) key i r <->
  exists i', i = S i' /\ first_match data key i' r.
Proof.
  intros Hk0 Hne. split.
  - intros (Hi & Hk & Hbefore). destruct i as [|i'].
    + simpl in Hi. injection Hi as <-. congruence.
    + exists i'. split; [done|]. split; [done|]. split; [done|].
      intros j r' Hj Hr'. apply (Hbefore (S j) r'); [lia|done].
  - intros (i' & -> & Hi & Hk & Hbefore). split; [done|]. split; [done|].
    intros [|j] r' Hj Hr'.
    + simpl in Hr'. injection Hr' as <-. eauto.
    + apply (Hbefore j r'); [lia|done].
Qed.

(** The loop of [update_employee_status] stops at the first match. *)
Lemma find_status_row_Some data email key idx n :
  strip_lower email = Val key ->
  find_status_row data email idx = Val (Some n) <->
  exists i r, n = idx + i /\ first_match data key i r.
Proof.
  intros Hkey. revert idx. induction data as [|r0 data IH]; intros idx; simpl.
  - split; [done|]. by intros (i & r & _ & [=] & _).
  - destruct (email_key r0) as [k0|e] eqn:Hk0; simpl.
    + rewrite Hkey. simpl. destruct (String.eqb k0 key) eqn:Heq.
      * apply String.eqb_eq in Heq as ->. split.
        -- intros [= <-]. exists 0, r0. split; [lia|]. by apply first_match_cons_hit.
        -- intros (i & r & -> & Hm).
           destruct (first_match_unique _ _ _ _ _ _ Hm (first_match_cons_hit r0 data key Hk0))
             as [-> _].
           f_equal. f_equal. lia.
      * apply String.eqb_neq in Heq. rewrite IH. split.
        -- intros (i & r & -> & Hm). exists (S i), r. split; [lia|].
           apply (first_match_cons_miss r0 k0); eauto.
        -- intros (i & r & -> & Hm).
           apply (first_match_cons_miss r0 k0) in Hm as (i' & -> & Hm); [|done..].
           exists i', r. split; [lia|done].
    + split; [done|]. intros (i & r & _ & Hi & Hk & Hbefore).
      destruct i as [|i].
      * simpl in Hi. injection Hi as <-. congruence.
      * destruct (Hbefore 0 r0) as (k & Hk' & _); [lia|done|congruence].
Qed.

Lemma find_status_row_None data email key idx :
  strip_lower email = Val key ->
  find_status_row data email idx = Val None ->
  forall i r, ~ first_match data key i r.
Proof.
  intros Hkey. revert idx. induction data as [|r0 data IH]; intros idx; simpl.
  - intros _ i r (Hi & _). done.
  - destruct (email_key r0) as [k0|e] eqn:Hk0; simpl; [|done].
    rewrite Hkey. simpl. destruct (String.eqb k0 key) eqn:Heq; [done|].
    apply String.eqb_neq in Heq. intros Hrest i r Hm.
    apply (first_match_cons_miss r0 k0) in Hm as (i' & -> & Hm); [|done..].
    by apply (IH _ Hrest i' r).
Qed.

(** The search of the login page stops at the first match. *)
Lemma find_employee_Some data email r :
  find_employee data email = Val (Some r) <->
  exists i, first_match data (normalize email) i r.
Proof.
  induction data as [|r0 data IH]; simpl.
  - split; [done|]. by intros (i & [=] & _).
  - destruct (email_key r0) as [k0|e] eqn:Hk0; simpl.
    + destruct (String.eqb k0 (normalize email)) eqn:Heq.
      * apply String.eqb_eq in Heq. rewrite Heq in Hk0. split.
        -- intros [= <-]. exists 0. by apply first_match_cons_hit.
        -- intros (i & Hm).
           destruct (first_match_unique _ _ _ _ _ _ Hm
                       (first_match_cons_hit r0 data _ Hk0)) as [_ ->]. done.
      * apply String.eqb_neq in Heq. rewrite IH. split.
        -- intros (i & Hm). exists (S i). apply (first_match_cons_miss r0 k0); eauto.
        -- intros (i & Hm).
           apply (first_match_cons_miss r0 k0) in Hm as (i' & -> & Hm); eauto.
    + split; [done|]. intros (i & Hi & Hk & Hbefore). destruct i as [|i].
      * simpl in Hi. injection Hi as <-. congruence.
      * destruct (Hbefore 0 r0) as (k & Hk' & _); [lia|done|congruence].
Qed.

Lemma find_employee_None data email :
  find_employee data email = Val None ->
  forall i r, ~ first_match data (normalize email) i r.
Proof.
  intros Hnone i r Hm.
  assert (find_employee data email = Val (Some r)) as Hsome
      by (apply find_employee_Some; eauto).
  congruence.
Qed.

(** ** Logging in *)

Lemma lstrip_all_space s : all_space s = false -> all_space (PyStr.lstrip s) = false.
Proof.
  induction s as [|c s IH]; [done|]. simpl.
  destruct (PyStr.is_space c) eqn:Hc; simpl; [done|]. intros _. by rewrite Hc.
Qed.

Lemma rstrip_empty s : PyStr.rstrip s = "" -> all_space s = true.
Proof.
  induction s as [|c s IH]; [done|]. simpl.
  destruct (PyStr.rstrip s) eqn:Hr; [|done].
  destruct (PyStr.is_space c); [|done]. intros _. by rewrite IH.
Qed.

Lemma lower_empty s : PyStr.lower s = "" -> s = "".
Proof. by destruct s. Qed.

Lemma normalize_empty s : normalize s = "" -> all_space s = true.
Proof.
  unfold normalize, PyStr.strip. intros H%lower_empty%rstrip_empty.
  destruct (all_space s) eqn:Hs; [done|]. apply lstrip_all_space in Hs. congruence.
Qed.

Lemma contains_domain_not_space email :
  PyStr.contains REQUIRED_DOMAIN email = true -> all_space email = false.
Proof.
  induction email as [|c s IH]; [done|].
  cbn [PyStr.contains]. intros [Hp|Hc]%orb_true_iff.
  - unfold REQUIRED_DOMAIN in Hp. cbn [String.prefix] in Hp.
    destruct (ascii_dec "@" c) as [<-|]; [done|discriminate].
  - simpl. rewrite IH by done. apply andb_false_r.
Qed.

Lemma normalize_domain_nonempty email :
  PyStr.contains REQUIRED_DOMAIN email = true -> normalize email <> "".
Proof.
  intros H%contains_domain_not_space Hn%normalize_empty. congruence.
Qed.

Lemma login_page_fetched inp w es w1 :
  clicked inp = Some "Login" ->
  PyStr.contains REQUIRED_DOMAIN (typed_email inp) = true ->
  fetch_employees w = (Ok es, w1) ->
  login_page inp w =
  match find_employee es (typed_email inp) with
  | Err e => (Raise e, w1)
  | Val found =>
      if not_found found then (Ok tt, add_screen (UiError email_not_found_error) w1)
      else
        let r := default ∅ found in
        match py_lower (get_default r "status" (PStr "")) with
        | Err e => (Raise e, w1)
        | Val status =>
            if String.eqb status "yes"
            then (Ok tt, add_screen (UiError already_completed_error) w1)
            else (Halt RerunException,
                  set_session (logged_in r) (add_screen (UiSuccess (welcome r)) w1))
        end
  end.
Proof.
  intros Hclick Hdom Hfetch. unfold login_page.
  rewrite bool_decide_true by done.
  rewrite (contains_domain_nonempty _ Hdom), Hdom. simpl.
  erewrite bind_Ok by exact Hfetch.
  destruct (find_employee es (typed_email inp)) as [found|e]; [|done].
  unfold bind at 1. simpl.
  destruct (not_found found); [done|].
  destruct (py_lower (get_default (default ∅ found) "status" (PStr ""))) as [st|e];
    [|done].
  unfold bind at 1. simpl.
  destruct (String.eqb st "yes"); [done|]. reflexivity.
Qed.

Lemma find_employee_no_match es email :
  (forall r, r ∈ es -> exists k, email_key r = Val k /\ k <> normalize email) ->
  find_employee es email = Val None.
Proof.
  induction es as [|r es IH]; intros Hall; [done|]. simpl.
  destruct (Hall r) as (k & -> & Hne); [by left|]. simpl.
  apply String.eqb_neq in Hne. rewrite Hne. apply IH.
  intros r' Hr'. apply Hall. by right.
Qed.

Lemma first_match_not_empty es email i r :
  PyStr.contains REQUIRED_DOMAIN email = true ->
  first_match es (normalize email) i r ->
  not_found (Some r) = false /\
  exists mail, get_default r "email" (PStr "") = PStr mail /\
               normalize mail = normalize email /\ mail <> "".
Proof.
  intros Hdom (_ & Hkey & _).
  apply normalize_domain_nonempty in Hdom.
  unfold email_key in Hkey.
  destruct (get_default r "email" (PStr "")) as [|mail|] eqn:Hmail; simpl in Hkey;
    try done.
  injection Hkey as Hkey. fold (normalize mail) in Hkey.
  assert (mail <> "") as Hne by (intros ->; by rewrite <- Hkey in Hdom).
  split; [|by exists mail].
  simpl. apply bool_decide_eq_false. intros ->.
  unfold get_default in Hmail. rewrite lookup_empty in Hmail. simpl in Hmail.
  congruence.
Qed.



(** ** Updating the status *)

Lemma get_all_records_Ok ws w rows w' :
  get_all_records ws w = (Ok rows, w') ->
  exists g, sheets w !! ws = Some g /\ rows = records g /\ sheets w' = sheets w.
Proof.
  intros H. unfold get_all_records in H.
  apply bind_Ok_inv in H as ([] & w1 & Hcall & H).
  pose proof (api_call_sheets (GetAllRecords ws) w) as Hs. rewrite Hcall in Hs.
  simpl in Hs. unfold bind in H. simpl in H.
  destruct (sheets w1 !! ws) as [g|] eqn:Hg; [|done].
  injection H as <- <-. exists g. by rewrite <- Hs.
Qed.

Lemma alter_as_insert {A} (f : A -> A) (l : list A) i x :
  l !! i = Some x -> alter f i l = <[i := f x]> l.
Proof.
  revert i. induction l as [|y l IH]; intros [|i] Hi; simplify_eq/=; [done|].
  f_equal. by apply IH.
Qed.

Lemma update_grid_data_row header (data : list (list pyval)) i c v :
  data !! i = Some c ->
  update_grid (S (S i)) 3 v (header :: data)
  = header :: <[i := <[2 := v]> (pad 3 c)]> data.
Proof.
  intros Hi. unfold update_grid.
  assert (i < length data) as Hlt by by eapply lookup_lt_Some.
  replace (S (S i) - length (header :: data)) with 0 by (simpl; lia).
  simpl. rewrite app_nil_r. f_equal.
  exact (alter_as_insert (fun cells => <[2 := v]> (pad 3 cells)) data i c Hi).
Qed.

(** The cells of an employee record. *)
Lemma employee_record_cells c :
  exists a b s rest,
    pad 3 c = a :: b :: s :: rest /\
    record_of employee_header c !! "name" = Some a /\
    record_of employee_header c !! "email" = Some b /\
    record_of employee_header c !! "status" = Some s /\
    forall v,
      record_of employee_header (<[2 := v]> (pad 3 c)) !! "name" = Some a /\
      record_of employee_header (<[2 := v]> (pad 3 c)) !! "email" = Some b /\
      record_of employee_header (<[2 := v]> (pad 3 c)) !! "status" = Some v.
Proof.
  destruct c as [|a [|b [|s rest]]].
  - exists (PStr ""), (PStr ""), (PStr ""), []. by vm_compute.
  - exists a, (PStr ""), (PStr ""), []. by vm_compute.
  - exists a, b, (PStr ""), []. by vm_compute.
  - exists a, b, s, rest.
    assert (pad 3 (a :: b :: s :: rest) = a :: b :: s :: rest) as Hpad.
    { unfold pad. simpl. by rewrite app_nil_r. }
    rewrite Hpad. split; [done|].
    assert (forall x, record_of employee_header (a :: b :: x :: rest)
                      = record_of employee_header [a; b; x]) as Hcut.
    { intros x. unfold record_of, pad, employee_header. cbn [fmap list_fmap length].
      cbn [zip zip_with app]. reflexivity. }
    rewrite Hcut. split; [by vm_compute|]. split; [by vm_compute|].
    split; [by vm_compute|]. intros v.
    change (<[2:=v]> (a :: b :: s :: rest)) with (a :: b :: v :: rest).
    rewrite Hcut. by vm_compute.
Qed.

Lemma find_status_row_key data email idx n :
  find_status_row data email idx = Val (Some n) ->
  exists key, strip_lower email = Val key.
Proof.
  destruct data as [|r data]; [done|]. simpl.
  destruct (email_key r); [|done]. simpl.
  destruct (strip_lower email) as [key|]; [eauto|done].
Qed.

Lemma update_cell_Ok ws r c v w w' :
  update_cell ws r c v w = (Ok tt, w') ->
  exists g, sheets w !! ws = Some g /\
            sheets w' = <[ws := update_grid r c v g]> (sheets w).
Proof.
  intros H. unfold update_cell in H.
  apply bind_Ok_inv in H as ([] & w2 & Hcall & H).
  pose proof (api_call_sheets (UpdateCell ws r c v) w) as Hs.
  rewrite Hcall in Hs. simpl in Hs.
  apply write_grid_Ok in H as (g & Hg & ->).
  exists g. by rewrite <- Hs.
Qed.

Lemma update_cell_fails ws r c v w e w' :
  update_cell ws r c v w = (Raise e, w') -> sheets w' = sheets w.
Proof.
  intros H. unfold update_cell in H.
  pose proof (api_call_sheets (UpdateCell ws r c v) w) as Hs.
  apply bind_inv in H as [(? & w2 & Hcall & Hk)|[(?&?&Hcall&[= <- <-])|(?&?&_&[=])]];
    rewrite Hcall in Hs; simpl in Hs; [|done].
  unfold write_grid, bind in Hk. simpl in Hk.
  destruct (sheets w2 !! ws); [done|]. by injection Hk as <- <-.
Qed.

(** The row of the worksheet behind a record of [records]. *)
Lemma records_lookup g i r :
  records g !! i = Some r ->
  exists header data cells,
    g = header :: data /\ data !! i = Some cells /\ r = record_of header cells.
Proof.
  destruct g as [|header data]; [done|]. simpl.
  rewrite list_lookup_fmap. destruct (data !! i) as [cells|] eqn:Hc; [|done].
  intros [= <-]. by exists header, data, cells.
Qed.

Lemma update_employee_status_true email w w1 :
  update_employee_status email w = (Ok true, w1) ->
  exists key header data i cells,
    strip_lower email = Val key /\
    sheets w !! "employee_details" = Some (header :: data) /\
    data !! i = Some cells /\
    first_match (record_of header <$> data) key i (record_of header cells) /\
    sheets w1 = <["employee_details" :=
                    header :: <[i := <[2 := PStr "yes"]> (pad 3 cells)]> data]> (sheets w) /\
    employees_cache w1 = None /\ questions_cache w1 = None.
Proof.
  intros H. unfold update_employee_status in H.
  apply try_except_Ok_inv in H as [H|(e & w2 & _ & H)].
  2:{ by apply bind_Ok_inv in H as (? & ? & _ & [= ]). }
  apply bind_Ok_inv in H as (ws & w2 & Hsheet & H).
  apply get_sheet_Ok in Hsheet as (-> & Hs2 & _).
  apply bind_Ok_inv in H as (rows & w3 & Hrec & H).
  apply get_all_records_Ok in Hrec as (g & Hg & -> & Hs3).
  apply bind_Ok_inv in H as (hit & w4 & Hfind & H).
  apply lift_Ok_inv in Hfind as [Hfind ->].
  destruct hit as [idx|]; [|by apply bind_Ok_inv in H as (? & ? & _ & [= ])].
  apply bind_Ok_inv in H as ([] & w5 & Hcell & H).
  apply bind_Ok_inv in H as ([] & w6 & [= <-] & [= <-]).
  apply update_cell_Ok in Hcell as (g' & Hg' & Hs5).
  rewrite Hs3, Hg in Hg'. injection Hg' as <-.
  destruct (find_status_row_key _ _ _ _ Hfind) as [key Hkey].
  apply (find_status_row_Some _ _ key) in Hfind as (i & r & -> & Hm); [|done].
  destruct (records_lookup g i r (proj1 Hm)) as (header & data & cells & -> & Hc & ->).
  exists key, header, data, i, cells.
  rewrite Hs2 in Hg. rewrite Hs3, Hs2 in Hs5.
  split; [done|]. split; [done|]. split; [done|]. split; [exact Hm|].
  split; [|done]. simpl. rewrite Hs5.
  change (2 + i) with (S (S i)). by rewrite (update_grid_data_row header data i cells).
Qed.

Lemma update_employee_status_false email w w1 :
  update_employee_status email w = (Ok false, w1) -> sheets w1 = sheets w.
Proof.
  intros H. unfold update_employee_status, try_except in H.
  pose proof (keeps_get_sheet _ _ frame_sheets_view "employee_details" w) as Hs.
  match type of H with
  | match ?body w with _ => _ end = _ =>
      destruct (body w) as [[b|e|c] w2] eqn:Hbody
  end; [| |done].
  - injection H as -> ->.
    apply bind_Ok_inv in Hbody as (ws & w2 & Hsheet & H).
    rewrite Hsheet in Hs. simpl in Hs.
    apply bind_Ok_inv in H as (rows & w3 & Hrec & H).
    apply get_all_records_Ok in Hrec as (g & _ & _ & Hs3).
    apply bind_Ok_inv in H as (hit & w4 & Hfind & H).
    apply lift_Ok_inv in Hfind as [_ ->].
    destruct hit as [idx|].
    + apply bind_Ok_inv in H as ([] & w5 & _ & H).
      by apply bind_Ok_inv in H as ([] & w6 & _ & [= ]).
    + apply bind_Ok_inv in H as ([] & w5 & [= <-] & [= <-]). simpl. congruence.
  - injection H as <-. simpl.
    apply bind_inv in Hbody as [(ws & w3 & Hsheet & Hk)|[(?&?&Hsheet&[= <- <-])|(?&?&_&[=])]];
      rewrite Hsheet in Hs; simpl in Hs; [|done].
    pose proof (keeps_get_all_records _ _ frame_sheets_view ws w3) as Hr.
    apply bind_inv in Hk as [(rows & w4 & Hrec & Hk)|[(?&?&Hrec&[= <- <-])|(?&?&_&[=])]];
      rewrite Hrec in Hr; simpl in Hr; [|congruence].
    apply bind_inv in Hk as [(hit & w5 & Hfind & Hk)|[(?&?&Hfind&[= <- <-])|(?&?&_&[=])]].
    2:{ destruct (find_status_row rows email 2); simpl in Hfind; [done|].
        injection Hfind as <- <-. congruence. }
    apply lift_Ok_inv in Hfind as [_ ->].
    destruct hit as [idx|].
    + apply bind_inv in Hk as [(? & w6 & _ & Hk)|[(?&?&Hcell&[= <- <-])|(?&?&_&[=])]].
      * by apply bind_inv in Hk as [(? & ? & _ & [= ])|[(?&?&[= ]&_)|(?&?&_&[=])]].
      * apply update_cell_fails in Hcell. congruence.
    + by apply bind_inv in Hk as [(? & ? & _ & [= ])|[(?&?&[= ]&_)|(?&?&_&[=])]].
Qed.

(** ** A login after the update *)

(** A handle is only returned under a configuration that passes every
    check. *)
Lemma get_sheet_config_ok name w ws w' :
  get_sheet name w = (Ok ws, w') -> config_ok (cfg w) = true.
Proof.
  destruct w as [[sp url sid cv] gb sh fs ck ec qc ss scr cl].
  unfold config_ok, get_sheet, get_config, get_gspread_client, open_by_key,
    worksheet_, api_call, gspread_WorksheetNotFound, bind, try_except.
  simpl.
  destruct sp, cv; simpl; try done;
    destruct (String.eqb url "") eqn:Hurl; simpl; try done;
    destruct sid as [sid|]; simpl; done.
Qed.

(** With the configuration in place and no failure of the store, a table
    that exists is read as it stands. *)
Lemma read_table_run name g w :
  config_ok (cfg w) = true -> faults w = [] -> sheets w !! name = Some g ->
  read_table name w
  = (Ok (records g),
     add_call (GetAllRecords name) (add_call (Worksheet name) (add_call OpenByKey w))).
Proof.
  destruct w as [[sp url sid cv] gb sh fs ck ec qc ss scr cl].
  unfold config_ok. simpl. intros Hok -> Hg.
  destruct sp, cv, (String.eqb url "") eqn:Hurl, sid as [sid|]; try done.
  unfold read_table, get_sheet, get_config, get_gspread_client, open_by_key,
    worksheet_, get_all_records, api_call, bind, try_except.
  simpl. rewrite Hurl. simpl. rewrite Hg. simpl. by rewrite Hg.
Qed.

Lemma fetch_employees_run g w :
  config_ok (cfg w) = true -> faults w = [] ->
  sheets w !! "employee_details" = Some g ->
  cache_miss (employees_cache w) (clock w) 300 = true ->
  fst (fetch_employees w) = Ok (records g).
Proof.
  intros Hok Hf Hg Hmiss. unfold fetch_employees.
  rewrite cache_data_miss by done.
  fold (read_table "employee_details").
  erewrite bind_Ok;
    [|by erewrite try_except_Ok by exact (read_table_run _ g w Hok Hf Hg)].
  reflexivity.
Qed.

Lemma email_key_lookup (r r' : row) :
  r !! "email" = r' !! "email" -> email_key r = email_key r'.
Proof. unfold email_key, get_default. by intros ->. Qed.

(** Setting the status cell of a row moves no first match. *)
Lemma first_match_status_update data key i cells v :
  data !! i = Some cells ->
  first_match (record_of employee_header <$> data) key i
              (record_of employee_header cells) ->
  first_match
    (record_of employee_header <$> <[i := <[2 := v]> (pad 3 cells)]> data) key i
    (record_of employee_header (<[2 := v]> (pad 3 cells))).
Proof.
  intros Hc (Hi & Hk & Hbefore).
  assert (i < length data) as Hlt by by eapply lookup_lt_Some.
  destruct (employee_record_cells cells) as (a & b & s & rest & _ & _ & Hb & _ & Hnew).
  destruct (Hnew v) as (_ & Hb' & _).
  split; [|split].
  - rewrite list_lookup_fmap, list_lookup_insert_eq by done. done.
  - rewrite <- Hk. apply email_key_lookup. by rewrite Hb, Hb'.
  - intros j r' Hj Hr'. apply (Hbefore j r' Hj).
    rewrite list_lookup_fmap in Hr'. rewrite list_lookup_fmap.
    rewrite list_lookup_insert_ne in Hr' by lia. done.
Qed.



(** The seeded roster after John Smith's status was set. *)
Example john_marked_completed :
  sheets (snd (update_employee_status (PStr " John.Smith@keydynamicssolutions ")
                 (sample_world seeded_sheets [] jane_session)))
    !! "employee_details"
  = Some [ [PStr "name"; PStr "email"; PStr "status"];
           [PStr "Jane Doe"; PStr "jane.doe@keydynamicssolutions"; PStr "no"];
           [PStr "John Smith"; PStr "john.smith@keydynamicssolutions"; PStr "yes"] ].
Proof. vm_compute. reflexivity. Qed.



(** ** Initialisation without [gspread] at module level *)

(** Where the name [gspread] is not bound, a "check and create" block only
    looks the worksheet up: a lookup that fails ends in the [NameError] of
    the [except] clause, before anything is created. *)
Lemma ensure_worksheet_unbound name header seed w :
  gspread_bound w = false ->
  let r := ensure_worksheet name header seed w in
  gspread_bound (snd r) = false /\
  sheets (snd r) = sheets w /\
  screen (snd r) = screen w /\
  calls (snd r) = calls w ++ [Worksheet name] /\
  ((fst r = Ok name /\ is_Some (sheets w !! name)) \/ fst r = Raise NameError).
Proof.
  intros Hgb.
  unfold ensure_worksheet, worksheet_, try_except, bind, api_call,
    gspread_WorksheetNotFound.
  simpl.
  destruct (faults w) as [|[] fs']; simpl; rewrite ?Hgb; simpl;
    destruct (sheets w !! name) as [g|]; simpl; rewrite ?Hgb; simpl; eauto 10.
Qed.

Lemma get_gspread_client_outcome w :
  let r := get_gspread_client w in
  gspread_bound (snd r) = gspread_bound w /\ sheets (snd r) = sheets w /\
  calls (snd r) = calls w /\ cfg (snd r) = cfg w /\ faults (snd r) = faults w /\
  ((fst r = Ok tt /\ screen (snd r) = screen w /\
    secrets_present (cfg w) && credentials_valid (cfg w) = true) \/
   fst r = Halt StopException).
Proof.
  unfold get_gspread_client, get_config, try_except, bind. simpl.
  destruct (secrets_present (cfg w)); simpl; [|by eauto 10].
  destruct (credentials_valid (cfg w)); simpl; eauto 10.
Qed.

Lemma get_config_outcome w :
  let r := get_config w in
  gspread_bound (snd r) = gspread_bound w /\ sheets (snd r) = sheets w /\
  calls (snd r) = calls w /\ cfg (snd r) = cfg w /\ faults (snd r) = faults w /\
  ((exists c, fst r = Ok c /\ snd r = w) \/ fst r = Halt StopException).
Proof.
  unfold get_config, bind. simpl.
  destruct (secrets_present (cfg w)); simpl; eauto 10.
Qed.

(** X9: as [vote.py] is written ([gspread] imported inside
    [get_gspread_client] only), [initialize_sheets] creates nothing: every
    worksheet is left as it is and no writing call is issued.  It returns
    only when the three worksheets exist already; when one of them is
    missing the script is stopped, and with the configuration in place
    and no failure of the store the error drawn is the [NameError] of the
    [except gspread.WorksheetNotFound] clause. *)
Theorem initialize_sheets_without_gspread_creates_nothing (w : world) :
  gspread_bound w = false ->
  sheets (snd (initialize_sheets w)) = sheets w /\
  (exists l, calls (snd (initialize_sheets w)) = calls w ++ l /\
             Forall (fun a => is_write a = false) l) /\
  (fst (initialize_sheets w) = Ok tt \/
   fst (initialize_sheets w) = Halt StopException) /\
  forall name, name ∈ the_three_worksheets -> sheets w !! name = None ->
    fst (initialize_sheets w) = Halt StopException /\
    (config_ok (cfg w) = true -> faults w = [] ->
     last (screen (snd (initialize_sheets w)))
     = Some (UiError "Error initializing sheets: name 'gspread' is not defined")).
Proof.
  destruct w as [[sp url sid cv] gb sh fs ck ec qc ss scr cl]. simpl. intros ->.
  unfold initialize_sheets, get_gspread_client, get_config, open_by_key,
    ensure_worksheet, worksheet_, try_except, bind, api_call,
    gspread_WorksheetNotFound, config_ok.
  simpl.
  destruct sp; simpl.
  2:{ split; [done|]. split; [exists []; by rewrite app_nil_r|].
      split; [by right|]. by intros. }
  destruct cv; simpl.
  2:{ split; [done|]. split; [exists []; by rewrite app_nil_r|].
      split; [by right|]. by intros. }
  destruct (sh !! "employee_details") as [g1|] eqn:H1;
    destruct (sh !! "questions") as [g2|] eqn:H2;
    destruct (sh !! "employee_responses") as [g3|] eqn:H3;
    destruct sid as [sid|];
    destruct fs as [|[] [|[] [|[] [|[] fs']]]];
    repeat (progress (simpl; rewrite ?H1, ?H2, ?H3));
    (split; [done|]);
    (split; [rewrite <- ?app_assoc; eexists; split;
             [reflexivity|by repeat constructor]|]);
    (split; [by eauto|]);
    intros name Hname Hnone; unfold the_three_worksheets in Hname;
    repeat (apply elem_of_cons in Hname as [->|Hname]);
    try (by apply elem_of_nil in Hname); try congruence;
    (split; [done|]); rewrite ?andb_false_r; try done;
    intros _ _; by rewrite last_snoc.
Qed.

Lemma initialize_sheets_without_gspread_creates_nothing_witness :
  sheets (snd (initialize_sheets (sample_world ∅ [] empty_session))) = ∅ /\
  fst (initialize_sheets (sample_world ∅ [] empty_session)) = Halt StopException /\
  last (screen (snd (initialize_sheets (sample_world ∅ [] empty_session))))
  = Some (UiError "Error initializing sheets: name 'gspread' is not defined").
Proof.
  destruct (initialize_sheets_without_gspread_creates_nothing
              (sample_world ∅ [] empty_session) eq_refl)
    as (Hsheets & _ & _ & Hmissing).
  destruct (Hmissing "questions") as [Hstop Herr].
  - unfold the_three_worksheets. set_solver.
  - reflexivity.
  - split; [exact Hsheets|]. split; [exact Hstop|]. by apply Herr.
Defined.

(** ** Creating a missing worksheet *)

Lemma add_worksheet_Ok name w ws w' :
  add_worksheet name w = (Ok ws, w') ->
  ws = name /\ sheets w !! name = None /\ sheets w' = <[name := []]> (sheets w).
Proof.
  intros H. unfold add_worksheet in H.
  apply bind_Ok_inv in H as ([] & w1 & Hcall & H).
  pose proof (api_call_sheets (AddWorksheet name) w) as Hs.
  rewrite Hcall in Hs. simpl in Hs. unfold bind in H. simpl in H.
  destruct (sheets w1 !! name) eqn:Hn; simpl in H; [done|].
  injection H as <- <-. simpl. by rewrite <- Hs.
Qed.

Lemma append_row_Ok ws r w w' :
  append_row ws r w = (Ok tt, w') ->
  exists g, sheets w !! ws = Some g /\ sheets w' = <[ws := g ++ [r]]> (sheets w).
Proof.
  intros H. unfold append_row in H.
  apply bind_Ok_inv in H as ([] & w1 & Hcall & H).
  pose proof (api_call_sheets (AppendRow ws r) w) as Hs.
  rewrite Hcall in Hs. simpl in Hs.
  apply write_grid_Ok in H as (g & Hg & ->). exists g. by rewrite <- Hs.
Qed.

Lemma append_rows_Ok ws rs w w' :
  append_rows ws rs w = (Ok tt, w') ->
  exists g, sheets w !! ws = Some g /\ sheets w' = <[ws := g ++ rs]> (sheets w).
Proof.
  intros H. unfold append_rows in H.
  apply bind_Ok_inv in H as ([] & w1 & Hcall & H).
  pose proof (api_call_sheets (AppendRows ws rs) w) as Hs.
  rewrite Hcall in Hs. simpl in Hs.
  apply write_grid_Ok in H as (g & Hg & ->). exists g. by rewrite <- Hs.
Qed.

(** A "check and create" block that comes back has left a worksheet that
    existed as it was, and has created a missing one with its header row
    and seed rows. *)
Lemma ensure_worksheet_Ok name header seed w ws w' :
  ensure_worksheet name header seed w = (Ok ws, w') ->
  sheets w' = match sheets w !! name with
              | Some _ => sheets w
              | None => <[name := header :: default [] seed]> (sheets w)
              end.
Proof.
  intros H. unfold ensure_worksheet in H.
  apply try_except_Ok_inv in H as [H|(e & w1 & Hraise & H)].
  - apply worksheet_Ok in H as (_ & Hs & [g Hg]). by rewrite Hg.
  - pose proof (keeps_worksheet _ _ frame_sheets_view name w) as Hs1.
    rewrite Hraise in Hs1. simpl in Hs1.
    apply bind_Ok_inv in H as (cls & w2 & Hcls & H).
    assert (w2 = w1) as ->.
    { unfold gspread_WorksheetNotFound in Hcls.
      destruct (gspread_bound w1); by injection Hcls. }
    destruct (decide (e = cls)); [|done].
    apply bind_Ok_inv in H as (ws' & w3 & Hadd & H).
    apply add_worksheet_Ok in Hadd as (-> & Hnone & Hs3).
    apply bind_Ok_inv in H as ([] & w4 & Hrow & H).
    apply append_row_Ok in Hrow as (g & Hg & Hs4).
    rewrite Hs3, lookup_insert_eq in Hg. injection Hg as <-.
    rewrite Hs3, insert_insert_eq in Hs4. simpl in Hs4.
    apply bind_Ok_inv in H as ([] & w5 & Hseed & [= _ <-]).
    rewrite Hs1 in Hnone, Hs4. rewrite Hnone.
    destruct seed as [rs|]; simpl.
    + apply append_rows_Ok in Hseed as (g & Hg & Hs5).
      rewrite Hs4, lookup_insert_eq in Hg. injection Hg as <-.
      by rewrite Hs5, Hs4, insert_insert_eq.
    + by injection Hseed as <-.
Qed.



(** ** Reading the responses back *)

Lemma frame_cfg : frame cfg true.
Proof. by split. Qed.

Lemma fetch_responses_run g w :
  config_ok (cfg w) = true -> faults w = [] ->
  sheets w !! "employee_responses" = Some g ->
  fst (fetch_responses w) = Ok (records g).
Proof.
  intros Hok Hf Hg. unfold fetch_responses.
  fold (read_table "employee_responses").
  by erewrite try_except_Ok by exact (read_table_run _ g w Hok Hf Hg).
Qed.

Lemma response_record_fields (r : response) :
  let rec := record_of responses_header (response_row r) in
  rec !! "email" = Some (r_email r) /\
  rec !! "name" = Some (r_name r) /\
  rec !! "question_id" = Some (r_question_id r) /\
  rec !! "name_of_person_in_response" = Some (r_name_of_person_in_response r).
Proof. destruct r as [e n q p]. by vm_compute. Qed.

(** X11: responses that were saved are read back as they were written.
    After [append_responses] has returned [True] on a responses worksheet
    with the app's header, [fetch_responses] (which is not cached), with no
    failure of the store, returns the records that were there followed by
    one record per saved response, in order, whose fields email, name,
    question_id and name_of_person_in_response are those of the
    response. *)
Theorem saved_responses_are_read_back
    (rs : list response) (old : list (list pyval)) (w w1 : world) :
  sheets w !! "employee_responses" = Some (responses_header :: old) ->
  append_responses rs w = (Ok true, w1) ->
  faults w1 = [] ->
  fst (fetch_responses w1)
  = Ok ((record_of responses_header <$> old) ++
        ((fun r => record_of responses_header (response_row r)) <$> rs)) /\
  forall r, r ∈ rs ->
    let rec := record_of responses_header (response_row r) in
    rec !! "email" = Some (r_email r) /\
    rec !! "name" = Some (r_name r) /\
    rec !! "question_id" = Some (r_question_id r) /\
    rec !! "name_of_person_in_response" = Some (r_name_of_person_in_response r).
Proof.
  intros Hold Happ Hfaults.
  assert (config_ok (cfg w1) = true) as Hok.
  { pose proof (keeps_append_responses cfg true frame_cfg rs eq_refl w) as Hcfg.
    rewrite Happ in Hcfg. simpl in Hcfg. rewrite Hcfg.
    unfold append_responses in Happ.
    apply try_except_Ok_inv in Happ as [H|(e & w2 & _ & H)].
    2:{ by apply bind_Ok_inv in H as (? & ? & _ & [= ]). }
    apply bind_Ok_inv in H as (ws & w2 & Hget & _).
    by apply get_sheet_config_ok in Hget. }
  apply append_responses_true in Happ as (old' & Hold' & Hnew & _).
  rewrite Hold in Hold'. injection Hold' as <-.
  split; [|intros r _; apply response_record_fields].
  rewrite (fetch_responses_run
             (responses_header :: old ++ (response_row <$> rs)) w1 Hok Hfaults).
  - simpl. by rewrite fmap_app, <- list_fmap_compose.
  - by rewrite Hnew, lookup_insert_eq.
Qed.

Lemma saved_responses_are_read_back_witness :
  fst (fetch_responses
         (snd (append_responses jane_responses
                 (sample_world seeded_sheets [] jane_answered_session))))
  = Ok ((fun r => record_of responses_header (response_row r)) <$> jane_responses).
Proof.
  destruct (saved_responses_are_read_back jane_responses []
              (sample_world seeded_sheets [] jane_answered_session)
              (snd (append_responses jane_responses
                      (sample_world seeded_sheets [] jane_answered_session))))
    as [Hread _].
  - vm_compute. reflexivity.
  - assert (fst (append_responses jane_responses
                   (sample_world seeded_sheets [] jane_answered_session)) = Ok true)
        as Hrun by (vm_compute; reflexivity).
    destruct (append_responses _ _) as [o w1]. simpl in *. by subst.
  - vm_compute. reflexivity.
  - exact Hread.
Defined.

(** ** The page state machine *)

Section PageMoves.
Context (next : list string).

Lemma page_moves_keeps {A} (m : M A) :
  keeps (fun w => page (session w)) m -> page_moves next m.
Proof. intros H w. left. apply H. Qed.

Lemma page_moves_bind {A B} (m : M A) (k : A -> M B) :
  page_moves next m -> (forall a, page_moves next (k a)) ->
  page_moves next (bind m k).
Proof.
  intros Hm Hk w. unfold bind. specialize (Hm w).
  destruct (m w) as [[a|e|c] w1]; simpl in *.
  - destruct Hm as [Hsame|[[=] _]]. rewrite <- Hsame. apply Hk.
  - destruct Hm as [Hsame|[[=] _]]. by left.
  - destruct Hm as [Hsame|[[= ->] Hp]]; [by left|by right].
Qed.

Lemma page_moves_try_except {A} (m : M A) h :
  page_moves next m -> (forall e, page_moves next (h e)) ->
  page_moves next (try_except m h).
Proof.
  intros Hm Hh w. unfold try_except. specialize (Hm w).
  destruct (m w) as [[a|e|c] w1]; simpl in *; [done| |done].
  destruct Hm as [Hsame|[[=] _]]. rewrite <- Hsame. apply Hh.
Qed.

Lemma page_moves_goto {A} p :
  p ∈ next ->
  page_moves next (modify (set_session (set_page p)) >> @st_rerun A).
Proof. intros Hp w. right. split; [done|]. by exists p. Qed.

End PageMoves.

Ltac page_step :=
  lazymatch goal with
  | |- page_moves _ (bind (modify (set_session (set_page _))) _) =>
      apply page_moves_goto; set_solver
  | |- page_moves _ (bind _ _) => apply page_moves_bind; [|intros ?]
  | |- page_moves _ (try_except _ _) => apply page_moves_try_except; [|intros ?]
  | |- page_moves _ (match ?x with _ => _ end) => destruct x
  | |- page_moves _ (if ?x then _ else _) => destruct x
  end.

Lemma keeps_page_question_loop inp names total qs :
  forall i seen,
    keeps (fun w => page (session w)) (question_loop inp names total i seen qs).
Proof.
  induction qs as [|q qs IH]; intros i seen; simpl.
  - apply keeps_ret.
  - unfold st_subheader, st_write, st_selectbox, the_selections.
    keeps_auto; first [by apply keeps_modify | apply IH].
Qed.

Lemma keeps_page_button inp label disabled :
  keeps (fun w => page (session w)) (st_button inp label disabled).
Proof. unfold st_button. keeps_auto. by apply keeps_modify. Qed.

Lemma keeps_page_the_selections : keeps (fun w => page (session w)) the_selections.
Proof. unfold the_selections. keeps_auto. Qed.

Ltac page_keeps :=
  apply page_moves_keeps;
  first [ apply keeps_ret | apply keeps_lift | apply keeps_get_world
        | apply keeps_page_button | apply keeps_page_the_selections
        | apply keeps_page_question_loop
        | apply (keeps_fetch_employees _ true (frame_session_view page true))
        | apply (keeps_fetch_questions _ true (frame_session_view page true))
        | by apply (keeps_append_responses _ true (frame_session_view page true))
        | by apply (keeps_update_employee_status _ true (frame_session_view page true))
        | by apply keeps_modify ].

Ltac page_auto := repeat page_step; try page_keeps.

Lemma page_moves_login_page inp : page_moves ["questions"] (login_page inp).
Proof.
  unfold login_page, st_error, st_success. page_auto.
Qed.

Lemma page_moves_submit_survey ue un qs :
  page_moves ["login"; "success"] (submit_survey ue un qs).
Proof.
  unfold submit_survey, st_error, st_warning. page_auto.
Qed.

Lemma page_moves_questions_page inp :
  page_moves ["login"; "success"] (questions_page inp).
Proof.
  unfold questions_page, st_error, st_info, st_warning. page_auto.
  apply page_moves_submit_survey.
Qed.

Lemma page_moves_success_page inp : page_moves ["login"] (success_page inp).
Proof.
  unfold success_page, st_write. page_auto.
Qed.

(** The routing of [main] by comparison of the page with the three
    names. *)
Lemma main_dispatch inp (op : option string) :
  match op with
  | Some "login" => login_page inp
  | Some "questions" => questions_page inp
  | Some "success" => success_page inp
  | _ =>
      st_error "Unknown page state. Resetting to login." >>
      modify (set_session (set_page "login")) >>
      st_rerun
  end
  = match op with
    | Some p =>
        if String.eqb p "login" then login_page inp
        else if String.eqb p "questions" then questions_page inp
        else if String.eqb p "success" then success_page inp
        else st_error "Unknown page state. Resetting to login." >>
             modify (set_session (set_page "login")) >>
             st_rerun
    | None =>
        st_error "Unknown page state. Resetting to login." >>
        modify (set_session (set_page "login")) >>
        st_rerun
    end.
Proof.
  destruct op as [p|]; [|reflexivity].
  repeat (destruct p as [|[[] [] [] [] [] [] [] []] p]; try reflexivity).
Qed.

Lemma no_rerun_write_grid ws g : no_rerun (write_grid ws g).
Proof. unfold write_grid. no_rerun_auto. Qed.

Lemma no_rerun_ensure_worksheet name header seed :
  no_rerun (ensure_worksheet name header seed).
Proof.
  unfold ensure_worksheet, worksheet_, add_worksheet, append_row, append_rows.
  no_rerun_auto;
    first [ apply no_rerun_api_call | apply no_rerun_gspread_WorksheetNotFound
          | apply no_rerun_write_grid ].
Qed.

(** [initialize_sheets] returns or stops the script. *)
Lemma initialize_sheets_outcome w :
  fst (initialize_sheets w) = Ok tt \/ fst (initialize_sheets w) = Halt StopException.
Proof.
  assert (no_rerun initialize_sheets) as Hnr.
  { unfold initialize_sheets, open_by_key. no_rerun_auto;
      first [ apply no_rerun_get_gspread_client | apply no_rerun_get_config
            | apply no_rerun_api_call | apply no_rerun_ensure_worksheet ]. }
  specialize (Hnr w).
  destruct (initialize_sheets w) as [o w'] eqn:E. simpl in *.
  unfold initialize_sheets in E.
  pose proof (get_gspread_client_outcome w) as (_ & _ & _ & _ & _ & Ho1).
  apply bind_inv in E as [(a & w1 & H1 & E)|[(e & w1 & H1 & _)|(c & w1 & H1 & [= -> _])]];
    rewrite H1 in Ho1; simpl in Ho1;
    [|by destruct Ho1 as [[? _]|?]|destruct Ho1 as [[? _]|?]; [done|by right]].
  pose proof (get_config_outcome w1) as (_ & _ & _ & _ & _ & Ho2).
  apply bind_inv in E as [(a2 & w2 & H2 & E)|[(e & w2 & H2 & _)|(c & w2 & H2 & [= -> _])]];
    rewrite H2 in Ho2; simpl in Ho2;
    [|by destruct Ho2 as [(? & ? & _)|?]
     |destruct Ho2 as [(? & ? & _)|[= ->]]; [done|by right]].
  apply bind_inv in E as [(w0 & w3 & [= <- <-] & E)|[(?&?&[=]&_)|(?&?&[=]&_)]].
  unfold try_except in E.
  match type of E with
  | match ?body ?w with _ => _ end = _ => destruct (body w) as [[[]|e|[]] w4]
  end; injection E as <- _; eauto.
  done.
Qed.

Lemma keeps_session_initialize_sheets : keeps session initialize_sheets.
Proof.
  pose proof (frame_session_view id true) as Hf. simpl in Hf.
  unfold initialize_sheets, ensure_worksheet, add_worksheet, append_row,
    append_rows, st_error.
  keeps_auto;
    first [ apply (keeps_get_gspread_client _ _ Hf) | apply (keeps_get_config _ _ Hf)
          | apply (keeps_open_by_key _ _ Hf) | apply (keeps_worksheet _ _ Hf)
          | apply keeps_gspread_WorksheetNotFound
          | apply (keeps_api_call _ _ Hf) | apply (keeps_draw _ _ Hf)
          | by apply (keeps_write_grid _ _ Hf) | by apply keeps_modify ].
Qed.

(** X12: a run of the script follows the page state machine.  Unless
    [initialize_sheets] stops the script at the start (the session is then
    as it was), the page after the run is the page before it (login when
    none was set), or the run has asked for a rerun and the page is one
    the state machine allows: questions after login; login or success
    after questions; login after success and after a page that is none of
    the three. *)
Theorem main_follows_page_transitions (inp : input) (w : world) :
  let p := default "login" (page (session w)) in
  let r := main inp w in
  (fst r = Halt StopException /\ session (snd r) = session w) \/
  page (session (snd r)) = Some p \/
  (fst r = Halt RerunException /\
   exists p', page (session (snd r)) = Some p' /\ p' ∈ next_pages p).
Proof.
  cbv zeta. unfold main.
  rewrite (bind_Ok get_world _ w w w) by done.
  set (init := match sheets_initialized (session w) with
               | Some _ => ret tt
               | None => initialize_sheets >>
                         modify (set_session (set_sheets_initialized (Some true)))
               end).
  assert ((fst (init w) = Halt StopException /\ session (snd (init w)) = session w) \/
          (fst (init w) = Ok tt /\ page (session (snd (init w))) = page (session w)))
    as Hinit.
  { unfold init. destruct (sheets_initialized (session w)); [by right|].
    unfold bind.
    pose proof (initialize_sheets_outcome w) as Ho.
    pose proof (keeps_session_initialize_sheets w) as Hs.
    destruct (initialize_sheets w) as [o w1]. simpl in *.
    destruct Ho as [-> | ->]; simpl; [right|left]; by rewrite ?Hs. }
  destruct (init w) as [o w1] eqn:Hi. simpl in Hinit.
  destruct Hinit as [[-> Hs]|[-> Hp]].
  { rewrite (bind_Halt _ _ _ _ _ Hi). by left. }
  rewrite (bind_Ok _ _ _ _ _ Hi). right.
  rewrite (bind_Ok get_world _ w1 w1 w1) by done.
  set (p := default "login" (page (session w))).
  set (w2 := match page (session w1) with
             | Some _ => w1
             | None => set_session (set_page "login") w1
             end).
  assert (page (session w2) = Some p) as Hp2.
  { unfold w2, p. rewrite <- Hp. by destruct (page (session w1)) eqn:E. }
  erewrite (bind_Ok _ _ w1 tt w2); [|unfold w2; by destruct (page (session w1))].
  rewrite (bind_Ok get_world _ w2 w2 w2) by done.
  rewrite main_dispatch, Hp2.
  unfold next_pages.
  destruct (String.eqb_spec p "login") as [Hl|Hnl].
  { destruct (page_moves_login_page inp w2) as [H|H]; [left|by right].
    by rewrite H. }
  destruct (String.eqb_spec p "questions") as [Hq|Hnq].
  { destruct (page_moves_questions_page inp w2) as [H|H]; [left|by right].
    by rewrite H. }
  destruct (String.eqb_spec p "success") as [Hsu|Hnsu].
  { destruct (page_moves_success_page inp w2) as [H|H]; [left|by right].
    by rewrite H. }
  right. split; [done|]. exists "login". split; [done|]. set_solver.
Qed.

(** ** Questions the page cannot draw *)

Lemma question_loop_runs inp names total qs :
  forall i seen w sel,
    selections (session w) = Some sel ->
    Forall (fun q : row => is_Some (q !! "question_id")) qs ->
    NoDup (question_key <$> qs) ->
    (forall q, q ∈ qs -> "sel_" +:+ question_key q ∉ seen) ->
    fst (question_loop inp names total i seen qs w) = Ok tt.
Proof.
  induction qs as [|q qs IH]; intros i seen w sel Hsel Hall Hnd Hfresh; [done|].
  rewrite (question_loop_cons _ _ _ _ _ _ _ _ sel Hsel).
  apply Forall_cons in Hall as [[v Hv] Hall].
  rewrite fmap_cons in Hnd. apply NoDup_cons in Hnd as [Hq Hnd].
  rewrite Hv. cbv zeta.
  pose proof (question_key_Some q v Hv) as Hk.
  rewrite bool_decide_false by (rewrite <- Hk; apply Hfresh; by left).
  eapply IH; [done|done|done|].
  intros q' Hq' [Heq%sel_key_inj|Hin]%elem_of_cons.
  - apply Hq. rewrite Hk, <- Heq. apply list_elem_of_fmap. by exists q'.
  - apply (Hfresh q'); [by right|done].
Qed.

Lemma question_loop_raises inp names total qs :
  forall i seen w sel,
    selections (session w) = Some sel ->
    let r := fst (question_loop inp names total i seen qs w) in
    r = Ok tt \/ r = Raise KeyError \/ r = Raise DuplicateWidgetID.
Proof.
  induction qs as [|q qs IH]; intros i seen w sel Hsel; [by left|].
  cbv zeta. rewrite (question_loop_cons _ _ _ _ _ _ _ _ sel Hsel).
  destruct (q !! "question_id") as [v|]; [|by right; left].
  cbv zeta. destruct (bool_decide _); [by right; right|].
  by eapply IH.
Qed.

(** X13: the select boxes of the questions page are drawn exactly when
    every question shown has a [question_id] and no two of them have the
    same [question_id] once written as text (their widget keys are
    "sel_" followed by that text, so the number 1 and the text "1"
    collide).  Otherwise the page ends in an exception: [KeyError] for a
    missing [question_id], Streamlit's duplicate-widget error for a
    repeated key. *)
Theorem question_loop_needs_distinct_ids
    (inp : input) (names : list pyval) (qs : list row) (w : world)
    (sel : gmap string pyval) :
  selections (session w) = Some sel ->
  let r := fst (question_loop inp names (length qs) 1 [] qs w) in
  (r = Ok tt <->
   Forall (fun q : row => is_Some (q !! "question_id")) qs /\
   NoDup (question_key <$> qs)) /\
  (r = Ok tt \/ r = Raise KeyError \/ r = Raise DuplicateWidgetID).
Proof.
  intros Hsel r. split; [split|].
  - intros Hr. unfold r in Hr.
    destruct (question_loop inp names (length qs) 1 [] qs w) as [o w'] eqn:Hrun.
    simpl in Hr. subst o.
    by apply (question_loop_Ok _ _ _ _ _ _ _ _ sel Hsel) in Hrun as (? & ? & _).
  - intros [Hall Hnd]. apply (question_loop_runs _ _ _ _ _ _ _ sel); try done.
    intros q _. apply not_elem_of_nil.
  - by apply (question_loop_raises _ _ _ _ _ _ _ sel).
Qed.

Lemma question_loop_needs_distinct_ids_witness :
  fst (question_loop (Input "" None ∅) [PStr "John Smith"] 2 1 []
         (records [[PStr "question_id"; PStr "question"];
                   [PInt 1; PStr "first"]; [PStr "1"; PStr "second"]])
         (sample_world seeded_sheets [] jane_answered_session))
  <> Ok tt.
Proof.
  intros Hok.
  destruct (question_loop_needs_distinct_ids (Input "" None ∅) [PStr "John Smith"]
              (records [[PStr "question_id"; PStr "question"];
                        [PInt 1; PStr "first"]; [PStr "1"; PStr "second"]])
              (sample_world seeded_sheets [] jane_answered_session)
              jane_answers eq_refl) as [[Hdistinct _] _].
  destruct (Hdistinct Hok) as [_ Hnd].
  apply NoDup_cons in Hnd as [Hnot _]. apply Hnot. by left.
Defined.

(** ** Outcomes of [get_sheet] *)

(** X14: how [get_sheet] ends in [vote.py], where [gspread] is not bound
    at module level.  It changes no worksheet.  With a configuration that
    passes the checks it draws nothing and either returns the handle of a
    worksheet that exists, or raises [NameError]: a failure of
    [open_by_key] or [worksheet] (a missing worksheet included) never
    reaches the two messages of the [except] clauses and never stops the
    script.  With a configuration that fails a check it draws an error
    and stops the script. *)
Theorem get_sheet_outcomes (name : string) (w : world) :
  gspread_bound w = false ->
  let r := get_sheet name w in
  sheets (snd r) = sheets w /\
  (sheets w !! name = None -> fst r <> Ok name) /\
  if config_ok (cfg w)
  then screen (snd r) = screen w /\
       ((fst r = Ok name /\ is_Some (sheets w !! name)) \/ fst r = Raise NameError)
  else fst r = Halt StopException /\
       exists msg, last (screen (snd r)) = Some (UiError msg).
Proof.
  destruct w as [[sp url sid cv] gb sh fs ck ec qc ss scr cl].
  unfold config_ok. simpl. intros ->.
  unfold get_sheet, get_config, get_gspread_client, open_by_key, worksheet_,
    api_call, gspread_WorksheetNotFound, bind, try_except.
  simpl.
  destruct sp; simpl;
    [|split; [done|]; split; [done|]; split; [done|]; eexists; by rewrite last_snoc].
  destruct cv; simpl;
    [|split; [done|]; split; [done|]; split; [done|]; eexists; by rewrite last_snoc].
  destruct (String.eqb url "") eqn:Hurl; simpl;
    [split; [done|]; split; [done|]; split; [done|]; eexists; by rewrite last_snoc|].
  destruct sid as [sid|]; simpl;
    [|split; [done|]; split; [done|]; split; [done|]; eexists; by rewrite last_snoc].
  destruct fs as [|[] [|[] fs']]; simpl;
    destruct (sh !! name) as [g|] eqn:Hg; simpl; rewrite ?Hg; simpl;
    (split; [done|]); (split; [try done; by intros _ [=]|]);
    (split; [done|]); eauto.
Qed.

Lemma get_sheet_outcomes_witness :
  fst (get_sheet "employee_details" (sample_world ∅ [] empty_session))
  = Raise NameError /\
  screen (snd (get_sheet "employee_details" (sample_world ∅ [] empty_session))) = [].
Proof.
  destruct (get_sheet_outcomes "employee_details" (sample_world ∅ [] empty_session)
              eq_refl) as (_ & Hmissing & Hscreen & [[Hok _]|Hraise]).
  - by destruct (Hmissing eq_refl).
  - split; [exact Hraise|exact Hscreen].
Defined.

(** ** The dashboard without responses *)

Lemma fetch_responses_failure w w1 e :
  read_table "employee_responses" w = (Raise e, w1) ->
  fetch_responses w
  = (Ok [], add_screen (UiWarning ("Failed to fetch responses: " +:+ exn_str e)) w1).
Proof.
  intros Hraise. unfold fetch_responses. fold (read_table "employee_responses").
  by erewrite try_except_Raise by exact Hraise.
Qed.

(** X15: the admin dashboard without responses.  When [fetch_responses]
    returns no record the dashboard draws "No responses submitted yet."
    and returns at once: neither the report, nor the employee statuses,
    nor the Logout button are drawn (of the messages and widgets the
    screen records, only this one appears), so a press of Logout has no
    effect and the session is as it was.  This is also what happens when
    reading the responses fails: the failure is turned into a warning and
    an empty list. *)
Theorem admin_dashboard_without_responses
    (inp : input) (w w1 : world) (qs : list row) :
  fetch_questions w = (Ok qs, w1) ->
  (forall w2,
     fetch_responses w1 = (Ok [], w2) ->
     admin_dashboard inp w
     = (Ok tt, add_screen (UiInfo "No responses submitted yet.") w2) /\
     session (snd (admin_dashboard inp w)) = session w /\
     sheets (snd (admin_dashboard inp w)) = sheets w) /\
  (forall e w2,
     read_table "employee_responses" w1 = (Raise e, w2) ->
     admin_dashboard inp w
     = (Ok tt,
        add_screen (UiInfo "No responses submitted yet.")
          (add_screen (UiWarning ("Failed to fetch responses: " +:+ exn_str e)) w2))).
Proof.
  intros Hq.
  assert (forall w2, fetch_responses w1 = (Ok [], w2) ->
            admin_dashboard inp w
            = (Ok tt, add_screen (UiInfo "No responses submitted yet.") w2)) as Hrun.
  { intros w2 Hr. unfold admin_dashboard.
    erewrite bind_Ok by exact Hq. by erewrite bind_Ok by exact Hr. }
  split.
  - intros w2 Hr. split; [by apply Hrun|]. rewrite (Hrun w2 Hr). simpl.
    pose proof (keeps_fetch_questions _ _ (frame_session_view id true) w) as Hs1.
    pose proof (keeps_fetch_responses _ _ (frame_session_view id true) w1) as Hs2.
    pose proof (keeps_fetch_questions _ _ frame_sheets_view w) as Hg1.
    pose proof (keeps_fetch_responses _ _ frame_sheets_view w1) as Hg2.
    rewrite Hq in Hs1, Hg1. rewrite Hr in Hs2, Hg2. simpl in *.
    split; congruence.
  - intros e w2 Hraise. apply Hrun. by apply fetch_responses_failure.
Qed.

Lemma admin_dashboard_without_responses_witness :
  fst (admin_dashboard (Input "" (Some "🚪 Logout") ∅)
         (sample_world seeded_sheets [] jane_session)) = Ok tt /\
  session (snd (admin_dashboard (Input "" (Some "🚪 Logout") ∅)
                  (sample_world seeded_sheets [] jane_session)))
  = jane_session.
Proof.
  destruct (admin_dashboard_without_responses
              (Input "" (Some "🚪 Logout") ∅)
              (sample_world seeded_sheets [] jane_session)
              (snd (fetch_questions (sample_world seeded_sheets [] jane_session)))
              sample_question_rows) as [Hnone _].
  - assert (match fst (fetch_questions (sample_world seeded_sheets [] jane_session)) with
            | Ok qs => bool_decide (qs = sample_question_rows)
            | _ => false
            end = true) as Hrun by (vm_compute; reflexivity).
    destruct (fetch_questions (sample_world seeded_sheets [] jane_session))
      as [[qs|e|c] w1]; simpl in *; try discriminate.
    apply bool_decide_eq_true in Hrun. by subst.
  - destruct (Hnone (snd (fetch_responses
                            (snd (fetch_questions
                                    (sample_world seeded_sheets [] jane_session))))))
      as (Hrun & Hsess & _).
    + assert (match fst (fetch_responses
                           (snd (fetch_questions
                                   (sample_world seeded_sheets [] jane_session)))) with
              | Ok [] => true
              | _ => false
              end = true) as Hrun by (vm_compute; reflexivity).
      destruct (fetch_responses _) as [[[|r rs]|e|c] w2]; simpl in *;
        try discriminate. reflexivity.
    + split; [by rewrite Hrun|exact Hsess].
Defined.

(** ** Cached reads *)

Lemma fetch_employees_fills_cache w es w1 :
  cache_miss (employees_cache w) (clock w) 300 = true ->
  fetch_employees w = (Ok es, w1) ->
  employees_cache w1 = Some (clock w1, es).
Proof.
  intros Hmiss Hrun. unfold fetch_employees in Hrun.
  rewrite cache_data_miss in Hrun by done.
  apply bind_Ok_inv in Hrun as (v & w2 & _ & Hrun).
  apply bind_Ok_inv in Hrun as (w3 & w4 & [= <- <-] & Hrun).
  by apply bind_Ok_inv in Hrun as ([] & w5 & [= <-] & [= <- <-]).
Qed.

(** X16: [fetch_employees] answers from its cache for five minutes.  After
    a run that read the roster (or failed to, and returned the empty
    list), every call made while the cache entry is less than 300 seconds
    old returns the same list without any call to the store, whatever the
    employees worksheet holds by then; once the entry is 300 seconds old,
    a call reads the worksheet again (with the configuration in place and
    no failure of the store, its records as they now stand). *)
Theorem fetch_employees_cached_for_five_minutes
    (w w1 w2 : world) (es : list row) :
  cache_miss (employees_cache w) (clock w) 300 = true ->
  fetch_employees w = (Ok es, w1) ->
  employees_cache w2 = employees_cache w1 ->
  (clock w2 < clock w1 + 300 ->
   fst (fetch_employees w2) = Ok es /\
   calls (snd (fetch_employees w2)) = calls w2) /\
  (clock w1 + 300 <= clock w2 ->
   forall g,
     config_ok (cfg w2) = true -> faults w2 = [] ->
     sheets w2 !! "employee_details" = Some g ->
     fst (fetch_employees w2) = Ok (records g)).
Proof.
  intros Hmiss Hrun Hcache.
  pose proof (fetch_employees_fills_cache w es w1 Hmiss Hrun) as Hfilled.
  rewrite <- Hcache in Hfilled. split.
  - intros Hfresh. unfold fetch_employees.
    by rewrite (cache_data_hit _ _ _ _ w2 (clock w1) es Hfilled Hfresh).
  - intros Hold g Hok Hfaults Hg. apply fetch_employees_run; try done.
    rewrite Hfilled. simpl. apply negb_true_iff, Nat.ltb_ge. lia.
Qed.

Lemma fetch_employees_cached_for_five_minutes_witness :
  fst (fetch_employees
         (set_sheets (fun _ => ∅)
            (snd (fetch_employees (sample_world seeded_sheets [] empty_session)))))
  = Ok (records (employee_header :: sample_employees)).
Proof.
  destruct (fetch_employees_cached_for_five_minutes
              (sample_world seeded_sheets [] empty_session)
              (snd (fetch_employees (sample_world seeded_sheets [] empty_session)))
              (set_sheets (fun _ => ∅)
                 (snd (fetch_employees (sample_world seeded_sheets [] empty_session))))
              (records (employee_header :: sample_employees)))
    as [Hhit _].
  - reflexivity.
  - assert (match fst (fetch_employees (sample_world seeded_sheets [] empty_session)) with
            | Ok es => bool_decide (es = records (employee_header :: sample_employees))
            | _ => false
            end = true) as Hrun by (vm_compute; reflexivity).
    destruct (fetch_employees (sample_world seeded_sheets [] empty_session))
      as [[es|e|c] w1]; simpl in *; try discriminate.
    apply bool_decide_eq_true in Hrun. by subst.
  - reflexivity.
  - apply Hhit. vm_compute. lia.
Defined.
